(** * The partner dashboard builder ([src/build_dashboard.py])

    A shallow embedding of the script: cell values as openpyxl hands them
    over, Python's numeric coercions and fixed-point formatting, the date
    arithmetic behind [excel_serial_to_datetime], the pandas frames cut out
    of the two sheets, the four chart slots, and [build] itself as a
    state-and-exception computation over a small file system.

    Python strings are kept as their UTF-8 bytes (Rocq [string]); the rupee
    sign and the em dash are three bytes each. *)

From stdpp Require Import gmap strings list.
From Stdlib Require Import Floats.SpecFloat DecimalString Ascii.
From Stdlib Require DecimalFacts DecimalPos.

Open Scope Z_scope.

(** ** Exceptions and results *)

Inductive exn :=
  | TypeError
  | ValueError
  | OverflowError
  | KeyError
  | IndexError
  | FileNotFoundError
  | FileExistsError
  | NotADirectoryError
  | IsADirectoryError
  | SameFileError
  | InvalidFileException
  | UnicodeDecodeError
  | OutOfBoundsTimedelta
  | TemplateError.

Inductive result (A : Type) :=
  | Ok (a : A)
  | Raise (e : exn).
Arguments Ok {A} a.
Arguments Raise {A} e.

#[global] Instance result_ret : MRet result := fun A a => Ok a.
#[global] Instance result_bind : MBind result := fun A B k r =>
  match r with
  | Ok a => k a
  | Raise e => Raise e
  end.

Definition raises {A} (r : result A) : Prop :=
  match r with
  | Ok _ => False
  | Raise _ => True
  end.

(** ** Cell values

    With [data_only=True] a cell holds [None], a bool, an int, a float, a
    str, or a [datetime]/[date].  Floats are binary64 values in the
    Standard Library's [spec_float] form (sign, mantissa, exponent).  Cells
    formatted as a time of day or a duration ([time], [timedelta]) are left
    out: the script has no case for them. *)

Record date := Date { year : Z; month : Z; day : Z }.

Record datetime := Datetime {
  dt_date : date;
  hour : Z;
  minute : Z;
  second : Z;
  microsecond : Z
}.

Inductive Value :=
  | VNone
  | VBool (b : bool)
  | VInt (z : Z)
  | VFloat (f : spec_float)
  | VStr (s : string)
  | VDatetime (dt : datetime)
  | VDate (d : date).

#[global] Instance exn_eq_dec : EqDecision exn.
Proof. solve_decision. Defined.
#[global] Instance result_eq_dec {A} `{EqDecision A} : EqDecision (result A).
Proof. solve_decision. Defined.
#[global] Instance spec_float_eq_dec : EqDecision spec_float.
Proof. solve_decision. Defined.
#[global] Instance date_eq_dec : EqDecision date.
Proof. solve_decision. Defined.
#[global] Instance datetime_eq_dec : EqDecision datetime.
Proof. solve_decision. Defined.
#[global] Instance Value_eq_dec : EqDecision Value.
Proof. solve_decision. Defined.

(** ** Binary64 numbers *)

Definition binary64 (m e : Z) : spec_float := binary_normalize 53 1024 m e false.

Definition float_of_Z (z : Z) : spec_float := binary64 z 0.

(** ** Decimal text *)

Definition digits (n : Z) : string := NilZero.string_of_uint (N.to_uint (Z.to_N n)).

Fixpoint zeros (n : nat) : string :=
  match n with
  | O => ""
  | S k => "0" +:+ zeros k
  end.

(** [pad w s]: [s] right-aligned in a field of [w] zeros, as [%02d] and the
    like do. *)
Definition pad (w : nat) (s : string) : string :=
  zeros (w - String.length s) +:+ s.

Definition str_int (z : Z) : string :=
  if z <? 0 then "-" +:+ digits (- z) else digits z.

(** ** Fixed-point formatting: [format(x, ",.Nf")]

    CPython rounds the exact binary value to [d] decimals, ties to even,
    and groups the integer part in threes. *)

Definition round_half_even (num den : Z) : Z :=
  let q := num / den in
  match 2 * (num mod den) ?= den with
  | Lt => q
  | Gt => q + 1
  | Eq => if Z.even q then q else q + 1
  end.

(** |x| * 10^d rounded to an integer, for x = m * 2^e. *)
Definition scaled_magnitude (m : positive) (e : Z) (d : nat) : Z :=
  let p := 10 ^ Z.of_nat d in
  if 0 <=? e then Z.pos m * 2 ^ e * p
  else round_half_even (Z.pos m * p) (2 ^ (- e)).

Fixpoint comma_rev (l : list ascii) : list ascii :=
  match l with
  | a :: b :: c :: ((_ :: _) as rest) => a :: b :: c :: ","%char :: comma_rev rest
  | _ => l
  end.

Definition thousands (s : string) : string :=
  String.string_of_list_ascii (rev (comma_rev (rev (String.list_ascii_of_string s)))).

Definition fixed_digits (d : nat) (q : Z) : string :=
  let ds := String.list_ascii_of_string (pad (S d) (digits q)) in
  let k := (List.length ds - d)%nat in
  let int_part := String.string_of_list_ascii (take k ds) in
  let frac_part := String.string_of_list_ascii (drop k ds) in
  thousands int_part +:+ (if d is O then "" else "." +:+ frac_part).

Definition sign_text (s : bool) : string := if s then "-" else "".

Definition format_fixed (d : nat) (f : spec_float) : string :=
  match f with
  | S754_nan => "nan"
  | S754_infinity s => sign_text s +:+ "inf"
  | S754_zero s => sign_text s +:+ fixed_digits d 0
  | S754_finite s m e => sign_text s +:+ fixed_digits d (scaled_magnitude m e d)
  end.

(** ** What CPython decides

    The script is glue over CPython, pandas, plotly and jinja2.  What the
    source calls in those libraries and is not modelled here digit by digit
    is taken through one interface per library; every theorem holds for any
    implementation of them.  For CPython these are the parsers behind
    [float(str)] and [int(str)] ([None] stands for [ValueError]) and the
    shortest-round-trip [repr] of a float. *)

Class CPython := {
  float_of_str : string -> option spec_float;
  int_of_str : string -> option Z;
  repr_float : spec_float -> string
}.

(** ** Python's built-in conversions on cell values *)

Definition is_none (x : Value) : bool :=
  match x with
  | VNone => true
  | _ => false
  end.

(** [isinstance(x, float)]: a bool or an int is not a float. *)
Definition isinstance_float (x : Value) : bool :=
  match x with
  | VFloat _ => true
  | _ => false
  end.

(** [isinstance(x, (int, float))]: [bool] is a subclass of [int]. *)
Definition isinstance_int_float (x : Value) : bool :=
  match x with
  | VBool _ | VInt _ | VFloat _ => true
  | _ => false
  end.

Definition isnan (x : Value) : bool :=
  match x with
  | VFloat S754_nan => true
  | _ => false
  end.

(** Truth value in a condition. *)
Definition truthy (x : Value) : bool :=
  match x with
  | VNone => false
  | VBool b => b
  | VInt z => negb (z =? 0)
  | VFloat (S754_zero _) => false
  | VFloat _ => true
  | VStr s => negb (bool_decide (s = ""))
  | VDatetime _ | VDate _ => true
  end.

Definition isoformat (d : date) : string :=
  pad 4 (digits (year d)) +:+ "-" +:+ pad 2 (digits (month d)) +:+ "-" +:+ pad 2 (digits (day d)).

Definition str_datetime (dt : datetime) : string :=
  isoformat (dt_date dt) +:+ " " +:+ pad 2 (digits (hour dt)) +:+ ":" +:+
  pad 2 (digits (minute dt)) +:+ ":" +:+ pad 2 (digits (second dt)) +:+
  (if microsecond dt =? 0 then "" else "." +:+ pad 6 (digits (microsecond dt))).

Section Conversions.
Context `{CPython}.

(** [float(x)]; an int beyond the binary64 range raises [OverflowError]. *)
Definition py_float (x : Value) : result spec_float :=
  match x with
  | VNone => Raise TypeError
  | VBool b => Ok (float_of_Z (if b then 1 else 0))
  | VInt z =>
      match float_of_Z z with
      | S754_infinity _ => Raise OverflowError
      | f => Ok f
      end
  | VFloat f => Ok f
  | VStr s =>
      match float_of_str s with
      | Some f => Ok f
      | None => Raise ValueError
      end
  | VDatetime _ | VDate _ => Raise TypeError
  end.

(** [int(x)]: truncation toward zero on floats. *)
Definition py_int (x : Value) : result Z :=
  match x with
  | VNone => Raise TypeError
  | VBool b => Ok (if b then 1 else 0)
  | VInt z => Ok z
  | VFloat S754_nan => Raise ValueError
  | VFloat (S754_infinity _) => Raise OverflowError
  | VFloat (S754_zero _) => Ok 0
  | VFloat (S754_finite s m e) =>
      let mag := if 0 <=? e then Z.pos m * 2 ^ e else Z.pos m / 2 ^ (- e) in
      Ok (if s then - mag else mag)
  | VStr s =>
      match int_of_str s with
      | Some z => Ok z
      | None => Raise ValueError
      end
  | VDatetime _ | VDate _ => Raise TypeError
  end.

(** [str(x)]. *)
Definition py_str (x : Value) : string :=
  match x with
  | VNone => "None"
  | VBool b => if b then "True" else "False"
  | VInt z => str_int z
  | VFloat f => repr_float f
  | VStr s => s
  | VDatetime dt => str_datetime dt
  | VDate d => isoformat d
  end.

(** ** The currency formatters (source lines 74-93)

    [money0_try] and [money2_try] are the bodies of the two [try] blocks;
    [except Exception] turns any exception into [str(x)]. *)

Definition money0_try (x : Value) : result string :=
  if is_none x then Ok "₹0"
  else if isinstance_float x && isnan x then Ok "₹0"
  else f ← py_float x; Ok ("₹" +:+ format_fixed 0 f).

Definition money0 (x : Value) : string :=
  match money0_try x with
  | Ok s => s
  | Raise _ => py_str x
  end.

Definition money2_try (x : Value) : result string :=
  if is_none x then Ok "₹0.00"
  else if isinstance_float x && isnan x then Ok "₹0.00"
  else f ← py_float x; Ok ("₹" +:+ format_fixed 2 f).

Definition money2 (x : Value) : string :=
  match money2_try x with
  | Ok s => s
  | Raise _ => py_str x
  end.

End Conversions.

(** ** Calendar arithmetic, as in CPython's [datetime] *)

Definition is_leap (y : Z) : bool :=
  (y mod 4 =? 0) && (negb (y mod 100 =? 0) || (y mod 400 =? 0)).

Definition days_before_year (y : Z) : Z :=
  let p := y - 1 in p * 365 + p / 4 - p / 100 + p / 400.

Definition DAYS_IN_MONTH : list Z := [31; 28; 31; 30; 31; 30; 31; 31; 30; 31; 30; 31].

Definition days_in_month_table (m : Z) : Z := nth (Z.to_nat (m - 1)) DAYS_IN_MONTH 0.

Definition DAYS_BEFORE_MONTH (m : Z) : Z :=
  fold_right Z.add 0 (take (Z.to_nat (m - 1)) DAYS_IN_MONTH).

Definition days_in_month (y m : Z) : Z :=
  if (m =? 2) && is_leap y then 29 else days_in_month_table m.

Definition days_before_month (y m : Z) : Z :=
  DAYS_BEFORE_MONTH m + (if (2 <? m) && is_leap y then 1 else 0).

Definition ymd2ord (d : date) : Z :=
  days_before_year (year d) + days_before_month (year d) (month d) + day d.

Definition DI400Y : Z := days_before_year 401.
Definition DI100Y : Z := days_before_year 101.
Definition DI4Y : Z := days_before_year 5.

Definition ord2ymd (ordinal : Z) : date :=
  let n := ordinal - 1 in
  let n400 := n / DI400Y in
  let n := n mod DI400Y in
  let y := n400 * 400 + 1 in
  let n100 := n / DI100Y in
  let n := n mod DI100Y in
  let n4 := n / DI4Y in
  let n := n mod DI4Y in
  let n1 := n / 365 in
  let n := n mod 365 in
  let y := y + n100 * 100 + n4 * 4 + n1 in
  if (n1 =? 4) || (n100 =? 4) then Date (y - 1) 12 31
  else
    let leapyear := (n1 =? 3) && (negb (n4 =? 24) || (n100 =? 3)) in
    let m := Z.shiftr (n + 50) 5 in
    let preceding := DAYS_BEFORE_MONTH m + (if (2 <? m) && leapyear then 1 else 0) in
    if n <? preceding then
      let m := m - 1 in
      let preceding :=
        preceding - (days_in_month_table m + (if (m =? 2) && leapyear then 1 else 0)) in
      Date y m (n - preceding + 1)
    else Date y m (n - preceding + 1).

Definition MAXORDINAL : Z := 3652059.

Definition MONTH_ABBR : list string :=
  ["Jan"; "Feb"; "Mar"; "Apr"; "May"; "Jun"; "Jul"; "Aug"; "Sep"; "Oct"; "Nov"; "Dec"].

(** [d.strftime("%b %d, %Y")] in the C locale; the year is written with four
    digits (below the year 1000 the C library decides the padding). *)
Definition strftime (d : date) : string :=
  nth (Z.to_nat (month d - 1)) MONTH_ABBR "" +:+ " " +:+ pad 2 (digits (day d)) +:+ ", " +:+
  pad 4 (digits (year d)).

(** ** [pd.to_timedelta(x, unit="D")] and [datetime + Timedelta]

    pandas keeps a duration as a signed 64-bit count of nanoseconds.  A float
    number of days is split into its whole part and its fraction, the
    fraction is rounded to nine decimals, and both are scaled to
    nanoseconds.  The scaled fraction is formed exactly here; pandas forms it
    in binary64 and can come out one nanosecond short, which does not move
    the calendar day.  NaN gives [NaT]. *)

Inductive timedelta :=
  | NaT
  | Timedelta (ns : Z).

Definition DAY_NS : Z := 86400 * 10 ^ 9.

Definition to_timedelta_days (f : spec_float) : result timedelta :=
  match f with
  | S754_nan => Ok NaT
  | S754_infinity _ => Raise OutOfBoundsTimedelta
  | S754_zero _ => Ok (Timedelta 0)
  | S754_finite s m e =>
      let base := if 0 <=? e then Z.pos m * 2 ^ e else Z.pos m / 2 ^ (- e) in
      let k := if 0 <=? e then 0
               else round_half_even ((Z.pos m mod 2 ^ (- e)) * 10 ^ 9) (2 ^ (- e)) in
      let mag := base * DAY_NS + k * 86400 in
      let ns := if s then - mag else mag in
      if (- 2 ^ 63 <? ns) && (ns <? 2 ^ 63) then Ok (Timedelta ns)
      else Raise OutOfBoundsTimedelta
  end.

Definition DAY_US : Z := 86400 * 10 ^ 6.

(** [dt + td]: an addition with [NaT] is [NaT], on which [strftime] raises
    [ValueError]; the result is [None] then. *)
Definition datetime_add (dt : datetime) (td : timedelta) : result (option datetime) :=
  match td with
  | NaT => Ok None
  | Timedelta ns =>
      let us := ((hour dt * 60 + minute dt) * 60 + second dt) * 10 ^ 6 + microsecond dt
                + ns / 1000 in
      let ord := ymd2ord (dt_date dt) + us / DAY_US in
      let r := us mod DAY_US in
      if (0 <? ord) && (ord <=? MAXORDINAL) then
        Ok (Some (Datetime (ord2ymd ord) (r / (3600 * 10 ^ 6)) (r / (60 * 10 ^ 6) mod 60)
                           (r / 10 ^ 6 mod 60) (r mod 10 ^ 6)))
      else Raise OverflowError
  end.

Definition EPOCH : datetime := Datetime (Date 1899 12 30) 0 0 0 0.

(** ** The date formatter (source lines 65-71) *)

Section DateFormatter.
Context `{CPython}.

Definition excel_serial_to_datetime (x : Value) : result string :=
  match x with
  | VDatetime dt => Ok (strftime (dt_date dt))
  | VDate d => Ok (strftime d)
  | _ =>
      if isinstance_int_float x && truthy x then
        f ← py_float x;
        td ← to_timedelta_days f;
        d ← datetime_add EPOCH td;
        match d with
        | Some d => Ok (strftime (dt_date d))
        | None => Raise ValueError
        end
      else Ok "—"
  end.

End DateFormatter.

(** ** Text helpers *)

Fixpoint contains (needle s : string) : bool :=
  String.prefix needle s ||
  match s with
  | EmptyString => false
  | String _ rest => contains needle rest
  end.

Definition lower_ascii (c : ascii) : ascii :=
  let n := nat_of_ascii c in
  if (65 <=? n)%nat && (n <=? 90)%nat then ascii_of_nat (n + 32) else c.

(** [s.lower()] on the UTF-8 bytes.  Outside ASCII, [str.lower] yields an
    ASCII letter only for U+0130 (an [i] followed by a combining dot) and
    U+212A ([k]); no keyword of [CURRENCY_KEYWORDS] starts with [i] or
    contains [i] before the end of a match, or contains [k], so keyword
    search in the lowered name is the same on bytes. *)
Fixpoint lower (s : string) : string :=
  match s with
  | EmptyString => EmptyString
  | String c rest => String (lower_ascii c) (lower rest)
  end.

(** ** Worksheets and workbooks (openpyxl)

    A sheet maps (row, column), both counted from 1, to the cached value of
    the cell; a cell that was never written reads as [None]. *)

Definition Worksheet : Type := gmap (nat * nat) Value.
Definition Workbook : Type := gmap string Worksheet.

(** [ws.cell(r, c).value] *)
Definition cell_value (ws : Worksheet) (r c : nat) : Value :=
  default VNone (ws !! (r, c)).

(** [wb[name]] *)
Definition wb_getitem (wb : Workbook) (name : string) : result Worksheet :=
  match wb !! name with
  | Some ws => Ok ws
  | None => Raise KeyError
  end.

(** Cell addresses such as ["B3"]: column letters, then the row number. *)
Definition column_letter (c : ascii) : option nat :=
  let n := nat_of_ascii c in
  if (65 <=? n)%nat && (n <=? 90)%nat then Some (n - 64)%nat else None.

Fixpoint address_go (col : nat) (s : string) : option (nat * nat) :=
  match s with
  | EmptyString => None
  | String c rest =>
      match column_letter c with
      | Some k => address_go (col * 26 + k) rest
      | None =>
          match NilZero.uint_of_string s with
          | Some u => if (0 <? col)%nat && (0 <? Nat.of_uint u)%nat
                      then Some (Nat.of_uint u, col) else None
          | None => None
          end
      end
  end.

Definition coordinate (address : string) : option (nat * nat) := address_go 0 address.

(** [ws[address].value] *)
Definition ws_getitem (ws : Worksheet) (address : string) : result Value :=
  match coordinate address with
  | Some (r, c) => Ok (cell_value ws r c)
  | None => Raise ValueError
  end.

(** ** Config (source lines 20-59) *)

Definition SHEET_SUMMARY : string := "Summary".
Definition SHEET_DASHBOARD : string := "Dashboard".

Definition CELL_TOTAL_PURCHASES : string := "B3".
Definition CELL_TOTAL_SALES_COMPLETED : string := "B4".
Definition CELL_PROFIT_LOSS_COMPLETED : string := "B6".
Definition CELL_PROFIT_STATUS : string := "B7".

Definition CELL_LAST_UPDATED : string := "B3".
Definition CELL_PENDING_STOCK_VALUE : string := "E6".
Definition CELL_QTY_SOLD : string := "G10".
Definition CELL_QTY_PENDING : string := "G11".

Definition MONTH_HEADER_ROW : nat := 9.
Definition MONTH_DATA_ROWS : nat * nat := (10, 21)%nat.
Definition MONTH_COLS : nat * nat := (1, 4)%nat.

Definition CATQTY_HEADER_ROW : nat := 46.
Definition CATQTY_DATA_ROWS : nat * nat := (47, 49)%nat.
Definition CATQTY_COLS : nat * nat := (6, 8)%nat.

Definition PENDVAL_HEADER_ROW : nat := 46.
Definition PENDVAL_DATA_ROWS : nat * nat := (47, 49)%nat.
Definition PENDVAL_COLS : nat * nat := (10, 11)%nat.

Definition CONTRIB_HEADER_ROW : nat := 17.
Definition CONTRIB_DATA_ROWS : nat * nat := (18, 20)%nat.
Definition CONTRIB_COLS : nat * nat := (1, 7)%nat.

Definition CASH_HEADER_ROW : nat := 25.
Definition CASH_DATA_ROWS : nat * nat := (26, 28)%nat.
Definition CASH_COLS : nat * nat := (1, 7)%nat.

(** ** Frames (pandas)

    A frame is its ordered column labels and its rows.  Every cell keeps the
    value read from the sheet: the dtype that pandas infers per column (an
    int next to a float or a [None] stored as a float, [None] as NaN or NaT)
    is not tracked. *)

Record DataFrame := { columns : list Value; rows : list (list Value) }.

Definition frame_wf (df : DataFrame) : Prop :=
  Forall (fun r => List.length r = List.length (columns df)) (rows df).

(** [range(lo, hi + 1)] *)
Definition py_range (lo hi : nat) : list nat := seq lo (hi + 1 - lo).

(** Source lines 96-100. *)
Definition read_range (ws : Worksheet) (min_row max_row min_col max_col : nat)
  : list (list Value) :=
  map (fun r => map (fun c => cell_value ws r c) (py_range min_col max_col))
      (py_range min_row max_row).

(** [pd.DataFrame(data, columns=headers)]: every row must be as wide as the
    header. *)
Definition pd_DataFrame (data : list (list Value)) (headers : list Value) : result DataFrame :=
  if forallb (fun r => (List.length r =? List.length headers)%nat) data
  then Ok {| columns := headers; rows := data |}
  else Raise ValueError.

(** Source lines 103-106; [[0]] of an empty list is an [IndexError]. *)
Definition df_from_range (ws : Worksheet) (header_row : nat) (data_rows cols : nat * nat)
  : result DataFrame :=
  match read_range ws header_row header_row (fst cols) (snd cols) with
  | [] => Raise IndexError
  | headers :: _ =>
      let data := read_range ws (fst data_rows) (snd data_rows) (fst cols) (snd cols) in
      pd_DataFrame data headers
  end.

(** *** Labels

    Two labels name the same column when they are equal in Python: numbers
    by value across bool, int and float, everything else within its type.
    pandas also matches a NaN label with a NaN label. *)

Inductive number :=
  | NumNan
  | NumInf (s : bool)
  | NumFin (m e : Z).

Definition number_of (v : Value) : option number :=
  match v with
  | VBool b => Some (NumFin (if b then 1 else 0) 0)
  | VInt z => Some (NumFin z 0)
  | VFloat S754_nan => Some NumNan
  | VFloat (S754_infinity s) => Some (NumInf s)
  | VFloat (S754_zero _) => Some (NumFin 0 0)
  | VFloat (S754_finite s m e) => Some (NumFin (if s then Z.neg m else Z.pos m) e)
  | _ => None
  end.

Definition number_eqb (a b : number) : bool :=
  match a, b with
  | NumNan, NumNan => true
  | NumInf s, NumInf t => bool_decide (s = t)
  | NumFin m1 e1, NumFin m2 e2 =>
      let e := Z.min e1 e2 in m1 * 2 ^ (e1 - e) =? m2 * 2 ^ (e2 - e)
  | _, _ => false
  end.

Definition label_eqb (a b : Value) : bool :=
  match number_of a, number_of b with
  | Some x, Some y => number_eqb x y
  | None, None => bool_decide (a = b)
  | _, _ => false
  end.

(** Positions of the columns labelled [c], counted from [i]. *)
Fixpoint positions_from (i : nat) (labels : list Value) (c : Value) : list nat :=
  match labels with
  | [] => []
  | l :: rest =>
      if label_eqb l c then i :: positions_from (S i) rest c
      else positions_from (S i) rest c
  end.

Definition positions (df : DataFrame) (c : Value) : list nat :=
  positions_from 0 (columns df) c.

(** [c in df.columns], and membership in [set(df.columns)]. *)
Definition has_column (df : DataFrame) (c : Value) : bool :=
  existsb (fun l => label_eqb l c) (columns df).

(** [{...}.issubset(set(df.columns))] *)
Definition issubset (names : list string) (df : DataFrame) : bool :=
  forallb (fun n => has_column df (VStr n)) names.

Definition column_at (df : DataFrame) (i : nat) : list Value :=
  map (fun r => nth i r VNone) (rows df).

(** [df[c]] is a Series when one column carries the label and a frame of all
    the columns that carry it otherwise. *)
Inductive Selection :=
  | Series (values : list Value)
  | SubFrame (cols : list (list Value)).

Definition getitem (df : DataFrame) (c : Value) : result Selection :=
  match positions df c with
  | [] => Raise KeyError
  | [i] => Ok (Series (column_at df i))
  | ps => Ok (SubFrame (map (column_at df) ps))
  end.

(** Overwrite column [i], row by row. *)
Fixpoint set_column_at (i : nat) (rs : list (list Value)) (values : list Value)
  : list (list Value) :=
  match rs, values with
  | r :: rs', v :: values' => <[i := v]> r :: set_column_at i rs' values'
  | _, _ => rs
  end.

(** [df.iloc[:, idx]]: positions from the left, or from the right when
    negative. *)
Definition iloc_position (n : nat) (i : Z) : result nat :=
  let j := if i <? 0 then Z.of_nat n + i else i in
  if (0 <=? j) && (j <? Z.of_nat n) then Ok (Z.to_nat j) else Raise IndexError.

Fixpoint iloc_positions (n : nat) (idx : list Z) : result (list nat) :=
  match idx with
  | [] => Ok []
  | i :: rest =>
      j ← iloc_position n i;
      js ← iloc_positions n rest;
      Ok (j :: js)
  end.

Definition iloc_columns (df : DataFrame) (idx : list Z) : result DataFrame :=
  js ← iloc_positions (List.length (columns df)) idx;
  Ok {| columns := map (fun j => nth j (columns df) VNone) js;
        rows := map (fun r => map (fun j => nth j r VNone) js) (rows df) |}.

(** ** What pandas decides

    [numeric_of_str] is the number parser of [pd.to_numeric] ([None]: the
    text is not a number).  [apply_setitem_duplicated df col] is what
    [df[col] = df[col].apply(money2)] does when several columns are labelled
    [col]. *)

Inductive pd_number :=
  | PdInt (z : Z)
  | PdFloat (f : spec_float).

Definition value_of_number (n : pd_number) : Value :=
  match n with
  | PdInt z => VInt z
  | PdFloat f => VFloat f
  end.

Class Pandas := {
  numeric_of_str : string -> option pd_number;
  apply_setitem_duplicated : DataFrame -> Value -> result DataFrame
}.

Definition NAN : Value := VFloat S754_nan.

Section Frames.
Context `{CPython} `{Pandas}.

(** One entry under [pd.to_numeric(..., errors="coerce")]: numbers stay,
    text is parsed, anything invalid becomes NaN.  (pandas stores the column
    in one dtype, so an int may come back as the float of the same value;
    each number is kept as it is here.) *)
Definition to_numeric_entry (v : Value) : Value :=
  match v with
  | VBool _ | VInt _ | VFloat _ => v
  | VStr s => default NAN (value_of_number <$> numeric_of_str s)
  | VNone | VDatetime _ | VDate _ => NAN
  end.

(** [pd.to_numeric(arg, errors="coerce")]: a frame is refused. *)
Definition to_numeric (arg : Selection) : result (list Value) :=
  match arg with
  | Series values => Ok (map to_numeric_entry values)
  | SubFrame _ => Raise TypeError
  end.

(** [.fillna(0)] on a numeric Series *)
Definition fillna0 (values : list Value) : list Value :=
  map (fun v => if isnan v then VInt 0 else v) values.

(** [df[c] = values] for a label that is present once. *)
Definition setitem (df : DataFrame) (c : Value) (values : list Value) : result DataFrame :=
  match positions df c with
  | [i] => Ok {| columns := columns df; rows := set_column_at i (rows df) values |}
  | _ => Raise ValueError
  end.

(** Source lines 153-155, 158-160 and 163-164:
    [for c in names: if c in df.columns: df[c] = pd.to_numeric(df[c], errors="coerce").fillna(0)] *)
Fixpoint coerce_numeric (names : list string) (df : DataFrame) : result DataFrame :=
  match names with
  | [] => Ok df
  | c :: rest =>
      if has_column df (VStr c) then
        sel ← getitem df (VStr c);
        values ← to_numeric sel;
        df' ← setitem df (VStr c) (fillna0 values);
        coerce_numeric rest df'
      else coerce_numeric rest df
  end.

(** ** The column-wide currency formatter (source lines 109-115) *)

Definition CURRENCY_KEYWORDS : list string :=
  ["amount"; "value"; "paid"; "balance"; "target"; "excess"; "collected";
   "transferred"; "share"].

(** The condition of line 113 on [col_s = str(col)]. *)
Definition is_currency_name (col_s : string) : bool :=
  contains "₹" col_s || existsb (fun k => contains k (lower col_s)) CURRENCY_KEYWORDS.

(** [df2[col] = df2[col].apply(money2)] *)
Definition apply_money2 (df2 : DataFrame) (col : Value) : result DataFrame :=
  sel ← getitem df2 col;
  match sel with
  | Series values => setitem df2 col (map (fun v => VStr (money2 v)) values)
  | SubFrame _ => apply_setitem_duplicated df2 col
  end.

Fixpoint format_columns (cols : list Value) (df2 : DataFrame) : result DataFrame :=
  match cols with
  | [] => Ok df2
  | col :: rest =>
      if is_currency_name (py_str col) then
        df2' ← apply_money2 df2 col;
        format_columns rest df2'
      else format_columns rest df2
  end.

(** A Python dict in insertion order; a key that is already there keeps its
    place and takes the new value. *)
Fixpoint dict_set (d : list (Value * Value)) (k v : Value) : list (Value * Value) :=
  match d with
  | [] => [(k, v)]
  | (k', v') :: rest =>
      if label_eqb k' k then (k', v) :: rest else (k', v') :: dict_set rest k v
  end.

Definition dict_of (pairs : list (Value * Value)) : list (Value * Value) :=
  fold_left (fun d kv => dict_set d (fst kv) (snd kv)) pairs [].

(** [df.to_dict(orient="records")] *)
Definition to_dict_records (df : DataFrame) : list (list (Value * Value)) :=
  map (fun r => dict_of (zip (columns df) r)) (rows df).

Definition format_df_currency (df : DataFrame)
  : result (list (list (Value * Value)) * list Value) :=
  df2 ← format_columns (columns df) df;
  Ok (to_dict_records df2, columns df2).

End Frames.

(** ** The world a run sees

    A file system of absolute paths (lists of components), the lines printed
    so far, and the identifiers that [uuid.uuid4()] will hand out.  A file is
    a workbook or text; whatever is not a readable workbook is not loaded
    by openpyxl, and a workbook is not UTF-8 text. *)

Definition path : Type := list string.

Inductive file :=
  | Spreadsheet (wb : Workbook)
  | Text (s : string).

Inductive node :=
  | Dir
  | File (f : file).

#[global] Instance file_eq_dec : EqDecision file.
Proof. unfold Workbook, Worksheet. solve_decision. Defined.
#[global] Instance node_eq_dec : EqDecision node.
Proof. solve_decision. Defined.

Record World := {
  fs : gmap path node;
  stdout : list string;
  uuid_source : nat -> string;
  uuid_drawn : nat
}.

Definition set_fs (w : World) (m : gmap path node) : World :=
  {| fs := m; stdout := stdout w; uuid_source := uuid_source w; uuid_drawn := uuid_drawn w |}.

(** Computations that read and change the world and may raise; the world
    reached when the exception is raised is kept. *)
Definition io (A : Type) : Type := World -> result A * World.

#[global] Instance io_ret : MRet io := fun A a w => (Ok a, w).
#[global] Instance io_bind : MBind io := fun A B k m w =>
  match m w with
  | (Ok a, w') => k a w'
  | (Raise e, w') => (Raise e, w')
  end.

Definition lift {A} (r : result A) : io A := fun w => (r, w).

Definition raise {A} (e : exn) : io A := lift (Raise e).

(** [str(uuid.uuid4())] *)
Definition uuid4 : io string := fun w =>
  (Ok (uuid_source w (uuid_drawn w)),
   {| fs := fs w; stdout := stdout w; uuid_source := uuid_source w;
      uuid_drawn := S (uuid_drawn w) |}).

Definition print (line : string) : io unit := fun w =>
  (Ok tt,
   {| fs := fs w; stdout := stdout w ++ [line]; uuid_source := uuid_source w;
      uuid_drawn := uuid_drawn w |}).

(** [p / name] *)
Definition joinpath (p : path) (name : string) : path := p ++ [name].

Definition parent (p : path) : path := removelast p.

Definition path_str (p : path) : string :=
  fold_right (fun c acc => "/" +:+ c +:+ acc) "" p.

(** [p.exists()] *)
Definition path_exists (p : path) : io bool := fun w =>
  (Ok (bool_decide (p = []) || bool_decide (is_Some (fs w !! p))), w).

Definition is_dir (m : gmap path node) (p : path) : bool :=
  bool_decide (p = []) || bool_decide (m !! p = Some Dir).

(** [p.mkdir(parents=True, exist_ok=True)]: walk down from the root; a
    directory on the way is kept, a file in the way is an error, what is
    missing is created. *)
Fixpoint mkdir_from (done : path) (todo : list string) (m : gmap path node)
  : result (gmap path node) :=
  match todo with
  | [] => Ok m
  | name :: rest =>
      let p := joinpath done name in
      match m !! p with
      | Some Dir => mkdir_from p rest m
      | Some (File _) => Raise (if rest is [] then FileExistsError else NotADirectoryError)
      | None => mkdir_from p rest (<[p := Dir]> m)
      end
  end.

Definition mkdir_parents (p : path) : io unit := fun w =>
  match mkdir_from [] p (fs w) with
  | Ok m => (Ok tt, set_fs w m)
  | Raise e => (Raise e, w)
  end.

(** [os.path.splitext(name)[-1]]: from the last dot on, unless only dots
    come before it. *)
Fixpoint ext_rev (acc rev_name : list ascii) : list ascii :=
  match rev_name with
  | [] => []
  | c :: rest =>
      if Ascii.eqb c "."%char
      then if existsb (fun a => negb (Ascii.eqb a "."%char)) rest then c :: acc else []
      else ext_rev (c :: acc) rest
  end.

Definition splitext_ext (name : string) : string :=
  String.string_of_list_ascii (ext_rev [] (rev (String.list_ascii_of_string name))).

Definition SUPPORTED_FORMATS : list string := [".xlsx"; ".xlsm"; ".xltx"; ".xltm"].

(** [openpyxl.load_workbook(p, data_only=True)]: the extension is checked
    first, then the file is opened and parsed. *)
Definition load_workbook (p : path) : io Workbook := fun w =>
  if negb (bool_decide (lower (splitext_ext (List.last p "")) ∈ SUPPORTED_FORMATS))
  then (Raise InvalidFileException, w)
  else
    match fs w !! p with
    | None => (Raise FileNotFoundError, w)
    | Some Dir => (Raise IsADirectoryError, w)
    | Some (File (Spreadsheet wb)) => (Ok wb, w)
    | Some (File (Text _)) => (Raise InvalidFileException, w)
    end.

(** [p.read_text(encoding="utf-8")] *)
Definition read_text (p : path) : io string := fun w =>
  match fs w !! p with
  | None => (Raise FileNotFoundError, w)
  | Some Dir => (Raise IsADirectoryError, w)
  | Some (File (Text s)) => (Ok s, w)
  | Some (File (Spreadsheet _)) => (Raise UnicodeDecodeError, w)
  end.

(** Opening [p] for writing. *)
Definition open_w (m : gmap path node) (p : path) : result unit :=
  if bool_decide (p = []) then Raise IsADirectoryError
  else
    match m !! p with
    | Some Dir => Raise IsADirectoryError
    | Some (File _) => Ok tt
    | None =>
        if is_dir m (parent p) then Ok tt
        else if bool_decide (is_Some (m !! parent p)) then Raise NotADirectoryError
        else Raise FileNotFoundError
    end.

(** [p.write_text(s, encoding="utf-8")] *)
Definition write_text (p : path) (s : string) : io unit := fun w =>
  match open_w (fs w) p with
  | Ok _ => (Ok tt, set_fs w (<[p := File (Text s)]> (fs w)))
  | Raise e => (Raise e, w)
  end.

(** [shutil.copyfile(src, dst)] *)
Definition copyfile (src dst : path) : io unit := fun w =>
  if bool_decide (src = dst) && bool_decide (is_Some (fs w !! src)) then (Raise SameFileError, w)
  else
    match fs w !! src with
    | None => (Raise FileNotFoundError, w)
    | Some Dir => (Raise IsADirectoryError, w)
    | Some (File f) =>
        match open_w (fs w) dst with
        | Ok _ => (Ok tt, set_fs w (<[dst := File f]> (fs w)))
        | Raise e => (Raise e, w)
        end
    end.

(** ** Charts (plotly)

    A figure is kept as the call that builds it. *)

Inductive Trace :=
  | Bar (x y : Selection) (name : string).

Inductive Figure :=
  | GoFigure (data : list Trace) (layout : list (string * string))
  | PxLine (data_frame : DataFrame) (x y : string) (markers : bool) (title : string)
  | PxBar (data_frame : DataFrame) (x y : string) (title : string).

(** The values of [include_plotlyjs] that the script passes: ["cdn"] and
    [False]. *)
Inductive include_plotlyjs :=
  | IncludeCdn
  | IncludeFalse.

(** What plotly decides: whether it accepts the data of a figure ([None]) or
    raises, the version in the CDN address, and the JSON arguments of
    [Plotly.newPlot] for a figure and a config. *)
Class Plotly := {
  plotly_validate : Figure -> option exn;
  plotlyjs_version : string;
  newplot_args : Figure -> list (string * Value) -> string
}.

Definition QUOTE : string := String (ascii_of_nat 34) EmptyString.

Definition quoted (s : string) : string := QUOTE +:+ s +:+ QUOTE.

Section Charts.
Context `{Plotly}.

(** The script tag that loads the charting library. *)
Definition load_plotlyjs (include : include_plotlyjs) : string :=
  match include with
  | IncludeCdn =>
      "<script charset=" +:+ quoted "utf-8" +:+ " src=" +:+
      quoted ("https://cdn.plot.ly/plotly-" +:+ plotlyjs_version +:+ ".min.js") +:+
      "></script>"
  | IncludeFalse => ""
  end.

(** The graph div and the script that draws into it; it carries no
    reference to the library. *)
Definition plot_div (fig : Figure) (config : list (string * Value)) (div_id : string)
  : string :=
  "<div id=" +:+ quoted div_id +:+ " class=" +:+ quoted "plotly-graph-div" +:+
  "></div><script type=" +:+ quoted "text/javascript" +:+ ">Plotly.newPlot(" +:+
  quoted div_id +:+ ", " +:+ newplot_args fig config +:+ ")</script>".

(** The markup of [pio.to_html(fig, include_plotlyjs=..., full_html=False,
    config=...)] for a given div id, up to plotly's white space and fixed
    attributes. *)
Definition to_html (fig : Figure) (include : include_plotlyjs)
    (config : list (string * Value)) (div_id : string) : string :=
  "<div>" +:+ load_plotlyjs include +:+ plot_div fig config div_id +:+ "</div>".

(** [pio.to_html] is called without [div_id]; plotly then takes
    [str(uuid.uuid4())] as the id of the div. *)
Definition pio_to_html (fig : Figure) (include : include_plotlyjs)
    (config : list (string * Value)) : io string :=
  div_id ← uuid4;
  mret (to_html fig include config div_id).

(** Building a figure: plotly checks the data it is handed. *)
Definition figure (fig : Figure) : result Figure :=
  match plotly_validate fig with
  | None => Ok fig
  | Some e => Raise e
  end.

Definition PLOTLY_CONFIG : list (string * Value) :=
  [("responsive", VBool true); ("displayModeBar", VBool false)].

Definition MONTH_UNAVAILABLE : string :=
  "<div style='color:#6b7280;font-size:13px'>Monthly chart unavailable (columns changed).</div>".
Definition PROFIT_UNAVAILABLE : string :=
  "<div style='color:#6b7280;font-size:13px'>Profit chart unavailable (columns changed).</div>".
Definition CAT_QTY_UNAVAILABLE : string :=
  "<div style='color:#6b7280;font-size:13px'>Category qty chart unavailable (columns changed).</div>".
Definition PENDING_VAL_UNAVAILABLE : string :=
  "<div style='color:#6b7280;font-size:13px'>Pending value chart unavailable (columns changed).</div>".

Definition fig_month (month_df : DataFrame) : result Figure :=
  x1 ← getitem month_df (VStr "Month");
  y1 ← getitem month_df (VStr "Purchases (₹)");
  x2 ← getitem month_df (VStr "Month");
  y2 ← getitem month_df (VStr "Sales (₹)");
  figure (GoFigure [Bar x1 y1 "Purchases"; Bar x2 y2 "Sales"]
                   [("barmode", "group"); ("title", "Monthly Purchases vs Sales")]).

Definition fig_profit (month_df : DataFrame) : result Figure :=
  figure (PxLine month_df "Month" "Profit (₹)" true "Monthly Profit (₹)").

Definition fig_cat_qty (cat_qty_df : DataFrame) : result Figure :=
  x1 ← getitem cat_qty_df (VStr "Category");
  y1 ← getitem cat_qty_df (VStr "Qty Sold");
  x2 ← getitem cat_qty_df (VStr "Category");
  y2 ← getitem cat_qty_df (VStr "Qty Pending");
  figure (GoFigure [Bar x1 y1 "Qty Sold"; Bar x2 y2 "Qty Pending"]
                   [("barmode", "stack"); ("title", "Quantity by Category")]).

Definition fig_pending_val (pending_val_df : DataFrame) : result Figure :=
  figure (PxBar pending_val_df "Category" "Pending Value (₹)"
                "Pending Stock Value by Category (₹)").

(** Source lines 170-177. *)
Definition chart_slot_month (month_df : DataFrame) : io string :=
  if issubset ["Month"; "Purchases (₹)"; "Sales (₹)"] month_df then
    fig ← lift (fig_month month_df);
    pio_to_html fig IncludeCdn PLOTLY_CONFIG
  else mret MONTH_UNAVAILABLE.

(** Source lines 179-183. *)
Definition chart_slot_profit (month_df : DataFrame) : io string :=
  if issubset ["Month"; "Profit (₹)"] month_df then
    fig ← lift (fig_profit month_df);
    pio_to_html fig IncludeFalse PLOTLY_CONFIG
  else mret PROFIT_UNAVAILABLE.

(** Source lines 185-192. *)
Definition chart_slot_cat_qty (cat_qty_df : DataFrame) : io string :=
  if issubset ["Category"; "Qty Sold"; "Qty Pending"] cat_qty_df then
    fig ← lift (fig_cat_qty cat_qty_df);
    pio_to_html fig IncludeFalse PLOTLY_CONFIG
  else mret CAT_QTY_UNAVAILABLE.

(** Source lines 194-198. *)
Definition chart_slot_pending_val (pending_val_df : DataFrame) : io string :=
  if issubset ["Category"; "Pending Value (₹)"] pending_val_df then
    fig ← lift (fig_pending_val pending_val_df);
    pio_to_html fig IncludeFalse PLOTLY_CONFIG
  else mret PENDING_VAL_UNAVAILABLE.

(** Source lines 167-198: the [charts] dict. *)
Definition build_charts (month_df cat_qty_df pending_val_df : DataFrame)
  : io (gmap string string) :=
  let charts : gmap string string := ∅ in
  c ← chart_slot_month month_df;
  let charts := <["month" := c]> charts in
  c ← chart_slot_profit month_df;
  let charts := <["profit" := c]> charts in
  c ← chart_slot_cat_qty cat_qty_df;
  let charts := <["cat_qty" := c]> charts in
  c ← chart_slot_pending_val pending_val_df;
  let charts := <["pending_val" := c]> charts in
  mret charts.

End Charts.

(** [charts[key]] *)
Definition dict_getitem (charts : gmap string string) (key : string) : result string :=
  match charts !! key with
  | Some v => Ok v
  | None => Raise KeyError
  end.

(** ** The template (jinja2)

    [tpl.render(...)] receives seventeen named values. *)

Record RenderArgs := {
  last_updated : string;
  qty_sold : Value;
  qty_pending : Value;
  total_purchases : string;
  total_sales_completed : string;
  profit_loss : string;
  profit_status : string;
  pending_stock_value : string;
  chart_month : string;
  chart_profit : string;
  chart_cat_qty : string;
  chart_pending_val : string;
  contrib_cols : list Value;
  contrib_records : list (list (Value * Value));
  cash_cols : list Value;
  cash_records : list (list (Value * Value));
  excel_filename : string
}.

(** What jinja2 decides: parsing the template text and rendering it. *)
Class Jinja2 := {
  template : Type;
  Template : string -> result template;
  render : template -> RenderArgs -> result string
}.

(** ** The builder (source lines 121-233) *)

Section Build.
Context `{CPython} `{Pandas} `{Plotly} `{Jinja2}.

(** Lines 140-143 and 146-149: the table, then its first and last two
    columns. *)
Definition contrib_df (ws_sum : Worksheet) : result DataFrame :=
  df ← df_from_range ws_sum CONTRIB_HEADER_ROW CONTRIB_DATA_ROWS CONTRIB_COLS;
  iloc_columns df [0; -2; -1].

Definition cash_df (ws_sum : Worksheet) : result DataFrame :=
  df ← df_from_range ws_sum CASH_HEADER_ROW CASH_DATA_ROWS CASH_COLS;
  iloc_columns df [0; -2; -1].

(** Lines 151-155, 157-160 and 162-164. *)
Definition month_df (ws_dash : Worksheet) : result DataFrame :=
  df ← df_from_range ws_dash MONTH_HEADER_ROW MONTH_DATA_ROWS MONTH_COLS;
  coerce_numeric ["Purchases (₹)"; "Sales (₹)"; "Profit (₹)"] df.

Definition cat_qty_df (ws_dash : Worksheet) : result DataFrame :=
  df ← df_from_range ws_dash CATQTY_HEADER_ROW CATQTY_DATA_ROWS CATQTY_COLS;
  coerce_numeric ["Qty Sold"; "Qty Pending"] df.

Definition pending_val_df (ws_dash : Worksheet) : result DataFrame :=
  df ← df_from_range ws_dash PENDVAL_HEADER_ROW PENDVAL_DATA_ROWS PENDVAL_COLS;
  coerce_numeric ["Pending Value (₹)"] df.

(** Lines 209-210: [int(q) if q is not None else "—"]. *)
Definition int_or_dash (q : Value) : result Value :=
  if negb (is_none q) then z ← py_int q; Ok (VInt z) else Ok (VStr "—").

(** [x or ""] *)
Definition or_empty (x : Value) : Value := if truthy x then x else VStr "".

Definition EXCEL_FILENAME : string := "Chiraath-Business-Summary-Latest.xlsx".

(** Lines 125-225: from the loaded workbook to the rendered page. *)
Definition render_report (wb : Workbook) (template_path : path) : io string :=
  ws_sum ← lift (wb_getitem wb SHEET_SUMMARY);
  ws_dash ← lift (wb_getitem wb SHEET_DASHBOARD);
  total_purchases ← lift (ws_getitem ws_sum CELL_TOTAL_PURCHASES);
  total_sales_completed ← lift (ws_getitem ws_sum CELL_TOTAL_SALES_COMPLETED);
  profit_loss ← lift (ws_getitem ws_sum CELL_PROFIT_LOSS_COMPLETED);
  profit_status ← lift (ws_getitem ws_sum CELL_PROFIT_STATUS);
  last_updated ← lift (v ← ws_getitem ws_dash CELL_LAST_UPDATED; excel_serial_to_datetime v);
  pending_stock_value ← lift (ws_getitem ws_dash CELL_PENDING_STOCK_VALUE);
  qty_sold ← lift (ws_getitem ws_dash CELL_QTY_SOLD);
  qty_pending ← lift (ws_getitem ws_dash CELL_QTY_PENDING);
  contrib_df ← lift (contrib_df ws_sum);
  cash_df ← lift (cash_df ws_sum);
  month_df ← lift (month_df ws_dash);
  cat_qty_df ← lift (cat_qty_df ws_dash);
  pending_val_df ← lift (pending_val_df ws_dash);
  charts ← build_charts month_df cat_qty_df pending_val_df;
  contrib ← lift (format_df_currency contrib_df);
  cash ← lift (format_df_currency cash_df);
  text ← read_text template_path;
  tpl ← lift (Template text);
  qty_sold ← lift (int_or_dash qty_sold);
  qty_pending ← lift (int_or_dash qty_pending);
  chart_month ← lift (dict_getitem charts "month");
  chart_profit ← lift (dict_getitem charts "profit");
  chart_cat_qty ← lift (dict_getitem charts "cat_qty");
  chart_pending_val ← lift (dict_getitem charts "pending_val");
  lift (render tpl {|
    last_updated := last_updated;
    qty_sold := qty_sold;
    qty_pending := qty_pending;
    total_purchases := money0 total_purchases;
    total_sales_completed := money0 total_sales_completed;
    profit_loss := money0 profit_loss;
    profit_status := py_str (or_empty profit_status);
    pending_stock_value := money2 pending_stock_value;
    chart_month := chart_month;
    chart_profit := chart_profit;
    chart_cat_qty := chart_cat_qty;
    chart_pending_val := chart_pending_val;
    contrib_cols := snd contrib;
    contrib_records := fst contrib;
    cash_cols := snd cash;
    cash_records := fst cash;
    excel_filename := EXCEL_FILENAME
  |}).

Definition build (input_xlsx template_path dist_dir : path) : io unit :=
  _ ← mkdir_parents dist_dir;
  wb ← load_workbook input_xlsx;
  html ← render_report wb template_path;
  _ ← write_text (joinpath dist_dir "index.html") html;
  _ ← copyfile input_xlsx (joinpath dist_dir EXCEL_FILENAME);
  _ ← print ("✅ Built dashboard: " +:+ path_str (joinpath dist_dir "index.html"));
  print ("⬇️  Excel download file: " +:+ path_str (joinpath dist_dir EXCEL_FILENAME)).

(** Lines 236-245, for the directory [root] above the script's own. *)
Definition main (root : path) : io unit :=
  let input_xlsx := root ++ ["input"; "Chiraath - Business Summary - Latest.xlsx"] in
  let template_path := root ++ ["src"; "template.html"] in
  let dist_dir := root ++ ["docs"] in
  found ← path_exists input_xlsx;
  if negb found then raise FileNotFoundError
  else build input_xlsx template_path dist_dir.

End Build.

(** * Vocabulary of the properties

    The notions that the theorems below are stated with. *)

(** ** Values and dates *)

(** 1234.5 = 2469 / 2 *)
Definition F1234_5 : spec_float := binary64 2469 (-1).

(** [d + timedelta(days=k)] in CPython: through the ordinal. *)
Definition date_plus_days (d : date) (k : Z) : date := ord2ymd (ymd2ord d + k).

Definition EPOCH_DATE : date := Date 1899 12 30.

(** ** Frames *)

Section CoercedColumns.
Context `{Pandas}.

(** What [pd.to_numeric(..., errors="coerce").fillna(0)] leaves in place of
    one entry. *)
Definition coerced (v : Value) : Value :=
  if isnan (to_numeric_entry v) then VInt 0 else to_numeric_entry v.




End CoercedColumns.


Section FormattedRows.
Context `{CPython} `{Pandas}.


End FormattedRows.

(** ** Worlds and runs *)

(** The world after one identifier has been drawn. *)
Definition drawn_one (w : World) : World := (uuid4 w).2.

(** The identifier that the next [uuid4()] returns. *)
Definition next_uuid (w : World) : string := uuid_source w (uuid_drawn w).

(** [m] leaves the files and the printed lines alone; it may draw
    identifiers. *)
Definition reads_only {A} (m : io A) : Prop :=
  forall w, fs (m w).2 = fs w /\ stdout (m w).2 = stdout w /\
            uuid_source (m w).2 = uuid_source w.

(** The end of [build] (source lines 227-233): the two files are written
    last, then the two lines are printed. *)
Definition publish (input_xlsx dist_dir : path) (html : string) : io unit :=
  _ ← write_text (joinpath dist_dir "index.html") html;
  _ ← copyfile input_xlsx (joinpath dist_dir EXCEL_FILENAME);
  _ ← print ("✅ Built dashboard: " +:+ path_str (joinpath dist_dir "index.html"));
  print ("⬇️  Excel download file: " +:+ path_str (joinpath dist_dir EXCEL_FILENAME)).

(** The ways the input can be structurally broken: no such file, not a
    readable workbook, or a workbook without one of the two sheets. *)
Definition structural_failure (m : gmap path node) (input_xlsx : path) : Prop :=
  m !! input_xlsx = None \/ m !! input_xlsx = Some Dir \/
  (exists s, m !! input_xlsx = Some (File (Text s))) \/
  (exists wb, m !! input_xlsx = Some (File (Spreadsheet wb)) /\
              (wb !! SHEET_SUMMARY = None \/ wb !! SHEET_DASHBOARD = None)).

(** The file system once [dist_dir.mkdir(parents=True, exist_ok=True)] has
    run. *)
Definition after_mkdir (dist_dir : path) (m : gmap path node) : gmap path node :=
  match mkdir_from [] dist_dir m with
  | Ok m' => m'
  | Raise _ => m
  end.

(** How much two file systems have in common. *)
Definition fs_relation : Type := gmap path node -> gmap path node -> Prop.

(** Two worlds whose files are related by [R] and that will hand out the
    same next [n] identifiers. *)
Definition same_view (R : fs_relation) (n : nat) (w1 w2 : World) : Prop :=
  R (fs w1) (fs w2) /\
  forall i, (i < n)%nat ->
    uuid_source w1 (uuid_drawn w1 + i)%nat = uuid_source w2 (uuid_drawn w2 + i)%nat.

(** [m] draws at most [k] identifiers and, apart from them, depends only on
    what [R] relates in the files. *)
Definition deterministic {A} (R : fs_relation) (k : nat) (m : io A) : Prop :=
  forall n w1 w2, same_view R (k + n) w1 w2 ->
    (m w1).1 = (m w2).1 /\ same_view R n (m w1).2 (m w2).2.

(** The two file systems hold the same thing at [p]. *)
Definition same_at (p : path) : fs_relation := fun m1 m2 => m1 !! p = m2 !! p.

(** [m1] and [m2] draw at most [k] identifiers and, from worlds that [R]
    relates, give the same result. *)
Definition related {A} (R : fs_relation) (k : nat) (m1 m2 : io A) : Prop :=
  forall n w1 w2, same_view R (k + n) w1 w2 ->
    (m1 w1).1 = (m2 w2).1 /\ same_view R n (m1 w1).2 (m2 w2).2.

(** [m] draws at most [k] identifiers and hands none back. *)
Definition draws_at_most {A} (k : nat) (m : io A) : Prop :=
  forall w, (uuid_drawn w <= uuid_drawn (m w).2 <= uuid_drawn w + k)%nat.

(** One when every column that the slot names is there, zero otherwise. *)
Definition slot_drawn (names : list string) (df : DataFrame) : nat :=
  if issubset names df then 1%nat else 0%nat.

(** No cell of the header row within the columns holds the text [name]. *)
Definition no_header (ws : Worksheet) (header_row : nat) (cols : nat * nat) (name : string)
  : Prop :=
  forall c, (cols.1 <= c <= cols.2)%nat -> cell_value ws header_row c <> VStr name.

(** From [w] to [w'] nothing has changed in the file system but
    [index.html] and the download copy in [dist_dir] and the directories
    created on the way to [dist_dir]; no path is gone and no directory has
    been replaced; lines were only added to the output, and at most four
    identifiers were drawn. *)
Definition only_outputs (dist_dir : path) (w w' : World) : Prop :=
  (forall p : path, p <> joinpath dist_dir "index.html" ->
     p <> joinpath dist_dir EXCEL_FILENAME ->
     fs w' !! p = fs w !! p \/
     (fs w !! p = None /\ fs w' !! p = Some Dir /\ p `prefix_of` dist_dir)) /\
  (forall p : path, is_Some (fs w !! p) -> is_Some (fs w' !! p)) /\
  (forall p : path, fs w !! p = Some Dir -> fs w' !! p = Some Dir) /\
  (exists lines, stdout w' = stdout w ++ lines) /\
  uuid_source w' = uuid_source w /\
  (uuid_drawn w <= uuid_drawn w' <= uuid_drawn w + 4)%nat.

(** * A library instance and a workbook for the examples

    The instances below stand in for the libraries on the inputs that the
    examples use and on nothing else: the parsers read signed decimal
    integers, [repr] is right for floats with at most one decimal, plotly
    accepts every figure, and a template is either text without braces or a
    single variable. *)

Module Examples.

Definition ascii_int (s : string) : option Z :=
  match s with
  | String "-" rest => (fun u => - Z.of_nat (Nat.of_uint u)) <$> NilZero.uint_of_string rest
  | EmptyString => None
  | _ => (fun u => Z.of_nat (Nat.of_uint u)) <$> NilZero.uint_of_string s
  end.

Definition repr_tenths (f : spec_float) : string :=
  match f with
  | S754_nan => "nan"
  | S754_infinity s => sign_text s +:+ "inf"
  | S754_zero s => sign_text s +:+ "0.0"
  | S754_finite s m e =>
      let q := scaled_magnitude m e 1 in
      sign_text s +:+ digits (q / 10) +:+ "." +:+ digits (q mod 10)
  end.

#[export] Instance cpython : CPython := {|
  float_of_str s := float_of_Z <$> ascii_int s;
  int_of_str := ascii_int;
  repr_float := repr_tenths
|}.

#[export] Instance pandas : Pandas := {|
  numeric_of_str s := PdInt <$> ascii_int s;
  apply_setitem_duplicated _ _ := Raise ValueError
|}.

#[export] Instance plotly : Plotly := {|
  plotly_validate _ := None;
  plotlyjs_version := "2.35.2";
  newplot_args _ _ := "[], {}, {}"
|}.

Definition render_text (t : string) (args : RenderArgs) : result string :=
  if bool_decide (t = "{{ chart_month }}") then Ok (chart_month args)
  else if bool_decide (t = "{{ qty_sold }}") then Ok (py_str (qty_sold args))
  else if contains "{" t then Raise TemplateError
  else Ok t.

#[export] Instance jinja2 : Jinja2 := {|
  template := string;
  Template t := Ok t;
  render := render_text
|}.

(** A row of cells starting at column [c]. *)
Fixpoint row_cells (r c : nat) (vs : list Value) : list (nat * nat * Value) :=
  match vs with
  | [] => []
  | v :: rest => (r, c, v) :: row_cells r (S c) rest
  end.

Definition summary_sheet : Worksheet :=
  list_to_map (
    [(3, 2, VInt 250000); (4, 2, VFloat (binary64 2469 (-1))); (6, 2, VInt (-1200));
     (7, 2, VStr "Loss")]%nat ++
    row_cells 17 1 [VStr "Partner"; VStr "Share %"; VStr "Target (₹)"; VStr "Paid";
                    VStr "Excess"; VStr "Balance"; VStr "Notes"] ++
    row_cells 18 1 [VStr "Anu"; VInt 50; VInt 1000; VInt 400; VInt 0; VInt 600; VStr "ok"] ++
    row_cells 19 1 [VStr "Binu"; VInt 30; VInt 600; VInt 600; VInt 0; VInt 0; VNone] ++
    row_cells 20 1 [VStr "Cini"; VInt 20; VInt 400; VInt 500; VInt 100; VInt 0; VNone] ++
    row_cells 25 1 [VStr "Partner"; VStr "Collected"; VStr "Transferred"; VStr "Spent";
                    VStr "Refund"; VStr "Cash in hand (₹)"] ++
    row_cells 26 1 [VStr "Anu"; VInt 10; VInt 20; VInt 30; VInt 40; VInt 50]).

Definition dashboard_sheet : Worksheet :=
  list_to_map (
    [(3, 2, VInt 45000); (6, 5, VFloat (binary64 2469 (-1))); (10, 7, VInt 12);
     (11, 7, VNone)]%nat ++
    row_cells 9 1 [VStr "Month"; VStr "Purchases (₹)"; VStr "Sales (₹)"; VStr "Profit (₹)"] ++
    row_cells 10 1 [VStr "Jan"; VInt 100; VInt 150; VInt 50] ++
    row_cells 11 1 [VStr "Feb"; VStr "n/a"; VStr "75"; VNone] ++
    row_cells 46 6 [VStr "Category"; VStr "Qty Sold"; VStr "Qty Pending"] ++
    row_cells 47 6 [VStr "Saree"; VInt 3; VInt 4] ++
    row_cells 46 10 [VStr "Category"; VStr "Pending Value (₹)"] ++
    row_cells 47 10 [VStr "Saree"; VInt 900]).

Definition workbook : Workbook :=
  <[SHEET_SUMMARY := summary_sheet]> (<[SHEET_DASHBOARD := dashboard_sheet]> ∅).

Definition INPUT : path := ["repo"; "input"; "Chiraath - Business Summary - Latest.xlsx"].
Definition TEMPLATE : path := ["repo"; "src"; "template.html"].

Definition files (wb : Workbook) (template_text : string) : gmap path node :=
  <[INPUT := File (Spreadsheet wb)]> (<[TEMPLATE := File (Text template_text)]>
    (<[["repo"; "input"] := Dir]> (<[["repo"; "src"] := Dir]> (<[["repo"] := Dir]> ∅)))).

Definition world (m : gmap path node) (ids : nat -> string) : World :=
  {| fs := m; stdout := []; uuid_source := ids; uuid_drawn := 0 |}.

Definition ids_a (n : nat) : string := "00000000-0000-4000-8000-00000000000" +:+ digits (Z.of_nat n).
Definition ids_b (n : nat) : string := "11111111-1111-4111-8111-11111111111" +:+ digits (Z.of_nat n).

(** *** The inputs of the runs *)

Definition ROOT : path := ["repo"].
Definition INDEX : path := ["repo"; "docs"; "index.html"].
Definition DOCS : path := ["repo"; "docs"].

(** The page is the monthly chart alone. *)
Definition chart_page : gmap path node := files workbook "{{ chart_month }}".

(** A workbook whose "Summary" sheet is missing. *)
Definition no_summary : gmap path node := files (delete SHEET_SUMMARY workbook) "page".

(** A workbook whose quantity-sold cell holds text. *)
Definition text_quantity : Workbook :=
  <[SHEET_DASHBOARD := <[(10, 7)%nat := VStr "abc"]> dashboard_sheet]> workbook.

(** The same identifiers as [ids_a], from a source that has already handed
    out two. *)
Definition shifted (m : gmap path node) : World :=
  {| fs := m; stdout := ["earlier output"];
     uuid_source := fun n => ids_a (n - 2); uuid_drawn := 2 |}.


(** A monthly table whose first header is in lower case. *)
Definition lower_case_month : DataFrame :=
  {| columns := [VStr "month"; VStr "Purchases (₹)"; VStr "Sales (₹)"; VStr "Profit (₹)"];
     rows := [[VStr "Jan"; VInt 1; VInt 2; VInt 3]] |}.

(** The monthly table of the example workbook and the figure drawn from it. *)
Definition sample_month : DataFrame :=
  {| columns := [VStr "Month"; VStr "Purchases (₹)"; VStr "Sales (₹)"; VStr "Profit (₹)"];
     rows := [[VStr "Jan"; VInt 100; VInt 150; VInt 50]] |}.

Definition sample_fig_month : Figure :=
  GoFigure [Bar (Series [VStr "Jan"]) (Series [VInt 100]) "Purchases";
            Bar (Series [VStr "Jan"]) (Series [VInt 150]) "Sales"]
           [("barmode", "group"); ("title", "Monthly Purchases vs Sales")].

Definition sample_fig_profit : Figure :=
  PxLine sample_month "Month" "Profit (₹)" true "Monthly Profit (₹)".

(** The identifiers repeat every four draws. *)
Definition ids_cycle (n : nat) : string := ids_a (n mod 4).

(** *** Runs that fail late, and a workbook without charts *)

Definition COPY : path := ["repo"; "docs"; "Chiraath-Business-Summary-Latest.xlsx"].
Definition OUT : path := ["tmp"; "site"].

(** The name of the download copy is taken by a directory. *)
Definition copy_blocked : gmap path node := <[COPY := Dir]> (<[DOCS := Dir]> chart_page).

(** A file stands where the output directory should be. *)
Definition docs_is_file : gmap path node := <[DOCS := File (Text "notes")]> chart_page.

(** The workbook is the published copy itself. *)
Definition self_copy : gmap path node :=
  <[COPY := File (Spreadsheet workbook)]> (<[DOCS := Dir]> chart_page).

(** A workbook whose Dashboard sheet is blank. *)
Definition blank_dashboard : Workbook := <[SHEET_DASHBOARD := ∅]> workbook.

(** The page that a run on [self_copy] renders before it stops. *)
Definition self_copy_page : string :=
  match (render_report workbook TEMPLATE (world self_copy ids_a)).1 with
  | Ok html => html
  | Raise _ => ""
  end.

(** The charts of a month table with its headers and two tables without
    theirs. *)
Definition sample_charts : gmap string string :=
  match (build_charts sample_month lower_case_month lower_case_month
           (world chart_page ids_a)).1 with
  | Ok charts => charts
  | Raise _ => ∅
  end.

(** A Dashboard sheet with "Sales (₹)" in two cells of the monthly header. *)
Definition twice_sales : Worksheet := <[(9, 2)%nat := VStr "Sales (₹)"]> dashboard_sheet.

End Examples.

(** * Properties *)

(** ** Formatters *)

Section FormatterProperties.
Context `{CPython}.

Lemma money0_fallback (x : Value) :
  is_none x = false -> raises (py_float x) -> money0 x = py_str x.
Proof.
  intros Hn Hr. unfold money0, money0_try. rewrite Hn.
  destruct x as [| | | f | | |]; simpl in *; try done.
  - destruct (float_of_Z z); simpl in *; done.
  - destruct (float_of_str s); simpl in *; done.
Qed.

Lemma money2_fallback (x : Value) :
  is_none x = false -> raises (py_float x) -> money2 x = py_str x.
Proof.
  intros Hn Hr. unfold money2, money2_try. rewrite Hn.
  destruct x as [| | | f | | |]; simpl in *; try done.
  - destruct (float_of_Z z); simpl in *; done.
  - destruct (float_of_str s); simpl in *; done.
Qed.

(** C4. The currency formatters return a string on every cell value (the
    [except] clause turns whatever the [try] block raises into [str(x)], so
    both are functions to [string]).  The 0-decimal formatter maps 1234.5 to
    "₹1,234" and [None] and NaN to "₹0"; the 2-decimal formatter maps 1234.5
    to "₹1,234.50" and [None] and NaN to "₹0.00"; on an input that [float]
    refuses, each returns [str(x)]. *)
Theorem currency_formatters (x : Value) :
  money0 (VFloat F1234_5) = "₹1,234" /\ money0 VNone = "₹0" /\ money0 NAN = "₹0" /\
  money2 (VFloat F1234_5) = "₹1,234.50" /\ money2 VNone = "₹0.00" /\ money2 NAN = "₹0.00" /\
  (forall s, money0_try x = Ok s -> money0 x = s) /\
  (forall s, money2_try x = Ok s -> money2 x = s) /\
  (is_none x = false -> raises (py_float x) -> money0 x = py_str x /\ money2 x = py_str x).
Proof.
  repeat split; try reflexivity.
  - intros s Hs. unfold money0. by rewrite Hs.
  - intros s Hs. unfold money2. by rewrite Hs.
  - by apply money0_fallback.
  - by apply money2_fallback.
Qed.

End FormatterProperties.

(** ** The date formatter *)

Lemma to_timedelta_days_range (f : spec_float) (ns : Z) :
  to_timedelta_days f = Ok (Timedelta ns) -> - 2 ^ 63 < ns < 2 ^ 63.
Proof.
  destruct f as [s | s | | s m e]; simpl; try done.
  - intros [= <-]. lia.
  - match goal with |- context [if ?c then _ else _] => destruct c eqn:Hc end; [| done].
    intros [= <-]. apply andb_prop in Hc as [H1 H2]. lia.
Qed.

Lemma epoch_add (ns : Z) :
  - 2 ^ 63 < ns < 2 ^ 63 ->
  exists t, datetime_add EPOCH (Timedelta ns) = Ok (Some t) /\
            dt_date t = date_plus_days EPOCH_DATE (ns / DAY_NS).
Proof.
  intros Hns. unfold datetime_add, date_plus_days, EPOCH_DATE.
  change (dt_date EPOCH) with (Date 1899 12 30).
  change (((hour EPOCH * 60 + minute EPOCH) * 60 + second EPOCH) * 10 ^ 6 + microsecond EPOCH)
    with 0.
  rewrite Z.add_0_l.
  assert (Hdiv : ns / 1000 / DAY_US = ns / DAY_NS).
  { change DAY_NS with (1000 * DAY_US). rewrite Z.div_div by (unfold DAY_US; lia). done. }
  rewrite Hdiv.
  assert (Hq : - 106752 <= ns / DAY_NS <= 106751).
  { change DAY_NS with 86400000000000. change (2 ^ 63) with 9223372036854775808 in Hns.
    split.
    - apply Z.div_le_lower_bound; lia.
    - assert (ns / 86400000000000 < 106752); [| lia].
      apply Z.div_lt_upper_bound; lia. }
  change (ymd2ord (Date 1899 12 30)) with 693594.
  unfold MAXORDINAL.
  destruct (0 <? 693594 + ns / DAY_NS) eqn:H1; [| lia].
  destruct (693594 + ns / DAY_NS <=? 3652059) eqn:H2; [| lia].
  simpl. eexists. split; [reflexivity | reflexivity].
Qed.

Lemma digits2_iter (p d : positive) :
  digits2_pos (Pos.iter xO p d) = (digits2_pos p + d)%positive.
Proof.
  induction d using Pos.peano_ind.
  - simpl. lia.
  - rewrite Pos.iter_succ. simpl. rewrite IHd. lia.
Qed.

Lemma Zpos_iter (p d : positive) :
  Z.pos (Pos.iter xO p d) = Z.pos p * 2 ^ Z.pos d.
Proof.
  induction d using Pos.peano_ind.
  - simpl. lia.
  - rewrite Pos.iter_succ, Pos2Z.inj_succ, Z.pow_succ_r by lia.
    rewrite Pos2Z.inj_xO, IHd. lia.
Qed.

Lemma round_aux_exact (s : bool) (m : positive) (e : Z) :
  digits2_pos m = 53%positive -> -52 <= e <= 0 ->
  binary_round_aux 53 1024 s (Z.pos m) e loc_Exact = S754_finite s m e.
Proof.
  intros Hd He. unfold binary_round_aux, shr_fexp, fexp, emin. simpl Zdigits2.
  rewrite Hd.
  replace (Z.max (53 + e - 53) (3 - 1024 - 53) - e) with 0 by lia.
  simpl. rewrite Hd.
  replace (Z.max (53 + e - 53) (3 - 1024 - 53) - e) with 0 by lia.
  simpl. destruct (e <=? 1024 - 53) eqn:Hle; [done | lia].
Qed.

Lemma binary_round_small (s : bool) (p : positive) :
  (digits2_pos p <= 53)%positive ->
  exists m e, binary_round 53 1024 s p 0 = S754_finite s m e /\ -52 <= e <= 0 /\
              Z.pos m = Z.pos p * 2 ^ (- e).
Proof.
  intros Hd. unfold binary_round, shl_align, fexp, emin.
  replace (Z.max (Z.pos (digits2_pos p) + 0 - 53) (3 - 1024 - 53))
    with (Z.pos (digits2_pos p) - 53) by lia.
  destruct (Z.pos (digits2_pos p) - 53 - 0) as [| q | q] eqn:Hq; try lia.
  - exists p, 0. split; [| split; [lia | simpl; lia]].
    apply round_aux_exact; lia.
  - exists (Pos.iter xO p q), (Z.pos (digits2_pos p) - 53).
    split; [| split; [lia |]].
    + apply round_aux_exact; [| lia]. rewrite digits2_iter. lia.
    + rewrite Zpos_iter. f_equal. f_equal. lia.
Qed.

Lemma digits2_lower (p : positive) : 2 ^ (Z.pos (digits2_pos p) - 1) <= Z.pos p.
Proof.
  induction p as [p IH | p IH |]; simpl digits2_pos.
  - rewrite Pos2Z.inj_succ. replace (Z.succ (Z.pos (digits2_pos p)) - 1)
      with (Z.succ (Z.pos (digits2_pos p) - 1)) by lia.
    rewrite Z.pow_succ_r by lia. lia.
  - rewrite Pos2Z.inj_succ. replace (Z.succ (Z.pos (digits2_pos p)) - 1)
      with (Z.succ (Z.pos (digits2_pos p) - 1)) by lia.
    rewrite Z.pow_succ_r by lia. lia.
  - simpl. lia.
Qed.

Lemma digits2_small (p : positive) : Z.pos p < 2 ^ 53 -> (digits2_pos p <= 53)%positive.
Proof.
  intros Hp. destruct (decide (digits2_pos p <= 53)%positive) as [| Hn]; [done |].
  pose proof (digits2_lower p) as Hl.
  assert (2 ^ 53 <= 2 ^ (Z.pos (digits2_pos p) - 1)) by (apply Z.pow_le_mono_r; lia).
  lia.
Qed.

Lemma round_half_even_zero (den : Z) : 0 < den -> round_half_even 0 den = 0.
Proof.
  intros Hd. unfold round_half_even. rewrite Z.mod_0_l, Z.div_0_l by lia.
  simpl. destruct den; done.
Qed.

(** A whole number of days within pandas' range becomes exactly that many
    days of nanoseconds. *)
Lemma whole_days (n : Z) :
  n <> 0 -> - 106751 <= n <= 106751 ->
  (forall s, float_of_Z n <> S754_infinity s) /\ to_timedelta_days (float_of_Z n) = Ok (Timedelta (n * DAY_NS)).
Proof.
  intros Hn Hr. unfold float_of_Z, binary64, binary_normalize.
  destruct n as [| p | p]; [done | |].
  - destruct (binary_round_small false p) as (m & e & -> & He & Hm).
    { apply digits2_small. change (2 ^ 53) with 9007199254740992. lia. }
    split; [done |].
    unfold to_timedelta_days.
    assert (Hpow : 0 < 2 ^ (- e)) by (apply Z.pow_pos_nonneg; lia).
    assert (Hbase : (if 0 <=? e then Z.pos m * 2 ^ e else Z.pos m / 2 ^ (- e)) = Z.pos p).
    { destruct (0 <=? e) eqn:H0.
      - assert (e = 0) as -> by lia. simpl in Hm. lia.
      - rewrite Hm. apply Z.div_mul. lia. }
    assert (Hk : (if 0 <=? e then 0
                  else round_half_even (Z.pos m mod 2 ^ (- e) * 10 ^ 9) (2 ^ (- e))) = 0).
    { destruct (0 <=? e); [done |]. rewrite Hm, Z.mod_mul by lia.
      by apply round_half_even_zero. }
    rewrite Hbase, Hk. change DAY_NS with 86400000000000.
    change (2 ^ 63) with 9223372036854775808.
    destruct (_ && _) eqn:H2.
    + do 2 f_equal; lia.
    + apply andb_false_iff in H2 as [H2 | H2]; lia.
  - destruct (binary_round_small true p) as (m & e & -> & He & Hm).
    { apply digits2_small. change (2 ^ 53) with 9007199254740992. lia. }
    split; [done |].
    unfold to_timedelta_days.
    assert (Hpow : 0 < 2 ^ (- e)) by (apply Z.pow_pos_nonneg; lia).
    assert (Hbase : (if 0 <=? e then Z.pos m * 2 ^ e else Z.pos m / 2 ^ (- e)) = Z.pos p).
    { destruct (0 <=? e) eqn:H0.
      - assert (e = 0) as -> by lia. simpl in Hm. lia.
      - rewrite Hm. apply Z.div_mul. lia. }
    assert (Hk : (if 0 <=? e then 0
                  else round_half_even (Z.pos m mod 2 ^ (- e) * 10 ^ 9) (2 ^ (- e))) = 0).
    { destruct (0 <=? e); [done |]. rewrite Hm, Z.mod_mul by lia.
      by apply round_half_even_zero. }
    rewrite Hbase, Hk. change DAY_NS with 86400000000000.
    change (2 ^ 63) with 9223372036854775808.
    destruct (_ && _) eqn:H2.
    + do 2 f_equal; lia.
    + apply andb_false_iff in H2 as [H2 | H2]; lia.
Qed.

Section DateProperties.
Context `{CPython}.

Lemma numeric_serial (x : Value) (f : spec_float) (ns : Z) :
  isinstance_int_float x = true -> truthy x = true ->
  py_float x = Ok f -> to_timedelta_days f = Ok (Timedelta ns) ->
  excel_serial_to_datetime x = Ok (strftime (date_plus_days EPOCH_DATE (ns / DAY_NS))).
Proof.
  intros Hnum Ht Hf Htd. unfold excel_serial_to_datetime. rewrite Hnum, Ht.
  destruct (epoch_add ns (to_timedelta_days_range _ _ Htd)) as (t & Hadd & Hdate).
  destruct x; try discriminate Hnum; unfold mbind, result_bind;
    rewrite Hf, Htd, Hadd, Hdate; reflexivity.
Qed.

Lemma integer_serial (n : Z) :
  n <> 0 -> - 106751 <= n <= 106751 ->
  excel_serial_to_datetime (VInt n) = Ok (strftime (date_plus_days EPOCH_DATE n)).
Proof.
  intros Hn Hr. destruct (whole_days n Hn Hr) as [Hinf Htd].
  assert (Hf : py_float (VInt n) = Ok (float_of_Z n)).
  { simpl. destruct (float_of_Z n) eqn:E; first [done | by destruct (Hinf s)]. }
  assert (Ht : truthy (VInt n) = true).
  { simpl. destruct (n =? 0) eqn:E; [lia | done]. }
  rewrite (numeric_serial (VInt n) (float_of_Z n) (n * DAY_NS) eq_refl Ht Hf Htd).
  rewrite Z.div_mul by (by unfold DAY_NS). done.
Qed.

(** C2, as the code has it.  A numeric input that is zero (0, 0.0, -0.0,
    [False]) is taken for an empty cell and gives the placeholder.  A
    non-zero numeric input whose duration pandas can hold gives the
    "Mon DD, YYYY" rendering of 1899-12-30 plus the whole days of that
    duration, which for an integer serial [n] between -106751 and 106751 are
    [n] days; serial 1 gives "Dec 31, 1899", and 45000 and 45000.75 both give
    "Mar 15, 2023". *)
Theorem serial_to_date (x : Value) (f : spec_float) (ns : Z) :
  isinstance_int_float x = true ->
  (truthy x = false -> excel_serial_to_datetime x = Ok "—") /\
  (truthy x = true -> py_float x = Ok f -> to_timedelta_days f = Ok (Timedelta ns) ->
   excel_serial_to_datetime x = Ok (strftime (date_plus_days EPOCH_DATE (ns / DAY_NS)))) /\
  (forall n, n <> 0 -> - 106751 <= n <= 106751 ->
   excel_serial_to_datetime (VInt n) = Ok (strftime (date_plus_days EPOCH_DATE n))) /\
  excel_serial_to_datetime (VInt 1) = Ok "Dec 31, 1899" /\
  excel_serial_to_datetime (VInt 45000) = Ok "Mar 15, 2023" /\
  excel_serial_to_datetime (VFloat (binary64 180003 (-2))) = Ok "Mar 15, 2023".
Proof.
  intros Hnum. split; [| split; [| split; [| by vm_compute]]].
  - intros Hz. unfold excel_serial_to_datetime. rewrite Hnum, Hz.
    destruct x; simpl in *; done.
  - intros Ht Hf Htd. by apply (numeric_serial x f ns).
  - apply integer_serial.
Qed.

End DateProperties.

(** ** Frames *)

Lemma number_eqb_refl (a : number) : number_eqb a a = true.
Proof.
  destruct a as [| s | m e]; simpl; [done | by apply bool_decide_eq_true |].
  rewrite Z.min_id, Z.sub_diag. apply Z.eqb_refl.
Qed.

Lemma label_eqb_refl (l : Value) : label_eqb l l = true.
Proof.
  unfold label_eqb. destruct (number_of l) eqn:E.
  - apply number_eqb_refl.
  - by apply bool_decide_eq_true.
Qed.

(** A text label is matched by itself only: exact and case-sensitive. *)
Lemma label_eqb_str (l : Value) (c : string) : label_eqb l (VStr c) = true <-> l = VStr c.
Proof.
  unfold label_eqb. simpl. destruct (number_of l) eqn:E.
  - split; [done | intros ->; done].
  - rewrite bool_decide_eq_true. done.
Qed.

Lemma positions_from_spec (k : nat) (labels : list Value) (c : Value) (i : nat) :
  i ∈ positions_from k labels c <->
  (k <= i)%nat /\ exists l, labels !! (i - k)%nat = Some l /\ label_eqb l c = true.
Proof.
  revert k. induction labels as [| l labels IH]; intros k; simpl.
  - split; [by intros ?%elem_of_nil | by intros (_ & l & ? & _)].
  - assert (Hrest : i ∈ positions_from (S k) labels c <->
      (k < i)%nat /\ exists l', (l :: labels) !! (i - k)%nat = Some l' /\ label_eqb l' c = true).
    { rewrite IH. split.
      - intros (Hle & l' & Hl & He). split; [lia |]. exists l'. split; [| done].
        replace (i - k)%nat with (S (i - S k)) by lia. done.
      - intros (Hlt & l' & Hl & He). split; [lia |]. exists l'. split; [| done].
        replace (i - k)%nat with (S (i - S k)) in Hl by lia. done. }
    destruct (label_eqb l c) eqn:E.
    + rewrite elem_of_cons, Hrest. split.
      * intros [-> | (Hlt & Hex)]; [| split; [lia | done]].
        split; [lia |]. exists l. by rewrite Nat.sub_diag.
      * intros (Hle & l' & Hl & He). destruct (decide (i = k)) as [| Hne]; [by left |].
        right. split; [lia |]. by exists l'.
    + rewrite Hrest. split.
      * intros (Hlt & Hex). split; [lia | done].
      * intros (Hle & l' & Hl & He). split; [| by exists l'].
        destruct (decide (i = k)) as [-> | Hne]; [| lia].
        rewrite Nat.sub_diag in Hl. simpl in Hl. congruence.
Qed.

Lemma positions_spec (df : DataFrame) (c : Value) (i : nat) :
  i ∈ positions df c <-> exists l, columns df !! i = Some l /\ label_eqb l c = true.
Proof.
  unfold positions. rewrite positions_from_spec, Nat.sub_0_r. split.
  - by intros (_ & Hex).
  - intros Hex. split; [lia | done].
Qed.

Lemma has_column_positions (df : DataFrame) (c : Value) :
  has_column df c = true <-> positions df c <> [].
Proof.
  unfold has_column. rewrite existsb_exists. split.
  - intros (l & Hin & He). apply list_elem_of_In, list_elem_of_lookup in Hin as [i Hi].
    assert (i ∈ positions df c) as Hpos by (apply positions_spec; eauto).
    intros Hnil. rewrite Hnil in Hpos. by apply elem_of_nil in Hpos.
  - intros Hne. destruct (positions df c) as [| i ps] eqn:E; [done |].
    assert (i ∈ positions df c) as Hpos by (rewrite E; left).
    apply positions_spec in Hpos as (l & Hl & He). exists l. split; [| done].
    apply list_elem_of_In, list_elem_of_lookup. eauto.
Qed.

(** A column name is in the frame exactly when it is one of the labels. *)
Lemma has_column_str (df : DataFrame) (c : string) :
  has_column df (VStr c) = true <-> VStr c ∈ columns df.
Proof.
  unfold has_column. rewrite existsb_exists. split.
  - intros (l & Hin & He). apply label_eqb_str in He as ->. by apply list_elem_of_In.
  - intros Hin. exists (VStr c). split; [by apply list_elem_of_In | apply label_eqb_refl].
Qed.

Lemma set_column_at_length (i : nat) (rs : list (list Value)) (values : list Value) :
  length (set_column_at i rs values) = length rs.
Proof.
  revert values. induction rs as [| r rs IH]; intros [| v values]; simpl; auto.
Qed.

Lemma set_column_at_map (i : nat) (g : Value -> Value) (rs : list (list Value)) :
  set_column_at i rs (map (fun r => g (nth i r VNone)) rs) =
  map (fun r => <[i := g (nth i r VNone)]> r) rs.
Proof. induction rs as [| r rs IH]; simpl; [done | by rewrite IH]. Qed.


Section CoercionProperties.
Context `{Pandas}.

Lemma fillna0_to_numeric (vs : list Value) :
  fillna0 (map to_numeric_entry vs) = map coerced vs.
Proof. unfold fillna0. by rewrite map_map. Qed.

Lemma coerce_step (df : DataFrame) (c : string) (i : nat) :
  positions df (VStr c) = [i] ->
  getitem df (VStr c) = Ok (Series (column_at df i)) /\
  setitem df (VStr c) (fillna0 (map to_numeric_entry (column_at df i))) =
  Ok {| columns := columns df;
        rows := map (fun r => <[i := coerced (nth i r VNone)]> r) (rows df) |}.
Proof.
  intros Hpos. unfold getitem, setitem. rewrite Hpos. split; [done |].
  rewrite fillna0_to_numeric. unfold column_at. rewrite map_map.
  by rewrite (set_column_at_map i coerced).
Qed.




Lemma coerce_numeric_returns (names : list string) :
  forall df, (forall c, c ∈ names -> (length (positions df (VStr c)) <= 1)%nat) ->
  exists df', coerce_numeric names df = Ok df'.
Proof.
  induction names as [| c names IH]; intros df Huniq; simpl; [by eexists |].
  destruct (has_column df (VStr c)) eqn:Hhas.
  - apply has_column_positions in Hhas.
    assert (Hlen : (length (positions df (VStr c)) <= 1)%nat) by (apply Huniq; left).
    destruct (positions df (VStr c)) as [| j [| j' ps]] eqn:Hpos; [done | | simpl in Hlen; lia].
    destruct (coerce_step df c j Hpos) as [-> Hset]. simpl. rewrite Hset. simpl.
    apply IH. intros c' Hc'. unfold positions. simpl. apply Huniq. by right.
  - apply IH. intros c' Hc'. apply Huniq. by right.
Qed.


Lemma coerced_invalid (s : string) (dt : datetime) (d : date) :
  coerced VNone = VInt 0 /\ coerced (VDatetime dt) = VInt 0 /\ coerced (VDate d) = VInt 0 /\
  coerced NAN = VInt 0 /\ (numeric_of_str s = None -> coerced (VStr s) = VInt 0).
Proof.
  unfold coerced. simpl. repeat split. by intros ->.
Qed.

Lemma coerced_number (z : Z) (b : bool) (s : string) (n : pd_number) :
  coerced (VInt z) = VInt z /\ coerced (VBool b) = VBool b /\
  (numeric_of_str s = Some n -> isnan (value_of_number n) = false ->
   coerced (VStr s) = value_of_number n).
Proof.
  unfold coerced. simpl. repeat split. intros -> Hn. simpl. by rewrite Hn.
Qed.

End CoercionProperties.

Lemma df_from_range_wf (ws : Worksheet) (header_row : nat) (data_rows cols : nat * nat)
    (df : DataFrame) :
  df_from_range ws header_row data_rows cols = Ok df -> frame_wf df.
Proof.
  unfold df_from_range, pd_DataFrame.
  destruct (read_range ws header_row header_row cols.1 cols.2) as [| headers ?]; [done |].
  destruct (forallb _ _) eqn:Hall; [| done]. intros [= <-]. unfold frame_wf. simpl.
  apply Forall_forall. intros r Hr.
  rewrite forallb_forall in Hall. apply list_elem_of_In, Hall in Hr.
  by apply Nat.eqb_eq in Hr.
Qed.

Section TableProperties.
Context `{Pandas}.



End TableProperties.

(** ** The column-wide currency formatter *)







Section CurrencyProperties.
Context `{CPython} `{Pandas}.

Lemma apply_money2_unique (df : DataFrame) (col : Value) (i : nat) :
  positions df col = [i] ->
  apply_money2 df col =
  Ok {| columns := columns df;
        rows := map (fun r => <[i := VStr (money2 (nth i r VNone))]> r) (rows df) |}.
Proof.
  intros Hpos. unfold apply_money2, getitem, setitem. rewrite Hpos. simpl.
  unfold column_at. rewrite map_map.
  by rewrite (set_column_at_map i (fun v => VStr (money2 v))).
Qed.







End CurrencyProperties.

(** ** The two narrowed tables *)

Lemma iloc_first_last_two (df : DataFrame) :
  (2 <= length (columns df))%nat ->
  iloc_columns df [0; -2; -1] =
  Ok {| columns := [nth 0 (columns df) VNone;
                    nth (length (columns df) - 2) (columns df) VNone;
                    nth (length (columns df) - 1) (columns df) VNone];
        rows := map (fun r => [nth 0 r VNone;
                               nth (length (columns df) - 2) r VNone;
                               nth (length (columns df) - 1) r VNone]) (rows df) |}.
Proof.
  intros Hlen. unfold iloc_columns, iloc_positions, iloc_position.
  set (n := length (columns df)) in *.
  change (0 <? 0) with false. change (-2 <? 0) with true. change (-1 <? 0) with true.
  cbv iota.
  destruct ((0 <=? 0) && (0 <? Z.of_nat n)) eqn:H0;
    [| apply andb_false_iff in H0 as [H0 | H0]; lia].
  destruct ((0 <=? Z.of_nat n + -2) && (Z.of_nat n + -2 <? Z.of_nat n)) eqn:H1;
    [| apply andb_false_iff in H1 as [H1 | H1]; lia].
  destruct ((0 <=? Z.of_nat n + -1) && (Z.of_nat n + -1 <? Z.of_nat n)) eqn:H2;
    [| apply andb_false_iff in H2 as [H2 | H2]; lia].
  simpl mbind. unfold mbind, result_bind.
  replace (Z.to_nat (Z.of_nat n + -2)) with (n - 2)%nat by lia.
  replace (Z.to_nat (Z.of_nat n + -1)) with (n - 1)%nat by lia.
  reflexivity.
Qed.

(** C8. For the contribution table and for the cash-pool table, the frame
    that reaches the currency formatter has exactly three columns: the
    first, the last but one and the last of the seven extracted (A, F and G),
    in that order, for the header and for each of the three data rows. *)
Theorem tables_narrowed (ws_sum : Worksheet) :
  contrib_df ws_sum =
    Ok {| columns := [cell_value ws_sum 17 1; cell_value ws_sum 17 6; cell_value ws_sum 17 7];
          rows := [[cell_value ws_sum 18 1; cell_value ws_sum 18 6; cell_value ws_sum 18 7];
                   [cell_value ws_sum 19 1; cell_value ws_sum 19 6; cell_value ws_sum 19 7];
                   [cell_value ws_sum 20 1; cell_value ws_sum 20 6; cell_value ws_sum 20 7]] |} /\
  cash_df ws_sum =
    Ok {| columns := [cell_value ws_sum 25 1; cell_value ws_sum 25 6; cell_value ws_sum 25 7];
          rows := [[cell_value ws_sum 26 1; cell_value ws_sum 26 6; cell_value ws_sum 26 7];
                   [cell_value ws_sum 27 1; cell_value ws_sum 27 6; cell_value ws_sum 27 7];
                   [cell_value ws_sum 28 1; cell_value ws_sum 28 6; cell_value ws_sum 28 7]] |} /\
  (exists df, df_from_range ws_sum CONTRIB_HEADER_ROW CONTRIB_DATA_ROWS CONTRIB_COLS = Ok df /\
     length (columns df) = 7%nat /\ length (rows df) = 3%nat /\
     contrib_df ws_sum = iloc_columns df [0; -2; -1]) /\
  (exists df, df_from_range ws_sum CASH_HEADER_ROW CASH_DATA_ROWS CASH_COLS = Ok df /\
     length (columns df) = 7%nat /\ length (rows df) = 3%nat /\
     cash_df ws_sum = iloc_columns df [0; -2; -1]) /\
  (forall df, (2 <= length (columns df))%nat ->
     exists a b c, iloc_columns df [0; -2; -1] =
       Ok {| columns := [a; b; c];
             rows := map (fun r => [nth 0 r VNone;
                                    nth (length (columns df) - 2) r VNone;
                                    nth (length (columns df) - 1) r VNone]) (rows df) |} /\
       columns df !! 0%nat = Some a /\
       columns df !! (length (columns df) - 2)%nat = Some b /\
       columns df !! (length (columns df) - 1)%nat = Some c).
Proof.
  split; [reflexivity |]. split; [reflexivity |].
  split; [eexists; split; [reflexivity |]; done |].
  split; [eexists; split; [reflexivity |]; done |].
  intros df Hlen. do 3 eexists. split; [by apply iloc_first_last_two |].
  repeat split; rewrite nth_lookup;
    match goal with |- _ !! ?i = _ =>
      destruct (lookup_lt_is_Some_2 (columns df) i) as [x ->]; [lia | done] end.
Qed.

(** ** Chart slots *)

Lemma issubset_missing (names : list string) (df : DataFrame) (name : string) :
  name ∈ names -> VStr name ∉ columns df -> issubset names df = false.
Proof.
  intros Hin Hmiss. apply not_true_is_false. unfold issubset. rewrite forallb_forall.
  intros Hall. apply Hmiss, has_column_str, Hall. by apply list_elem_of_In.
Qed.

Lemma append_assoc (s1 s2 s3 : string) : (s1 +:+ s2) +:+ s3 = s1 +:+ s2 +:+ s3.
Proof.
  induction s1 as [| c s1 IH]; [reflexivity |].
  change (String c ((s1 +:+ s2) +:+ s3) = String c (s1 +:+ s2 +:+ s3)). by rewrite IH.
Qed.

Section ChartProperties.
Context `{Plotly}.

(** C6. For each of the four chart slots: when one of the slot's expected
    column names is not among the labels of its table (a label counts only
    when it is that very text), the slot returns its fixed muted-text
    placeholder, raises nothing and draws nothing. *)
Theorem missing_column_placeholder (df : DataFrame) (name : string) (w : World) :
  VStr name ∉ columns df ->
  (name ∈ ["Month"; "Purchases (₹)"; "Sales (₹)"] ->
   chart_slot_month df w = (Ok MONTH_UNAVAILABLE, w)) /\
  (name ∈ ["Month"; "Profit (₹)"] ->
   chart_slot_profit df w = (Ok PROFIT_UNAVAILABLE, w)) /\
  (name ∈ ["Category"; "Qty Sold"; "Qty Pending"] ->
   chart_slot_cat_qty df w = (Ok CAT_QTY_UNAVAILABLE, w)) /\
  (name ∈ ["Category"; "Pending Value (₹)"] ->
   chart_slot_pending_val df w = (Ok PENDING_VAL_UNAVAILABLE, w)).
Proof.
  intros Hmiss. repeat split; intros Hin.
  - unfold chart_slot_month. by rewrite (issubset_missing _ df name).
  - unfold chart_slot_profit. by rewrite (issubset_missing _ df name).
  - unfold chart_slot_cat_qty. by rewrite (issubset_missing _ df name).
  - unfold chart_slot_pending_val. by rewrite (issubset_missing _ df name).
Qed.

Lemma pio_to_html_run (fig : Figure) (include : include_plotlyjs)
    (config : list (string * Value)) (w : World) :
  pio_to_html fig include config w = (Ok (to_html fig include config (next_uuid w)), drawn_one w).
Proof. reflexivity. Qed.

(** C7. Of the four chart slots, the first one (the monthly chart) is
    serialised with the script tag that loads the charting library from its
    CDN; the three later slots are serialised with no library reference at
    all: their markup is the graph div and its drawing script only. *)
Theorem only_first_chart_loads_library (df : DataFrame) (fig : Figure) (w : World) :
  (issubset ["Month"; "Purchases (₹)"; "Sales (₹)"] df = true -> fig_month df = Ok fig ->
   chart_slot_month df w =
     (Ok (to_html fig IncludeCdn PLOTLY_CONFIG (next_uuid w)), drawn_one w)) /\
  (issubset ["Month"; "Profit (₹)"] df = true -> fig_profit df = Ok fig ->
   chart_slot_profit df w =
     (Ok (to_html fig IncludeFalse PLOTLY_CONFIG (next_uuid w)), drawn_one w)) /\
  (issubset ["Category"; "Qty Sold"; "Qty Pending"] df = true -> fig_cat_qty df = Ok fig ->
   chart_slot_cat_qty df w =
     (Ok (to_html fig IncludeFalse PLOTLY_CONFIG (next_uuid w)), drawn_one w)) /\
  (issubset ["Category"; "Pending Value (₹)"] df = true -> fig_pending_val df = Ok fig ->
   chart_slot_pending_val df w =
     (Ok (to_html fig IncludeFalse PLOTLY_CONFIG (next_uuid w)), drawn_one w)) /\
  (forall config div_id,
     to_html fig IncludeCdn config div_id =
       "<div>" +:+ "<script charset=" +:+ quoted "utf-8" +:+ " src=" +:+
       quoted ("https://cdn.plot.ly/plotly-" +:+ plotlyjs_version +:+ ".min.js") +:+
       "></script>" +:+ plot_div fig config div_id +:+ "</div>") /\
  (forall config div_id,
     to_html fig IncludeFalse config div_id = "<div>" +:+ plot_div fig config div_id +:+ "</div>") /\
  load_plotlyjs IncludeFalse = "".
Proof.
  repeat split.
  - intros Hsub Hfig. unfold chart_slot_month. rewrite Hsub, Hfig. reflexivity.
  - intros Hsub Hfig. unfold chart_slot_profit. rewrite Hsub, Hfig. reflexivity.
  - intros Hsub Hfig. unfold chart_slot_cat_qty. rewrite Hsub, Hfig. reflexivity.
  - intros Hsub Hfig. unfold chart_slot_pending_val. rewrite Hsub, Hfig. reflexivity.
  - intros config div_id. unfold to_html, load_plotlyjs.
    by rewrite !append_assoc.
Qed.

End ChartProperties.

(** ** Runs *)

Lemma bind_run {A B} (m : io A) (k : A -> io B) (w : World) :
  (m ≫= k) w =
  match m w with
  | (Ok a, w') => k a w'
  | (Raise e, w') => (Raise e, w')
  end.
Proof. reflexivity. Qed.

Lemma lift_bind_run {A B} (r : result A) (k : A -> io B) (w : World) :
  (lift r ≫= k) w =
  match r with
  | Ok a => k a w
  | Raise e => (Raise e, w)
  end.
Proof. unfold mbind, io_bind, lift. by destruct r. Qed.

Lemma reads_only_lift {A} (r : result A) : reads_only (lift r).
Proof. by intros w. Qed.

Lemma reads_only_ret {A} (a : A) : reads_only (mret a : io A).
Proof. by intros w. Qed.

Lemma reads_only_uuid4 : reads_only uuid4.
Proof. by intros w. Qed.

Lemma reads_only_read_text (p : path) : reads_only (read_text p).
Proof. intros w. unfold read_text. by destruct (fs w !! p) as [[| [|]] |]. Qed.

Lemma reads_only_bind {A B} (m : io A) (k : A -> io B) :
  reads_only m -> (forall a, reads_only (k a)) -> reads_only (m ≫= k).
Proof.
  intros Hm Hk w. rewrite bind_run. specialize (Hm w).
  destruct (m w) as [[a | e] w']; simpl in *; [| done].
  destruct (Hk a w') as (H1 & H2 & H3). destruct Hm as (H4 & H5 & H6).
  repeat split; congruence.
Qed.

Lemma mkdir_from_spec (todo : list string) :
  forall done m m', mkdir_from done todo m = Ok m' ->
  forall p : path, m' !! p = m !! p \/
            (m !! p = None /\ m' !! p = Some Dir /\
             exists k, (0 < k <= length todo)%nat /\ p = done ++ take k todo).
Proof.
  induction todo as [| name rest IH]; intros done m m'; simpl.
  - intros [= <-] p. by left.
  - unfold joinpath.
    assert (Hshift : forall k, (0 < k <= length rest)%nat ->
              (done ++ [name]) ++ take k rest = done ++ take (S k) (name :: rest)).
    { intros k Hk. simpl. by rewrite <- app_assoc. }
    intros Hm p.
    match type of Hm with
    | match ?x with _ => _ end = _ => destruct x as [[| f] |] eqn:Hp
    end.
    + destruct (IH _ _ _ Hm p) as [Heq | (Hn & Hd & k & Hk & ->)]; [by left |].
      right. split; [done |]. split; [done |]. exists (S k). split; [lia |]. by apply Hshift.
    + done.
    + destruct (IH _ _ _ Hm p) as [Heq | (Hn & Hd & k & Hk & ->)].
      * destruct (decide (p = done ++ [name])) as [-> | Hne].
        -- right. rewrite Heq, lookup_insert_eq. split; [done |]. split; [done |].
           exists 1%nat. split; [lia |]. simpl. by rewrite take_0.
        -- left. by rewrite Heq, lookup_insert_ne.
      * right. rewrite Hshift by done.
        destruct (decide (done ++ [name] = (done ++ [name]) ++ take k rest)) as [He | Hne].
        -- apply (f_equal length) in He. rewrite !length_app, length_take in He.
           simpl in He. lia.
        -- rewrite lookup_insert_ne in Hn by done. rewrite <- Hshift by done.
           split; [done |]. split; [done |]. exists (S k). split; [lia |]. by apply Hshift.
Qed.

(** Creating the directories on the way to [dist] changes no file and no
    existing entry; what it adds are directories that are [dist] or above
    it. *)
Lemma mkdir_parents_spec (dist : path) (m m' : gmap path node) :
  mkdir_from [] dist m = Ok m' ->
  forall p : path, m' !! p = m !! p \/ (m !! p = None /\ m' !! p = Some Dir /\ p `prefix_of` dist).
Proof.
  intros Hm p. destruct (mkdir_from_spec dist [] m m' Hm p) as [? | (Hn & Hd & k & Hk & ->)];
    [by left | right].
  split; [done |]. split; [done |]. simpl. exists (drop k dist). by rewrite take_drop.
Qed.

Lemma mkdir_keeps (dist : path) (m m' : gmap path node) (p : path) (x : node) :
  mkdir_from [] dist m = Ok m' -> m !! p = Some x -> m' !! p = Some x.
Proof.
  intros Hm Hp. destruct (mkdir_parents_spec dist m m' Hm p) as [-> | (Hn & _)]; congruence.
Qed.

Lemma load_workbook_world (p : path) (w : World) : (load_workbook p w).2 = w.
Proof.
  unfold load_workbook. destruct (negb _); [done |].
  by destruct (fs w !! p) as [[| [|]] |].
Qed.

Lemma load_workbook_not_spreadsheet (p : path) (w : World) :
  (forall wb, fs w !! p <> Some (File (Spreadsheet wb))) -> raises (load_workbook p w).1.
Proof.
  intros Hno. unfold load_workbook. destruct (negb _); [done |].
  destruct (fs w !! p) as [[| [wb | s]] |] eqn:E; try done. by destruct (Hno wb).
Qed.

Lemma load_workbook_ok (p : path) (w : World) (wb : Workbook) :
  (load_workbook p w).1 = Ok wb -> fs w !! p = Some (File (Spreadsheet wb)).
Proof.
  unfold load_workbook. destruct (negb _); [done |].
  destruct (fs w !! p) as [[| [wb' | s]] |] eqn:E; try done. simpl. by intros [= ->].
Qed.

Section RunProperties.
Context `{CPython} `{Pandas} `{Plotly} `{Jinja2}.

Ltac reads_only_step :=
  first
    [ apply reads_only_lift
    | apply reads_only_ret
    | apply reads_only_uuid4
    | apply reads_only_read_text
    | apply reads_only_bind; [| intros ?] ].

Lemma reads_only_pio_to_html (fig : Figure) (include : include_plotlyjs)
    (config : list (string * Value)) : reads_only (pio_to_html fig include config).
Proof. unfold pio_to_html. repeat reads_only_step. Qed.

Lemma reads_only_build_charts (a b c : DataFrame) : reads_only (build_charts a b c).
Proof.
  unfold build_charts, chart_slot_month, chart_slot_profit, chart_slot_cat_qty,
    chart_slot_pending_val.
  repeat first
    [ reads_only_step
    | apply reads_only_pio_to_html
    | match goal with |- reads_only (if ?c then _ else _) => destruct c end ].
Qed.

Lemma reads_only_render_report (wb : Workbook) (template_path : path) :
  reads_only (render_report wb template_path).
Proof.
  unfold render_report. repeat first [apply reads_only_build_charts | reads_only_step].
Qed.

(** A missing sheet stops the run at [wb[...]]. *)
Lemma render_report_missing_sheet (wb : Workbook) (template_path : path) (w : World) :
  wb !! SHEET_SUMMARY = None \/ wb !! SHEET_DASHBOARD = None ->
  render_report wb template_path w = (Raise KeyError, w).
Proof.
  intros Hmiss. unfold render_report. rewrite lift_bind_run. unfold wb_getitem at 1.
  destruct (wb !! SHEET_SUMMARY) as [ws_sum |] eqn:Hs; [| done].
  rewrite lift_bind_run. unfold wb_getitem at 1.
  destruct Hmiss as [? | ->]; done.
Qed.

Lemma build_unfold (input_xlsx template_path dist_dir : path) (w : World) :
  build input_xlsx template_path dist_dir w =
  match mkdir_from [] dist_dir (fs w) with
  | Raise e => (Raise e, w)
  | Ok m =>
      match load_workbook input_xlsx (set_fs w m) with
      | (Raise e, w1) => (Raise e, w1)
      | (Ok wb, w1) =>
          match render_report wb template_path w1 with
          | (Raise e, w') => (Raise e, w')
          | (Ok html, w') => publish input_xlsx dist_dir html w'
          end
      end
  end.
Proof.
  unfold build. rewrite bind_run. unfold mkdir_parents.
  destruct (mkdir_from [] dist_dir (fs w)) as [m | e]; reflexivity.
Qed.

(** How a run of [build] unfolds: the directory, the workbook, the page,
    and only then the two files. *)
Lemma build_run (input_xlsx template_path dist_dir : path) (w : World) :
  match mkdir_from [] dist_dir (fs w) with
  | Raise e => build input_xlsx template_path dist_dir w = (Raise e, w)
  | Ok m =>
      match (load_workbook input_xlsx (set_fs w m)).1 with
      | Raise e => build input_xlsx template_path dist_dir w = (Raise e, set_fs w m)
      | Ok wb =>
          match render_report wb template_path (set_fs w m) with
          | (Raise e, w') =>
              build input_xlsx template_path dist_dir w = (Raise e, w') /\
              fs w' = m /\ stdout w' = stdout w
          | (Ok html, w') =>
              fs w' = m /\ stdout w' = stdout w /\
              build input_xlsx template_path dist_dir w = publish input_xlsx dist_dir html w'
          end
      end
  end.
Proof.
  pose proof (build_unfold input_xlsx template_path dist_dir w) as Hb.
  destruct (mkdir_from [] dist_dir (fs w)) as [m | e]; [| done].
  pose proof (load_workbook_world input_xlsx (set_fs w m)) as Hw.
  destruct (load_workbook input_xlsx (set_fs w m)) as [[wb | e] w1]; simpl in Hw |- *;
    subst w1; [| done].
  destruct (reads_only_render_report wb template_path (set_fs w m)) as (Hfs & Hout & _).
  destruct (render_report wb template_path (set_fs w m)) as [[html | e] w']; simpl in *;
    done.
Qed.

Lemma after_mkdir_spec (dist_dir : path) (m : gmap path node) (p : path) :
  after_mkdir dist_dir m !! p = m !! p \/
  (m !! p = None /\ after_mkdir dist_dir m !! p = Some Dir /\ p `prefix_of` dist_dir).
Proof.
  unfold after_mkdir. destruct (mkdir_from [] dist_dir m) as [m' |] eqn:E; [| by left].
  by apply mkdir_parents_spec.
Qed.

(** C3, as the code has it.  On a structural failure (missing input file,
    unreadable workbook, missing sheet) [build] raises before the page or the
    spreadsheet copy is written and before anything is printed: no file is
    created or changed.  The output directory is another matter: it is
    created first, so the file system left behind is the one that
    [mkdir(parents=True, exist_ok=True)] produced.  Run through the entry
    point, a missing input file is caught before [build] and nothing at all
    is created. *)
Theorem failing_run_writes_no_file (input_xlsx template_path dist_dir root : path) (w : World) :
  (structural_failure (fs w) input_xlsx ->
   exists e w', build input_xlsx template_path dist_dir w = (Raise e, w') /\
     stdout w' = stdout w /\ fs w' = after_mkdir dist_dir (fs w) /\
     forall p : path, fs w' !! p = fs w !! p \/
       (fs w !! p = None /\ fs w' !! p = Some Dir /\ p `prefix_of` dist_dir)) /\
  (fs w !! (root ++ ["input"; "Chiraath - Business Summary - Latest.xlsx"]) = None ->
   main root w = (Raise FileNotFoundError, w)).
Proof.
  split.
  - intros Hfail.
    assert (Hgoal : exists e w', build input_xlsx template_path dist_dir w = (Raise e, w') /\
              stdout w' = stdout w /\ fs w' = after_mkdir dist_dir (fs w)).
    { pose proof (build_run input_xlsx template_path dist_dir w) as Hrun.
      unfold after_mkdir.
      destruct (mkdir_from [] dist_dir (fs w)) as [m | e] eqn:Hmk; [| by exists e, w].
      assert (Hload : (forall wb, fs (set_fs w m) !! input_xlsx <> Some (File (Spreadsheet wb)))
                \/ exists wb, (wb !! SHEET_SUMMARY = None \/ wb !! SHEET_DASHBOARD = None) /\
                     forall wb', (load_workbook input_xlsx (set_fs w m)).1 = Ok wb' -> wb' = wb).
      { simpl. destruct Hfail as [Hn | [Hd | [[s Hs] | (wb & Hwb & Hsheet)]]].
        - left. intros wb Hwb.
          destruct (mkdir_parents_spec _ _ _ Hmk input_xlsx) as [Heq | (_ & Hdir & _)];
            congruence.
        - left. intros wb Hwb. pose proof (mkdir_keeps _ _ _ _ _ Hmk Hd). congruence.
        - left. intros wb Hwb. pose proof (mkdir_keeps _ _ _ _ _ Hmk Hs). congruence.
        - right. exists wb. split; [done |]. intros wb' Hok.
          apply load_workbook_ok in Hok. simpl in Hok.
          pose proof (mkdir_keeps _ _ _ _ _ Hmk Hwb). congruence. }
      destruct Hload as [Hno | (wb & Hsheet & Hsame)].
      - apply load_workbook_not_spreadsheet in Hno.
        destruct ((load_workbook input_xlsx (set_fs w m)).1) as [wb | e]; [done |].
        by exists e, (set_fs w m).
      - destruct ((load_workbook input_xlsx (set_fs w m)).1) as [wb' | e];
          [| by exists e, (set_fs w m)].
        rewrite (Hsame wb' eq_refl) in Hrun.
        rewrite (render_report_missing_sheet wb template_path _ Hsheet) in Hrun.
        destruct Hrun as (Hb & Hfs & Hout). by exists KeyError, (set_fs w m). }
    destruct Hgoal as (e & w' & Hb & Hout & Hfs). exists e, w'.
    repeat split; try done. intros p. rewrite Hfs. apply after_mkdir_spec.
  - intros Hmiss. unfold main. rewrite bind_run. unfold path_exists.
    rewrite bool_decide_eq_false_2 by (by destruct root).
    rewrite bool_decide_eq_false_2; [done |].
    intros [x Hx]. pose proof (eq_trans (eq_sym Hmiss) Hx). done.
Qed.

Lemma raises_bind {A B} (m : io A) (k : A -> io B) (w : World) :
  (forall a w', m w = (Ok a, w') -> raises (k a w').1) -> raises ((m ≫= k) w).1.
Proof.
  intros Hk. rewrite bind_run. destruct (m w) as [[a | e] w'] eqn:E; [| done].
  by apply Hk.
Qed.

Lemma int_or_dash_raises (q : Value) :
  is_none q = false -> raises (py_int q) -> raises (int_or_dash q).
Proof.
  intros Hn Hr. unfold int_or_dash. rewrite Hn. simpl. by destruct (py_int q).
Qed.

(** A count that [int] refuses stops the run while the arguments of
    [tpl.render] are evaluated. *)
Lemma render_report_bad_count (wb : Workbook) (template_path : path) (w : World)
    (ws_dash : Worksheet) (q : Value) :
  wb !! SHEET_DASHBOARD = Some ws_dash ->
  ws_getitem ws_dash CELL_QTY_SOLD = Ok q \/ ws_getitem ws_dash CELL_QTY_PENDING = Ok q ->
  is_none q = false -> raises (py_int q) ->
  raises (render_report wb template_path w).1.
Proof.
  intros Hwb Hq Hn Hr. pose proof (int_or_dash_raises q Hn Hr) as Hbad.
  unfold render_report.
  apply raises_bind; intros ws_sum w1 _.
  apply raises_bind; intros ws w2 E. unfold lift, wb_getitem in E. rewrite Hwb in E.
  injection E as <- _.
  do 6 (apply raises_bind; intros ? ? _).
  apply raises_bind; intros qty_sold ? Es.
  assert (Es' : ws_getitem ws_dash CELL_QTY_SOLD = Ok qty_sold) by exact (f_equal fst Es).
  apply raises_bind; intros qty_pending ? Ep.
  assert (Ep' : ws_getitem ws_dash CELL_QTY_PENDING = Ok qty_pending)
    by exact (f_equal fst Ep).
  do 10 (apply raises_bind; intros ? ? _).
  rewrite lift_bind_run. destruct (int_or_dash qty_sold) as [qs |] eqn:Eqs; [| done].
  rewrite lift_bind_run. destruct (int_or_dash qty_pending) as [qp |] eqn:Eqp; [| done].
  destruct Hq as [Hq | Hq].
  - assert (qty_sold = q) as -> by congruence. by rewrite Eqs in Hbad.
  - assert (qty_pending = q) as -> by congruence. by rewrite Eqp in Hbad.
Qed.

(** C10. The integer-count formatting is not total.  A quantity cell that
    holds [None] is rendered as "—".  A quantity cell (sold or pending) that
    holds anything else that [int] refuses, such as text that is no integer,
    makes the whole build raise: no page is written, nothing is printed, and
    only the output directory has been created. *)
Theorem count_not_total (input_xlsx template_path dist_dir : path) (w : World)
    (wb : Workbook) (ws_dash : Worksheet) (q : Value) :
  int_or_dash VNone = Ok (VStr "—") /\
  (forall s, int_of_str s = None -> raises (py_int (VStr s))) /\
  (fs w !! input_xlsx = Some (File (Spreadsheet wb)) ->
   wb !! SHEET_DASHBOARD = Some ws_dash ->
   ws_getitem ws_dash CELL_QTY_SOLD = Ok q \/ ws_getitem ws_dash CELL_QTY_PENDING = Ok q ->
   is_none q = false -> raises (py_int q) ->
   exists e w', build input_xlsx template_path dist_dir w = (Raise e, w') /\
     fs w' = after_mkdir dist_dir (fs w) /\ stdout w' = stdout w).
Proof.
  split; [done |]. split; [intros s Hs; simpl; by rewrite Hs |].
  intros Hfile Hwb Hq Hn Hr.
  pose proof (build_run input_xlsx template_path dist_dir w) as Hrun. unfold after_mkdir.
  destruct (mkdir_from [] dist_dir (fs w)) as [m | e] eqn:Hmk; [| by exists e, w].
  destruct ((load_workbook input_xlsx (set_fs w m)).1) as [wb' | e] eqn:Hload;
    [| by exists e, (set_fs w m)].
  apply load_workbook_ok in Hload. simpl in Hload.
  pose proof (mkdir_keeps _ _ _ _ _ Hmk Hfile) as Hkeep.
  assert (wb' = wb) as -> by congruence.
  pose proof (render_report_bad_count wb template_path (set_fs w m) ws_dash q Hwb Hq Hn Hr)
    as Hbad.
  destruct (render_report wb template_path (set_fs w m)) as [[html | e] w']; [done |].
  destruct Hrun as (Hb & Hfs & Hout). by exists e, w'.
Qed.

End RunProperties.

(** ** Determinism up to the identifiers drawn *)

Lemma same_view_le (R : fs_relation) (n n' : nat) (w1 w2 : World) :
  (n <= n')%nat -> same_view R n' w1 w2 -> same_view R n w1 w2.
Proof. intros Hle [Hfs Hids]. split; [done |]. intros i Hi. apply Hids. lia. Qed.

Lemma det_weaken {A} (R : fs_relation) (k k' : nat) (m : io A) :
  deterministic R k m -> (k <= k')%nat -> deterministic R k' m.
Proof.
  intros Hm Hle n w1 w2 Hv.
  destruct (Hm (k' - k + n)%nat w1 w2) as [Hr Hv'].
  { eapply same_view_le; [| exact Hv]. lia. }
  split; [done |]. eapply same_view_le; [| exact Hv']. lia.
Qed.

Lemma det_lift {A} (R : fs_relation) (r : result A) : deterministic R 0 (lift r).
Proof. intros n w1 w2 Hv. by split. Qed.

Lemma det_ret {A} (R : fs_relation) (a : A) : deterministic R 0 (mret a : io A).
Proof. intros n w1 w2 Hv. by split. Qed.

Lemma det_uuid4 (R : fs_relation) : deterministic R 1 uuid4.
Proof.
  intros n w1 w2 [Hfs Hids]. unfold uuid4. simpl. split.
  - f_equal. specialize (Hids 0%nat). rewrite !Nat.add_0_r in Hids. apply Hids. lia.
  - split; [done |]. simpl. intros i Hi. specialize (Hids (S i)).
    rewrite <- !Nat.add_succ_comm in Hids. apply Hids. lia.
Qed.

Lemma det_bind {A B} (R : fs_relation) (k1 k2 : nat) (m : io A) (k : A -> io B) :
  deterministic R k1 m -> (forall a, deterministic R k2 (k a)) ->
  deterministic R (k1 + k2) (m ≫= k).
Proof.
  intros Hm Hk n w1 w2 Hv. rewrite !bind_run.
  destruct (Hm (k2 + n)%nat w1 w2) as [Hr Hv'].
  { by rewrite Nat.add_assoc. }
  destruct (m w1) as [[a1 | e1] w1'], (m w2) as [[a2 | e2] w2']; simpl in *; try done.
  - injection Hr as <-. by apply Hk.
  - injection Hr as ->. split; [done |]. eapply same_view_le; [| exact Hv']. lia.
Qed.

Lemma det_print (R : fs_relation) (line : string) : deterministic R 0 (print line).
Proof. intros n w1 w2 Hv. by split. Qed.

Lemma det_path_exists (p : path) : deterministic eq 0 (path_exists p).
Proof.
  intros n w1 w2 Hv. unfold path_exists. simpl. destruct Hv as [Hfs Hids].
  rewrite Hfs. by split.
Qed.

Lemma det_mkdir_parents (p : path) : deterministic eq 0 (mkdir_parents p).
Proof.
  intros n w1 w2 [Hfs Hids]. unfold mkdir_parents. rewrite Hfs.
  destruct (mkdir_from [] p (fs w2)); simpl; by split.
Qed.

Lemma det_load_workbook (p : path) : deterministic eq 0 (load_workbook p).
Proof.
  intros n w1 w2 [Hfs Hids]. unfold load_workbook. rewrite Hfs.
  destruct (negb _); [by split |].
  destruct (fs w2 !! p) as [[| [|]] |]; by split.
Qed.

Lemma det_read_text (R : fs_relation) (p : path) :
  (forall m1 m2, R m1 m2 -> same_at p m1 m2) -> deterministic R 0 (read_text p).
Proof.
  intros HR n w1 w2 [Hfs Hids]. unfold read_text. rewrite (HR _ _ Hfs).
  destruct (fs w2 !! p) as [[| [|]] |]; by split.
Qed.

Lemma det_write_text (p : path) (s : string) : deterministic eq 0 (write_text p s).
Proof.
  intros n w1 w2 [Hfs Hids]. unfold write_text. rewrite Hfs.
  destruct (open_w (fs w2) p); simpl; [| by split].
  split; [done |]. by split.
Qed.

Lemma det_copyfile (src dst : path) : deterministic eq 0 (copyfile src dst).
Proof.
  intros n w1 w2 [Hfs Hids]. unfold copyfile. rewrite Hfs.
  destruct (_ && _); [by split |].
  destruct (fs w2 !! src) as [[| f] |]; try by split.
  destruct (open_w (fs w2) dst); simpl; [| by split].
  split; [done |]. by split.
Qed.

Section DeterminismProperties.
Context `{CPython} `{Pandas} `{Plotly} `{Jinja2}.

Ltac det_step :=
  first
    [ apply det_lift
    | apply det_ret
    | apply det_uuid4
    | apply det_print
    | apply det_path_exists
    | apply det_mkdir_parents
    | apply det_load_workbook
    | apply det_write_text
    | apply det_copyfile
    | eapply det_bind; [| intros ?] ].

Lemma det_pio_to_html (R : fs_relation) (fig : Figure) (include : include_plotlyjs)
    (config : list (string * Value)) : deterministic R 1 (pio_to_html fig include config).
Proof. unfold pio_to_html. eapply det_weaken; [repeat det_step | simpl; lia]. Qed.

Ltac det_slot :=
  match goal with
  | |- deterministic _ _ (if ?c then _ else _) => destruct c
  end;
  [ eapply det_weaken;
    [ eapply det_bind; [apply det_lift | intros ?; apply det_pio_to_html] | simpl; lia ]
  | eapply det_weaken; [apply det_ret | lia] ].

Lemma det_chart_slot_month (R : fs_relation) (df : DataFrame) :
  deterministic R 1 (chart_slot_month df).
Proof. unfold chart_slot_month. det_slot. Qed.

Lemma det_chart_slot_profit (R : fs_relation) (df : DataFrame) :
  deterministic R 1 (chart_slot_profit df).
Proof. unfold chart_slot_profit. det_slot. Qed.

Lemma det_chart_slot_cat_qty (R : fs_relation) (df : DataFrame) :
  deterministic R 1 (chart_slot_cat_qty df).
Proof. unfold chart_slot_cat_qty. det_slot. Qed.

Lemma det_chart_slot_pending_val (R : fs_relation) (df : DataFrame) :
  deterministic R 1 (chart_slot_pending_val df).
Proof. unfold chart_slot_pending_val. det_slot. Qed.

Lemma det_build_charts (R : fs_relation) (a b c : DataFrame) :
  deterministic R 4 (build_charts a b c).
Proof.
  unfold build_charts. eapply det_weaken.
  - eapply det_bind; [apply det_chart_slot_month | intros ?].
    eapply det_bind; [apply det_chart_slot_profit | intros ?].
    eapply det_bind; [apply det_chart_slot_cat_qty | intros ?].
    eapply det_bind; [apply det_chart_slot_pending_val | intros ?].
    apply det_ret.
  - simpl; lia.
Qed.

(** The page depends on the files through the template alone. *)
Lemma det_render_report (R : fs_relation) (wb : Workbook) (template_path : path) :
  (forall m1 m2, R m1 m2 -> same_at template_path m1 m2) ->
  deterministic R 4 (render_report wb template_path).
Proof.
  intros HR. unfold render_report. eapply det_weaken.
  - repeat first [apply det_build_charts | by apply det_read_text | det_step].
  - simpl; lia.
Qed.

Lemma det_build (input_xlsx template_path dist_dir : path) :
  deterministic eq 4 (build input_xlsx template_path dist_dir).
Proof.
  unfold build. eapply det_weaken.
  - repeat first [apply det_render_report; by intros ? ? -> | det_step].
  - simpl; lia.
Qed.

Lemma det_main (root : path) : deterministic eq 4 (main root).
Proof.
  unfold main. eapply det_weaken.
  - eapply det_bind; [apply det_path_exists | intros found].
    destruct (negb found); [| apply det_build].
    eapply det_weaken; [apply det_lift | lia].
  - simpl; lia.
Qed.

(** C1, as the code has it.  Each chart that is built gets a fresh
    [uuid4()] as the id of its div, so the page is a function of the input
    workbook, the template and the (at most four) identifiers drawn: two
    runs that start from the same files and draw the same identifiers raise
    the same exception or write the same files, [index.html] among them. *)
Theorem build_deterministic_given_ids (input_xlsx template_path dist_dir root : path)
    (w1 w2 : World) :
  fs w1 = fs w2 ->
  (forall i, (i < 4)%nat ->
     uuid_source w1 (uuid_drawn w1 + i)%nat = uuid_source w2 (uuid_drawn w2 + i)%nat) ->
  (build input_xlsx template_path dist_dir w1).1 =
    (build input_xlsx template_path dist_dir w2).1 /\
  fs (build input_xlsx template_path dist_dir w1).2 =
    fs (build input_xlsx template_path dist_dir w2).2 /\
  (main root w1).1 = (main root w2).1 /\
  fs (main root w1).2 = fs (main root w2).2.
Proof.
  intros Hfs Hids.
  assert (Hv : same_view eq (4 + 0) w1 w2) by (by split).
  destruct (det_build input_xlsx template_path dist_dir 0%nat w1 w2 Hv) as [Hr [Hf _]].
  destruct (det_main root 0%nat w1 w2 Hv) as [Hr' [Hf' _]].
  done.
Qed.

End DeterminismProperties.
(** A run that is known to return [a] is the pair of [a] and its final
    world. *)
Lemma run_ok {A} (m : io A) (w : World) (a : A) :
  (m w).1 = Ok a -> m w = (Ok a, (m w).2).
Proof. intros E. rewrite <- E. by destruct (m w). Qed.

Lemma run_raise {A} (m : io A) (w : World) (e : exn) :
  (m w).1 = Raise e -> m w = (Raise e, (m w).2).
Proof. intros E. rewrite <- E. by destruct (m w). Qed.


(** ** What a successful run leaves behind *)

Lemma mkdir_from_dirs (todo : list string) :
  forall done m m', mkdir_from done todo m = Ok m' ->
  forall k, (0 < k <= length todo)%nat -> m' !! (done ++ take k todo : path) = Some Dir.
Proof.
  induction todo as [| name rest IH]; intros done m m' Hm k Hk; simpl in *; [lia |].
  unfold joinpath in Hm.
  assert (Hkeep : forall m0 : gmap path node, m0 !! (done ++ [name] : path) = Some Dir ->
            mkdir_from (done ++ [name]) rest m0 = Ok m' ->
            m' !! (done ++ take k (name :: rest) : path) = Some Dir).
  { intros m0 Hd Hm0. destruct k as [| k]; [lia |]. simpl.
    destruct k as [| k].
    - rewrite take_0.
      destruct (mkdir_from_spec rest _ _ _ Hm0 (done ++ [name])) as [Heq | (Hn & _)];
        [(by etrans) | congruence].
    - replace (done ++ name :: take (S k) rest) with ((done ++ [name]) ++ take (S k) rest)
        by (by rewrite <- app_assoc).
      apply (IH _ _ _ Hm0). simpl in Hk. lia. }
  match type of Hm with
  | match ?x with _ => _ end = _ => destruct x as [[| f] |] eqn:Hp
  end.
  - by apply (Hkeep m).
  - done.
  - apply (Hkeep (<[(done ++ [name] : path) := Dir]> m)); [| done].
    apply lookup_insert_eq.
Qed.

Lemma mkdir_from_idem (todo : list string) :
  forall done (m : gmap path node),
  (forall k, (0 < k <= length todo)%nat -> m !! (done ++ take k todo : path) = Some Dir) ->
  mkdir_from done todo m = Ok m.
Proof.
  induction todo as [| name rest IH]; intros done m Hdirs; simpl; [reflexivity |].
  unfold joinpath.
  assert (Hd : m !! (done ++ [name] : path) = Some Dir).
  { specialize (Hdirs 1%nat). simpl in Hdirs. rewrite take_0 in Hdirs. apply Hdirs. lia. }
  assert (Hrec : mkdir_from (done ++ [name]) rest m = Ok m).
  { apply IH. intros k Hk. specialize (Hdirs (S k)). simpl in Hdirs.
    rewrite <- app_assoc. apply Hdirs. lia. }
  pose proof Hd as Hd'.
  match goal with
  | |- match ?x with _ => _ end = _ => change x with (m !! (done ++ [name] : path))
  end.
  by rewrite Hd.
Qed.

Lemma publish_run (input_xlsx dist_dir : path) (html : string) (w w' : World) :
  publish input_xlsx dist_dir html w = (Ok tt, w') ->
  let index := joinpath dist_dir "index.html" in
  let copy := joinpath dist_dir EXCEL_FILENAME in
  let m1 : gmap path node := <[index := File (Text html)]> (fs w) in
  exists f, m1 !! input_xlsx = Some (File f) /\
    fs w' = <[copy := File f]> m1 /\
    stdout w' = stdout w ++ ["✅ Built dashboard: " +:+ path_str index;
                             "⬇️  Excel download file: " +:+ path_str copy] /\
    uuid_source w' = uuid_source w /\ uuid_drawn w' = uuid_drawn w.
Proof.
  unfold publish. rewrite bind_run. unfold write_text at 1.
  destruct (open_w (fs w) (joinpath dist_dir "index.html")); [| done].
  rewrite bind_run. unfold copyfile at 1. simpl fs.
  destruct (bool_decide _ && bool_decide _); [done |].
  match goal with
  | |- context [match ?x with Some _ => _ | None => _ end] => destruct x as [[| f] |] eqn:Hf
  end; try done.
  destruct (open_w _ (joinpath dist_dir EXCEL_FILENAME)); [| done].
  intros [= <-]. exists f. simpl. repeat split; try done.
  by rewrite <- app_assoc.
Qed.

Lemma load_workbook_extension (p : path) (w : World) (wb : Workbook) :
  (load_workbook p w).1 = Ok wb -> lower (splitext_ext (List.last p "")) ∈ SUPPORTED_FORMATS.
Proof.
  unfold load_workbook.
  destruct (bool_decide (lower (splitext_ext (List.last p "")) ∈ SUPPORTED_FORMATS)) eqn:E;
    simpl; [| done].
  intros _. by apply bool_decide_eq_true in E.
Qed.

Lemma index_is_no_workbook (dist_dir : path) (w : World) (wb : Workbook) :
  (load_workbook (joinpath dist_dir "index.html") w).1 <> Ok wb.
Proof.
  intros Hload. apply load_workbook_extension in Hload. unfold joinpath in Hload.
  rewrite last_last in Hload. revert Hload. apply (bool_decide_unpack _). by vm_compute.
Qed.

Lemma index_is_not_copy (dist_dir : path) :
  joinpath dist_dir "index.html" <> joinpath dist_dir EXCEL_FILENAME.
Proof. unfold joinpath. intros Heq. by apply app_inv_head in Heq. Qed.

Lemma copy_is_not_index (dist_dir : path) :
  joinpath dist_dir EXCEL_FILENAME <> joinpath dist_dir "index.html".
Proof. unfold joinpath. intros Heq. by apply app_inv_head in Heq. Qed.

Lemma copyfile_same (p : path) (w : World) : raises (copyfile p p w).1.
Proof.
  unfold copyfile. rewrite bool_decide_eq_true_2 by done.
  destruct (fs w !! p) as [x |] eqn:E.
  - rewrite bool_decide_eq_true_2 by (by eexists). done.
  - rewrite bool_decide_eq_false_2 by (by intros [? ?]). done.
Qed.

Lemma publish_input_not_copy (input_xlsx dist_dir : path) (html : string) (w w' : World) :
  publish input_xlsx dist_dir html w = (Ok tt, w') ->
  input_xlsx <> joinpath dist_dir EXCEL_FILENAME.
Proof.
  intros Hpub ->. unfold publish in Hpub. rewrite bind_run in Hpub.
  destruct (write_text (joinpath dist_dir "index.html") html w) as [[[] | e] w2]; [| done].
  rewrite bind_run in Hpub.
  pose proof (copyfile_same (joinpath dist_dir EXCEL_FILENAME) w2) as Hsame.
  destruct (copyfile _ _ w2) as [[[] | e] w3]; done.
Qed.

Lemma load_workbook_run (p : path) (w : World) (wb : Workbook) :
  lower (splitext_ext (List.last p "")) ∈ SUPPORTED_FORMATS ->
  fs w !! p = Some (File (Spreadsheet wb)) -> load_workbook p w = (Ok wb, w).
Proof.
  intros Hext Hp. unfold load_workbook. rewrite bool_decide_eq_true_2 by done. simpl.
  by rewrite Hp.
Qed.

Lemma joinpath_not_nil (p : path) (name : string) : joinpath p name <> [].
Proof. unfold joinpath. by destruct p. Qed.

(** Publishing the same page and the same workbook again changes no
    file. *)
Lemma publish_again (input_xlsx dist_dir : path) (html : string) (f : file) (w : World) :
  fs w !! joinpath dist_dir "index.html" = Some (File (Text html)) ->
  fs w !! joinpath dist_dir EXCEL_FILENAME = Some (File f) ->
  fs w !! input_xlsx = Some (File f) ->
  input_xlsx <> joinpath dist_dir EXCEL_FILENAME ->
  exists w2, publish input_xlsx dist_dir html w = (Ok tt, w2) /\ fs w2 = fs w.
Proof.
  intros Hindex Hcopy Hin Hne. unfold publish. rewrite bind_run.
  unfold write_text at 1. unfold open_w at 1.
  rewrite bool_decide_eq_false_2 by apply joinpath_not_nil. rewrite Hindex.
  rewrite (insert_id (fs w) _ _ Hindex).
  rewrite bind_run. unfold copyfile at 1. simpl fs.
  rewrite bool_decide_eq_false_2 by done. simpl. rewrite Hin.
  unfold open_w. rewrite bool_decide_eq_false_2 by apply joinpath_not_nil. rewrite Hcopy.
  rewrite (insert_id (fs w) _ _ Hcopy).
  eexists. split; reflexivity.
Qed.

Section SuccessfulRuns.
Context `{CPython} `{Pandas} `{Plotly} `{Jinja2}.

(** What [build] has done when it returns: the page is the rendered
    template, the copy is the input workbook itself, and two lines have
    been printed. *)
Lemma build_ok (input_xlsx template_path dist_dir : path) (w w' : World) :
  build input_xlsx template_path dist_dir w = (Ok tt, w') ->
  exists m wb html w1,
    mkdir_from [] dist_dir (fs w) = Ok m /\
    m !! input_xlsx = Some (File (Spreadsheet wb)) /\
    (load_workbook input_xlsx (set_fs w m)).1 = Ok wb /\
    render_report wb template_path (set_fs w m) = (Ok html, w1) /\
    input_xlsx <> joinpath dist_dir "index.html" /\
    input_xlsx <> joinpath dist_dir EXCEL_FILENAME /\
    fs w' = <[joinpath dist_dir EXCEL_FILENAME := File (Spreadsheet wb)]>
              (<[joinpath dist_dir "index.html" := File (Text html)]> m) /\
    stdout w' = stdout w ++
      ["✅ Built dashboard: " +:+ path_str (joinpath dist_dir "index.html");
       "⬇️  Excel download file: " +:+ path_str (joinpath dist_dir EXCEL_FILENAME)] /\
    uuid_source w' = uuid_source w1 /\ uuid_drawn w' = uuid_drawn w1.
Proof.
  intros Hb. pose proof (build_run input_xlsx template_path dist_dir w) as Hrun.
  destruct (mkdir_from [] dist_dir (fs w)) as [m | e] eqn:Hmk; [| congruence].
  destruct ((load_workbook input_xlsx (set_fs w m)).1) as [wb | e] eqn:Hload; [| congruence].
  destruct (render_report wb template_path (set_fs w m)) as [[html | e] w1] eqn:Hrender;
    [| destruct Hrun; congruence].
  destruct Hrun as (Hfs & Hout & Hpub). rewrite Hb in Hpub. symmetry in Hpub.
  pose proof (load_workbook_ok _ _ _ Hload) as Hin. simpl in Hin.
  assert (Hne : input_xlsx <> joinpath dist_dir "index.html").
  { intros ->. by apply (index_is_no_workbook dist_dir (set_fs w m) wb). }
  pose proof Hpub as Hpub'. apply publish_run in Hpub' as (f & Hf & Hfs' & Hout' & Hsrc & Hdrawn).
  simpl in Hf. rewrite Hfs in Hf. rewrite lookup_insert_ne in Hf by done.
  assert (f = Spreadsheet wb) as -> by congruence.
  pose proof (publish_input_not_copy _ _ _ _ _ Hpub) as Hne'.
  exists m, wb, html, w1. rewrite Hfs in Hfs'. rewrite Hout in Hout'. done.
Qed.

(** X1. A run of [build] that returns has written the rendered page to
    [index.html] and a copy of the input workbook, the very same workbook,
    under the fixed file name; the input file is as it was, two lines have
    been printed, and every other path is as the directory creation left
    it. *)
Theorem successful_run_outputs (input_xlsx template_path dist_dir : path) (w w' : World) :
  build input_xlsx template_path dist_dir w = (Ok tt, w') ->
  exists wb html,
    fs w !! input_xlsx = Some (File (Spreadsheet wb)) /\
    (render_report wb template_path (set_fs w (after_mkdir dist_dir (fs w)))).1 = Ok html /\
    fs w' !! joinpath dist_dir "index.html" = Some (File (Text html)) /\
    fs w' !! joinpath dist_dir EXCEL_FILENAME = Some (File (Spreadsheet wb)) /\
    fs w' !! input_xlsx = fs w !! input_xlsx /\
    stdout w' = stdout w ++
      ["✅ Built dashboard: " +:+ path_str (joinpath dist_dir "index.html");
       "⬇️  Excel download file: " +:+ path_str (joinpath dist_dir EXCEL_FILENAME)] /\
    (forall p : path, p <> joinpath dist_dir "index.html" ->
       p <> joinpath dist_dir EXCEL_FILENAME ->
       fs w' !! p = after_mkdir dist_dir (fs w) !! p).
Proof.
  intros Hb.
  destruct (build_ok _ _ _ _ _ Hb)
    as (m & wb & html & w1 & Hmk & Hin & Hload & Hrender & Hne & Hne' & Hfs & Hout & _).
  assert (Hin0 : fs w !! input_xlsx = Some (File (Spreadsheet wb))).
  { destruct (mkdir_parents_spec _ _ _ Hmk input_xlsx) as [Heq | (_ & Hdir & _)];
      [by etrans | congruence]. }
  exists wb, html. unfold after_mkdir. rewrite Hmk, Hrender, Hfs.
  split; [done |]. split; [done |].
  split; [rewrite lookup_insert_ne by apply copy_is_not_index; apply lookup_insert_eq |].
  split; [apply lookup_insert_eq |].
  split; [rewrite !lookup_insert_ne by done; by etrans |].
  split; [done |].
  intros p Hp Hp'. by rewrite !lookup_insert_ne.
Qed.

(** X2. Run through the entry point a second time on what the first run
    left, with the same identifiers drawn, the build succeeds again and
    changes no file: apart from the chart identifiers the run is
    idempotent. *)
Theorem rerun_same_ids_same_files (root : path) (w w1 : World) :
  main root w = (Ok tt, w1) ->
  (forall i, (i < 4)%nat ->
     uuid_source w1 (uuid_drawn w1 + i)%nat = uuid_source w (uuid_drawn w + i)%nat) ->
  exists w2, main root w1 = (Ok tt, w2) /\ fs w2 = fs w1.
Proof.
  intros Hmain Hids. unfold main in *.
  set (input_xlsx := root ++ ["input"; "Chiraath - Business Summary - Latest.xlsx"]) in *.
  set (template_path := root ++ ["src"; "template.html"]) in *.
  set (dist_dir := root ++ ["docs"]) in *.
  rewrite bind_run in Hmain. unfold path_exists at 1 in Hmain.
  destruct (negb _) eqn:Hfound in Hmain; [done |].
  destruct (build_ok _ _ _ _ _ Hmain)
    as (m & wb & html & wr & Hmk & Hin & Hload & Hrender & Hne & Hne' & Hfs & Hout & Hsrc & Hdr).
  assert (Htpl : template_path <> joinpath dist_dir "index.html" /\
                 template_path <> joinpath dist_dir EXCEL_FILENAME).
  { unfold template_path, dist_dir, joinpath. rewrite <- !app_assoc.
    split; intros Heq; by apply app_inv_head in Heq. }
  destruct Htpl as [Htpl Htpl'].
  assert (Hin1 : fs w1 !! input_xlsx = Some (File (Spreadsheet wb))).
  { by rewrite Hfs, !lookup_insert_ne. }
  rewrite bind_run. unfold path_exists at 1.
  rewrite (bool_decide_eq_true_2 (is_Some (fs w1 !! input_xlsx))) by (by eexists).
  rewrite orb_true_r. change (negb true) with false. cbv iota.
  rewrite build_unfold.
  assert (Hidem : mkdir_from [] dist_dir (fs w1) = Ok (fs w1)).
  { apply mkdir_from_idem. intros k Hk. simpl.
    rewrite Hfs, !lookup_insert_ne.
    - by apply (mkdir_from_dirs dist_dir [] (fs w) m Hmk).
    - unfold joinpath. intros Heq. apply (f_equal length) in Heq.
      rewrite length_app, length_take in Heq. simpl in Heq. lia.
    - unfold joinpath. intros Heq. apply (f_equal length) in Heq.
      rewrite length_app, length_take in Heq. simpl in Heq. lia. }
  rewrite Hidem.
  assert (Hw1 : set_fs w1 (fs w1) = w1) by (by destruct w1).
  rewrite Hw1.
  rewrite (load_workbook_run input_xlsx w1 wb);
    [| by eapply load_workbook_extension | done].
  destruct (det_render_report (same_at template_path) wb template_path
              (fun _ _ Hs => Hs) 0%nat (set_fs w m) w1) as [Hres _].
  { split.
    - unfold same_at. simpl. by rewrite Hfs, !lookup_insert_ne.
    - intros i Hi. simpl. symmetry. by apply Hids. }
  rewrite Hrender in Hres. simpl in Hres.
  destruct (reads_only_render_report wb template_path w1) as (Hfs2 & _).
  destruct (render_report wb template_path w1) as [r w1'] eqn:Hrender1.
  simpl in Hres, Hfs2. subst r.
  destruct (publish_again input_xlsx dist_dir html (Spreadsheet wb) w1') as (w2 & Hpub & Hfs3).
  - rewrite Hfs2, Hfs. rewrite lookup_insert_ne by apply copy_is_not_index.
    apply lookup_insert_eq.
  - rewrite Hfs2, Hfs. apply lookup_insert_eq.
  - by rewrite Hfs2.
  - done.
  - exists w2. split; [done | congruence].
Qed.

End SuccessfulRuns.

(** ** Whole numbers as floats *)

(** Below 2^53 the float of an integer is that integer. *)
Lemma float_of_Z_exact (n : Z) :
  n <> 0 -> Z.abs n < 2 ^ 53 ->
  exists m e, float_of_Z n = S754_finite (n <? 0) m e /\ -52 <= e <= 0 /\
              Z.pos m = Z.abs n * 2 ^ (- e).
Proof.
  intros Hn Hr. unfold float_of_Z, binary64, binary_normalize.
  destruct n as [| p | p]; [done | |].
  - destruct (binary_round_small false p) as (m & e & -> & He & Hm).
    { by apply digits2_small. }
    by exists m, e.
  - destruct (binary_round_small true p) as (m & e & -> & He & Hm).
    { by apply digits2_small. }
    by exists m, e.
Qed.

(** The whole part of an exact float. *)
Lemma exact_whole_part (m : positive) (e a : Z) :
  e <= 0 -> Z.pos m = a * 2 ^ (- e) ->
  (if 0 <=? e then Z.pos m * 2 ^ e else Z.pos m / 2 ^ (- e)) = a.
Proof.
  intros He Hm.
  assert (Hpow : 0 < 2 ^ (- e)) by (apply Z.pow_pos_nonneg; lia).
  destruct (0 <=? e) eqn:H0.
  - assert (e = 0) as -> by lia. simpl in Hm. lia.
  - rewrite Hm. apply Z.div_mul. lia.
Qed.


Section DateFailures.
Context `{CPython}.


End DateFailures.


Section PlaceholderInputs.
Context `{CPython}.


End PlaceholderInputs.

Section CountProperties.
Context `{CPython}.

(** X5. A count cell that holds a float is cut toward zero, never rounded
    (2.9 shows as 2 and -2.9 as -2); a float that is a whole number below
    2^53 shows as that number; NaN and the infinities make [int] raise. *)
Theorem count_of_float (n : Z) (s : bool) (m : positive) (e : Z) :
  (Z.abs n < 2 ^ 53 -> int_or_dash (VFloat (float_of_Z n)) = Ok (VInt n)) /\
  (exists z, int_or_dash (VFloat (S754_finite s m e)) = Ok (VInt z) /\
     (if s then z <= 0 else 0 <= z) /\
     (0 <= e -> Z.abs z = Z.pos m * 2 ^ e) /\
     (e < 0 -> Z.abs z * 2 ^ (- e) <= Z.pos m < (Z.abs z + 1) * 2 ^ (- e))) /\
  int_or_dash NAN = Raise ValueError /\
  int_or_dash (VFloat (S754_infinity s)) = Raise OverflowError.
Proof.
  split; [| split; [| done]].
  - intros Hr. destruct (decide (n = 0)) as [-> | Hn]; [done |].
    destruct (float_of_Z_exact n Hn Hr) as (m' & e' & -> & He & Hm).
    unfold int_or_dash, py_int. cbn [is_none negb mbind result_bind].
    rewrite (exact_whole_part m' e' (Z.abs n)) by (done || lia).
    do 2 f_equal. destruct (n <? 0) eqn:Hs; lia.
  - unfold int_or_dash, py_int. cbn [is_none negb mbind result_bind].
    eexists. split; [reflexivity |].
    destruct (0 <=? e) eqn:He.
    + assert (0 <= 2 ^ e) by (apply Z.pow_nonneg; lia).
      split; [destruct s; nia |]. split; [| lia]. intros _. destruct s; nia.
    + assert (Hpow : 0 < 2 ^ (- e)) by (apply Z.pow_pos_nonneg; lia).
      pose proof (Z.div_pos (Z.pos m) (2 ^ (- e)) ltac:(lia) Hpow) as Hq.
      pose proof (Z.mul_div_le (Z.pos m) (2 ^ (- e)) Hpow) as Hle.
      pose proof (Z.mul_succ_div_gt (Z.pos m) (2 ^ (- e)) Hpow) as Hgt.
      split; [destruct s; lia |]. split; [lia |]. intros _.
      replace (Z.abs (if s then - (Z.pos m / 2 ^ (- e)) else Z.pos m / 2 ^ (- e)))
        with (Z.pos m / 2 ^ (- e)) by (destruct s; lia).
      lia.
Qed.

End CountProperties.

(** ** Column names *)

Lemma append_nil (s : string) : "" +:+ s = s.
Proof. reflexivity. Qed.

Lemma append_cons (a : ascii) (s t : string) : String a s +:+ t = String a (s +:+ t).
Proof. reflexivity. Qed.

Lemma prefix_spec (needle s : string) :
  String.prefix needle s = true <-> exists q, s = needle +:+ q.
Proof.
  revert s. induction needle as [| a needle IH]; intros s.
  - split; [intros _; exists s; by rewrite append_nil | intros _; by destruct s].
  - destruct s as [| b s]; simpl.
    { split; [done | intros [q Hq]; by rewrite append_cons in Hq]. }
    destruct (Ascii.ascii_dec a b) as [-> | Hne].
    + rewrite IH. split; intros [q Hq]; exists q.
      * by rewrite append_cons, Hq.
      * rewrite append_cons in Hq. by injection Hq.
    + split; [done |]. intros [q Hq]. rewrite append_cons in Hq. by injection Hq.
Qed.

(** [needle in s] holds exactly when [s] is some text, [needle], some text. *)
Lemma contains_spec (needle s : string) :
  contains needle s = true <-> exists p q, s = p +:+ needle +:+ q.
Proof.
  induction s as [| b s IH].
  - change (contains needle "") with (String.prefix needle "" || false).
    rewrite orb_false_r, prefix_spec. split.
    + intros [q Hq]. exists "", q. by rewrite append_nil.
    + intros (p & q & Hq). destruct p as [| a p]; [| by rewrite append_cons in Hq].
      rewrite append_nil in Hq. by exists q.
  - change (contains needle (String b s))
      with (String.prefix needle (String b s) || contains needle s).
    rewrite orb_true_iff, prefix_spec, IH. split.
    + intros [[q Hq] | (p & q & Hq)].
      * exists "", q. by rewrite append_nil.
      * exists (String b p), q. by rewrite append_cons, Hq.
    + intros (p & q & Hq). destruct p as [| a p].
      * left. exists q. by rewrite append_nil in Hq.
      * right. rewrite append_cons in Hq. injection Hq as -> ->. by exists p, q.
Qed.

Lemma lower_app (s t : string) : lower (s +:+ t) = lower s +:+ lower t.
Proof.
  induction s as [| a s IH]; [done |].
  rewrite append_cons. simpl. by rewrite IH, append_cons.
Qed.

Section ColumnNames.
Context `{CPython} `{Pandas}.

(** X6. A column is a currency column when its name holds the rupee sign or,
    in any mix of upper and lower case, one of the nine keywords, anywhere
    in the name: as a word of its own or inside a longer word. *)
Theorem currency_name_substring (p k q : string) :
  is_currency_name (p +:+ "₹" +:+ q) = true /\
  (lower k ∈ CURRENCY_KEYWORDS -> is_currency_name (p +:+ k +:+ q) = true) /\
  (is_currency_name k = true ->
   (exists p' q', k = p' +:+ "₹" +:+ q') \/
   (exists p' k' q', k' ∈ CURRENCY_KEYWORDS /\ lower k = p' +:+ k' +:+ q')).
Proof.
  unfold is_currency_name. split; [| split].
  - apply orb_true_iff. left. apply contains_spec. by exists p, q.
  - intros Hk. apply orb_true_iff. right. apply existsb_exists.
    exists (lower k). split; [by apply list_elem_of_In |].
    apply contains_spec. exists (lower p), (lower q). by rewrite !lower_app.
  - intros [Hr | Hk]%orb_true_iff.
    + left. by apply contains_spec.
    + right. apply existsb_exists in Hk as (k' & Hin & Hc).
      apply contains_spec in Hc as (p' & q' & Hc). exists p', k', q'.
      split; [by apply list_elem_of_In | done].
Qed.

End ColumnNames.

(** ** Whole amounts *)

Lemma append_nil_r (s : string) : s +:+ "" = s.
Proof. induction s as [| a s IH]; [done |]. by rewrite append_cons, IH. Qed.

Lemma length_append (s t : string) :
  String.length (s +:+ t) = (String.length s + String.length t)%nat.
Proof. induction s as [| a s IH]; [done |]. rewrite append_cons. simpl. by rewrite IH. Qed.

Lemma list_ascii_app (s t : string) :
  String.list_ascii_of_string (s +:+ t) =
  String.list_ascii_of_string s ++ String.list_ascii_of_string t.
Proof. induction s as [| a s IH]; [done |]. rewrite append_cons. simpl. by rewrite IH. Qed.

Lemma list_ascii_length (s : string) :
  length (String.list_ascii_of_string s) = String.length s.
Proof. induction s as [| a s IH]; [done |]. simpl. by rewrite IH. Qed.

Lemma string_of_revapp (d acc : Decimal.uint) :
  NilEmpty.string_of_uint (Decimal.revapp d acc) =
  NilEmpty.string_of_uint (Decimal.rev d) +:+ NilEmpty.string_of_uint acc.
Proof.
  unfold Decimal.rev. revert acc.
  induction d as [| d IH | d IH | d IH | d IH | d IH | d IH | d IH | d IH | d IH | d IH];
    intros acc; simpl; [by rewrite append_nil | ..];
    rewrite (IH (_ acc)), (IH (_ Decimal.Nil)); simpl;
    by rewrite append_assoc, append_cons, append_nil.
Qed.

Lemma zero_string (d : Decimal.uint) :
  d <> Decimal.Nil -> NilZero.string_of_uint d = NilEmpty.string_of_uint d.
Proof. by destruct d. Qed.

(** The digits of ten times a positive number end in a zero. *)
Lemma digits_tenfold (a : Z) : 0 < a -> digits (10 * a) = digits a +:+ "0".
Proof.
  intros Ha. unfold digits. destruct a as [| p | p]; [lia | | lia].
  change (Z.to_N (10 * Z.pos p)) with (10 * N.pos p)%N.
  change (Z.to_N (Z.pos p)) with (N.pos p).
  assert (Hten : N.to_uint (10 * N.pos p) =
                 Decimal.revapp (Pos.to_little_uint p) (Decimal.D0 Decimal.Nil)).
  { change (N.to_uint (10 * N.pos p)) with (Decimal.rev (DecimalPos.Unsigned.to_lu (10 * N.pos p))).
    by rewrite DecimalPos.Unsigned.to_ldec_tenfold. }
  rewrite !zero_string.
  - rewrite Hten, string_of_revapp. done.
  - apply DecimalPos.Unsigned.to_uint_nonnil.
  - rewrite Hten. intros Hnil. by apply DecimalFacts.revapp_nil_inv in Hnil as [_ ?].
Qed.

Lemma digits_nonempty (a : Z) : (1 <= String.length (digits a))%nat.
Proof.
  unfold digits. destruct (N.to_uint (Z.to_N a)) eqn:E; simpl; try lia.
Qed.

Lemma pad_long (w : nat) (s : string) : (w <= String.length s)%nat -> pad w s = s.
Proof.
  intros Hw. unfold pad. replace (w - String.length s)%nat with 0%nat by lia. done.
Qed.

Lemma fixed_digits_whole (a : Z) : fixed_digits 0 a = thousands (digits a).
Proof.
  unfold fixed_digits. rewrite pad_long by apply digits_nonempty.
  rewrite Nat.sub_0_r, firstn_all, String.string_of_list_ascii_of_string.
  apply append_nil_r.
Qed.

Lemma fixed_digits_cents (a : Z) :
  0 <= a -> fixed_digits 2 (a * 100) = thousands (digits a) +:+ ".00".
Proof.
  intros Ha. destruct (decide (a = 0)) as [-> | Hne]; [done |].
  assert (Hd : digits (a * 100) = digits a +:+ "00").
  { replace (a * 100) with (10 * (10 * a)) by lia.
    rewrite !digits_tenfold by lia. by rewrite append_assoc. }
  unfold fixed_digits. rewrite Hd.
  pose proof (digits_nonempty a) as Hlen.
  rewrite pad_long by (rewrite length_append; simpl; lia).
  rewrite list_ascii_app, length_app, list_ascii_length. simpl length.
  replace (String.length (digits a) + 2 - 2)%nat
    with (length (String.list_ascii_of_string (digits a)) + 0)%nat
    by (rewrite list_ascii_length; lia).
  rewrite take_app_add, drop_app_add. simpl.
  by rewrite app_nil_r, String.string_of_list_ascii_of_string.
Qed.

Lemma round_half_even_exact (a den : Z) : 0 < den -> round_half_even (a * den) den = a.
Proof.
  intros Hd. unfold round_half_even. rewrite Z.mod_mul, Z.div_mul by lia.
  simpl. by destruct den.
Qed.

Lemma scaled_magnitude_exact (m : positive) (e a : Z) (d : nat) :
  e <= 0 -> Z.pos m = a * 2 ^ (- e) -> scaled_magnitude m e d = a * 10 ^ Z.of_nat d.
Proof.
  intros He Hm. unfold scaled_magnitude.
  assert (Hpow : 0 < 2 ^ (- e)) by (apply Z.pow_pos_nonneg; lia).
  destruct (0 <=? e) eqn:H0.
  - assert (e = 0) as -> by lia. simpl in Hm. rewrite Hm. simpl. lia.
  - rewrite Hm. replace (a * 2 ^ (- e) * 10 ^ Z.of_nat d) with (a * 10 ^ Z.of_nat d * 2 ^ (- e))
      by lia.
    by apply round_half_even_exact.
Qed.

Section WholeAmounts.
Context `{CPython}.

(** X7. A whole amount below 2^53 is shown in full: the rupee sign, a minus
    sign when it is negative, its digits in groups of three, and, with two
    decimals, ".00" after them. *)
Theorem money_on_integers (n : Z) :
  Z.abs n < 2 ^ 53 ->
  money0 (VInt n) = "₹" +:+ sign_text (n <? 0) +:+ thousands (digits (Z.abs n)) /\
  money2 (VInt n) = money0 (VInt n) +:+ ".00".
Proof.
  intros Hr. destruct (decide (n = 0)) as [-> | Hn]; [done |].
  destruct (float_of_Z_exact n Hn Hr) as (m & e & Hf & He & Hm).
  assert (H0 : money0 (VInt n) =
               "₹" +:+ sign_text (n <? 0) +:+ thousands (digits (Z.abs n))).
  { unfold money0, money0_try, py_float. cbn [is_none isinstance_float andb].
    rewrite Hf. cbn [mbind result_bind]. unfold format_fixed.
    rewrite (scaled_magnitude_exact m e (Z.abs n) 0) by (done || lia).
    change (10 ^ Z.of_nat 0) with 1. rewrite Z.mul_1_r.
    by rewrite fixed_digits_whole. }
  split; [done |]. rewrite H0.
  unfold money2, money2_try, py_float. cbn [is_none isinstance_float andb].
  rewrite Hf. cbn [mbind result_bind]. unfold format_fixed.
  rewrite (scaled_magnitude_exact m e (Z.abs n) 2) by (done || lia).
  change (10 ^ Z.of_nat 2) with 100.
  rewrite fixed_digits_cents by lia.
  by rewrite !append_assoc.
Qed.

End WholeAmounts.

(** ** Ranges of cells *)

Lemma py_range_length (lo hi : nat) : length (py_range lo hi) = (hi + 1 - lo)%nat.
Proof. unfold py_range. apply length_seq. Qed.

Lemma py_range_lookup (lo hi i : nat) :
  (i < hi + 1 - lo)%nat -> py_range lo hi !! i = Some (lo + i)%nat.
Proof. intros Hi. unfold py_range. by apply lookup_seq_lt. Qed.

Lemma read_range_length (ws : Worksheet) (min_row max_row min_col max_col : nat) :
  length (read_range ws min_row max_row min_col max_col) = (max_row + 1 - min_row)%nat.
Proof. unfold read_range. by rewrite length_map, py_range_length. Qed.

Lemma read_range_width (ws : Worksheet) (min_row max_row min_col max_col : nat)
    (row : list Value) :
  row ∈ read_range ws min_row max_row min_col max_col ->
  length row = (max_col + 1 - min_col)%nat.
Proof.
  unfold read_range. intros (r & -> & _)%list_elem_of_fmap.
  by rewrite length_map, py_range_length.
Qed.


Lemma df_from_range_total (ws : Worksheet) (header_row : nat) (data_rows cols : nat * nat) :
  exists df, df_from_range ws header_row data_rows cols = Ok df /\
    columns df = map (cell_value ws header_row) (py_range cols.1 cols.2) /\
    rows df = read_range ws data_rows.1 data_rows.2 cols.1 cols.2 /\
    frame_wf df /\
    length (columns df) = (cols.2 + 1 - cols.1)%nat /\
    length (rows df) = (data_rows.2 + 1 - data_rows.1)%nat.
Proof.
  set (headers := map (cell_value ws header_row) (py_range cols.1 cols.2)).
  set (data := read_range ws data_rows.1 data_rows.2 cols.1 cols.2).
  assert (Hhead : read_range ws header_row header_row cols.1 cols.2 = [headers]).
  { unfold read_range, py_range. replace (header_row + 1 - header_row)%nat with 1%nat by lia.
    done. }
  assert (Hall : forallb (fun r => (length r =? length headers)%nat) data = true).
  { apply forallb_forall. intros r Hr%list_elem_of_In. apply Nat.eqb_eq.
    rewrite (read_range_width _ _ _ _ _ _ Hr). unfold headers.
    by rewrite length_map, py_range_length. }
  exists {| columns := headers; rows := data |}.
  assert (Hdf : df_from_range ws header_row data_rows cols =
                Ok {| columns := headers; rows := data |}).
  { unfold df_from_range. rewrite Hhead. unfold pd_DataFrame. fold data. by rewrite Hall. }
  split; [done |]. split; [done |]. split; [done |].
  split; [by eapply df_from_range_wf |]. simpl. split.
  - unfold headers. by rewrite length_map, py_range_length.
  - apply read_range_length.
Qed.


(** ** Two columns with one label *)

Lemma number_eqb_sym (a b : number) : number_eqb a b = number_eqb b a.
Proof.
  destruct a as [| s | m1 e1], b as [| t | m2 e2]; simpl; try done.
  - apply bool_decide_ext. split; congruence.
  - rewrite (Z.min_comm e2 e1). apply Z.eqb_sym.
Qed.

Lemma label_eqb_sym (a b : Value) : label_eqb a b = label_eqb b a.
Proof.
  unfold label_eqb. destruct (number_of a), (number_of b); try done.
  - apply number_eqb_sym.
  - apply bool_decide_ext. split; congruence.
Qed.

Section SharedLabel.
Context `{CPython} `{Pandas}.

(** X10. In a table of three columns whose last two carry the same label
    (two blank header cells, say), which is no currency name and differs
    from the first label, every record has two entries only: the first
    column's, formatted as money when its name asks for it, and one for the
    shared label with the value of the last column.  The values of the
    middle column are lost, while the list of column names still has three
    names. *)
Theorem shared_label_drops_column (a b b' : Value) (rs : list (list Value)) :
  label_eqb a b = false -> label_eqb a b' = false -> label_eqb b b' = true ->
  is_currency_name (py_str b) = false -> is_currency_name (py_str b') = false ->
  Forall (fun r => length r = 3%nat) rs ->
  format_df_currency {| columns := [a; b; b']; rows := rs |} =
  Ok (map (fun r => [(a, if is_currency_name (py_str a)
                         then VStr (money2 (nth 0 r VNone)) else nth 0 r VNone);
                     (b, nth 2 r VNone)]) rs,
      [a; b; b']).
Proof.
  intros Hab Hab' Hbb' Hb Hb' Hrs.
  assert (Hpos : positions {| columns := [a; b; b']; rows := rs |} a = [0%nat]).
  { unfold positions. simpl. rewrite label_eqb_refl.
    by rewrite (label_eqb_sym b a), (label_eqb_sym b' a), Hab, Hab'. }
  assert (Hdict : forall x y z : Value,
            dict_of (zip [a; b; b'] [x; y; z]) = [(a, x); (b, z)]).
  { intros x y z. unfold dict_of. simpl. rewrite Hab. simpl. rewrite Hab'. simpl.
    by rewrite Hbb'. }
  unfold format_df_currency. cbn [format_columns columns].
  rewrite Hb, Hb'. destruct (is_currency_name (py_str a)) eqn:Ha.
  - rewrite (apply_money2_unique _ a 0) by done.
    cbn [mbind result_bind columns rows]. unfold to_dict_records. cbn [columns rows].
    rewrite map_map. do 2 f_equal. apply map_ext_Forall.
    eapply Forall_impl; [exact Hrs |]. intros r Hr. cbn beta in *.
    destruct r as [| x [| y [| z [| ? ?]]]]; first [done | simpl; apply Hdict].
  - cbn [mbind result_bind columns rows]. unfold to_dict_records. cbn [columns rows].
    do 2 f_equal. apply map_ext_Forall.
    eapply Forall_impl; [exact Hrs |]. intros r Hr. cbn beta in *.
    destruct r as [| x [| y [| z [| ? ?]]]]; first [done | simpl; apply Hdict].
Qed.

End SharedLabel.

(** ** The identifiers of the charts *)

Section ChartIdentifiers.
Context `{Plotly}.

(** A slot that returns has either given its placeholder and left the world
    alone, or built its figure and drawn the next identifier for it. *)
Lemma chart_slot_outcome (names : list string) (df : DataFrame) (fig : result Figure)
    (include : include_plotlyjs) (placeholder : string) (w w1 : World) (r : string) :
  (if issubset names df then f ← lift fig; pio_to_html f include PLOTLY_CONFIG
   else mret placeholder) w = (Ok r, w1) ->
  uuid_drawn w1 = (uuid_drawn w + slot_drawn names df)%nat /\
  fs w1 = fs w /\ stdout w1 = stdout w /\ uuid_source w1 = uuid_source w /\
  (slot_drawn names df = 0%nat /\ r = placeholder \/
   exists f, slot_drawn names df = 1%nat /\ fig = Ok f /\
     r = to_html f include PLOTLY_CONFIG (uuid_source w (uuid_drawn w))).
Proof.
  unfold slot_drawn. destruct (issubset names df).
  - rewrite lift_bind_run. destruct fig as [f | e]; [| done].
    rewrite pio_to_html_run. intros [= <- <-]. simpl.
    repeat split; [lia |]. right. by exists f.
  - intros [= <- <-]. repeat split; [lia |]. by left.
Qed.

(** X11. When [build_charts] returns, the four keys of [charts] are set, one
    identifier has been drawn for each chart that was built and none for a
    placeholder, and the charts took the identifiers in the order of the
    slots: month, profit, category quantity, pending value. *)
Theorem charts_draw_in_slot_order (month_df cat_qty_df pending_val_df : DataFrame)
    (w w' : World) (charts : gmap string string) :
  build_charts month_df cat_qty_df pending_val_df w = (Ok charts, w') ->
  let b1 := slot_drawn ["Month"; "Purchases (₹)"; "Sales (₹)"] month_df in
  let b2 := slot_drawn ["Month"; "Profit (₹)"] month_df in
  let b3 := slot_drawn ["Category"; "Qty Sold"; "Qty Pending"] cat_qty_df in
  let b4 := slot_drawn ["Category"; "Pending Value (₹)"] pending_val_df in
  let id (i : nat) := uuid_source w (uuid_drawn w + i)%nat in
  uuid_drawn w' = (uuid_drawn w + (b1 + b2 + b3 + b4))%nat /\
  fs w' = fs w /\ stdout w' = stdout w /\ uuid_source w' = uuid_source w /\
  (b1 = 0%nat /\ charts !! "month" = Some MONTH_UNAVAILABLE \/
   exists f, b1 = 1%nat /\ fig_month month_df = Ok f /\
     charts !! "month" = Some (to_html f IncludeCdn PLOTLY_CONFIG (id 0%nat))) /\
  (b2 = 0%nat /\ charts !! "profit" = Some PROFIT_UNAVAILABLE \/
   exists f, b2 = 1%nat /\ fig_profit month_df = Ok f /\
     charts !! "profit" = Some (to_html f IncludeFalse PLOTLY_CONFIG (id b1))) /\
  (b3 = 0%nat /\ charts !! "cat_qty" = Some CAT_QTY_UNAVAILABLE \/
   exists f, b3 = 1%nat /\ fig_cat_qty cat_qty_df = Ok f /\
     charts !! "cat_qty" = Some (to_html f IncludeFalse PLOTLY_CONFIG (id (b1 + b2)%nat))) /\
  (b4 = 0%nat /\ charts !! "pending_val" = Some PENDING_VAL_UNAVAILABLE \/
   exists f, b4 = 1%nat /\ fig_pending_val pending_val_df = Ok f /\
     charts !! "pending_val" =
       Some (to_html f IncludeFalse PLOTLY_CONFIG (id (b1 + b2 + b3)%nat))).
Proof.
  intros Hb b1 b2 b3 b4 id. unfold build_charts in Hb.
  rewrite bind_run in Hb.
  destruct (chart_slot_month month_df w) as [[c1 | e] wa] eqn:E1; [| done].
  apply chart_slot_outcome in E1 as (Hd1 & Hf1 & Ho1 & Hs1 & Hc1). fold b1 in Hd1, Hc1.
  rewrite bind_run in Hb.
  destruct (chart_slot_profit month_df wa) as [[c2 | e] wb] eqn:E2; [| done].
  apply chart_slot_outcome in E2 as (Hd2 & Hf2 & Ho2 & Hs2 & Hc2). fold b2 in Hd2, Hc2.
  rewrite bind_run in Hb.
  destruct (chart_slot_cat_qty cat_qty_df wb) as [[c3 | e] wc] eqn:E3; [| done].
  apply chart_slot_outcome in E3 as (Hd3 & Hf3 & Ho3 & Hs3 & Hc3). fold b3 in Hd3, Hc3.
  rewrite bind_run in Hb.
  destruct (chart_slot_pending_val pending_val_df wc) as [[c4 | e] wd] eqn:E4; [| done].
  apply chart_slot_outcome in E4 as (Hd4 & Hf4 & Ho4 & Hs4 & Hc4). fold b4 in Hd4, Hc4.
  injection Hb as <- <-.
  split; [lia |]. split; [congruence |]. split; [congruence |]. split; [congruence |].
  assert (Hid0 : id 0%nat = uuid_source w (uuid_drawn w)).
  { unfold id. by rewrite Nat.add_0_r. }
  assert (Hid1 : id b1 = uuid_source wa (uuid_drawn wa)).
  { unfold id. by rewrite Hs1, Hd1. }
  assert (Hid2 : id (b1 + b2)%nat = uuid_source wb (uuid_drawn wb)).
  { unfold id. rewrite Hs2, Hs1, Hd2, Hd1. f_equal. lia. }
  assert (Hid3 : id (b1 + b2 + b3)%nat = uuid_source wc (uuid_drawn wc)).
  { unfold id. rewrite Hs3, Hs2, Hs1, Hd3, Hd2, Hd1. f_equal. lia. }
  rewrite Hid0, Hid1, Hid2, Hid3.
  split; [| split; [| split]].
  - destruct Hc1 as [[? ->] | (f & ? & ? & ->)]; [left | right; exists f]; by simplify_map_eq.
  - destruct Hc2 as [[? ->] | (f & ? & ? & ->)]; [left | right; exists f]; by simplify_map_eq.
  - destruct Hc3 as [[? ->] | (f & ? & ? & ->)]; [left | right; exists f]; by simplify_map_eq.
  - destruct Hc4 as [[? ->] | (f & ? & ? & ->)]; [left | right; exists f]; by simplify_map_eq.
Qed.

End ChartIdentifiers.

(** ** Identifiers drawn *)

Lemma draws_lift {A} (r : result A) : draws_at_most 0 (lift r).
Proof. intros w. simpl. lia. Qed.

Lemma draws_ret {A} (a : A) : draws_at_most 0 (mret a : io A).
Proof. intros w. simpl. lia. Qed.

Lemma draws_uuid4 : draws_at_most 1 uuid4.
Proof. intros w. simpl. lia. Qed.

Lemma draws_read_text (p : path) : draws_at_most 0 (read_text p).
Proof. intros w. unfold read_text. destruct (fs w !! p) as [[| [|]] |]; simpl; lia. Qed.

Lemma draws_bind {A B} (k1 k2 : nat) (m : io A) (f : A -> io B) :
  draws_at_most k1 m -> (forall a, draws_at_most k2 (f a)) ->
  draws_at_most (k1 + k2) (m ≫= f).
Proof.
  intros Hm Hf w. rewrite bind_run. specialize (Hm w).
  destruct (m w) as [[a | e] w1]; simpl in *; [| lia].
  specialize (Hf a w1). lia.
Qed.

Lemma draws_weaken {A} (k k' : nat) (m : io A) :
  draws_at_most k m -> (k <= k')%nat -> draws_at_most k' m.
Proof. intros Hm Hle w. specialize (Hm w). lia. Qed.

Section DrawProperties.
Context `{CPython} `{Pandas} `{Plotly} `{Jinja2}.

Ltac draws_step :=
  first
    [ apply draws_lift
    | apply draws_ret
    | apply draws_read_text
    | apply (draws_bind 0 0); [| intros ?] ].

Lemma draws_pio_to_html (fig : Figure) (include : include_plotlyjs)
    (config : list (string * Value)) : draws_at_most 1 (pio_to_html fig include config).
Proof.
  unfold pio_to_html. apply (draws_bind 1 0); [apply draws_uuid4 | intros ?; apply draws_ret].
Qed.

Ltac draws_slot :=
  match goal with
  | |- draws_at_most 1 (if ?c then _ else _) =>
      destruct c;
      [ apply (draws_bind 0 1); [apply draws_lift | intros ?; apply draws_pio_to_html]
      | apply (draws_weaken 0); [apply draws_ret | lia] ]
  end.

Lemma draws_build_charts (a b c : DataFrame) : draws_at_most 4 (build_charts a b c).
Proof.
  unfold build_charts.
  apply (draws_bind 1 3); [unfold chart_slot_month; draws_slot | intros ?].
  apply (draws_bind 1 2); [unfold chart_slot_profit; draws_slot | intros ?].
  apply (draws_bind 1 1); [unfold chart_slot_cat_qty; draws_slot | intros ?].
  apply (draws_bind 1 0); [unfold chart_slot_pending_val; draws_slot | intros ?].
  apply draws_ret.
Qed.

Lemma draws_render_report (wb : Workbook) (template_path : path) :
  draws_at_most 4 (render_report wb template_path).
Proof.
  unfold render_report.
  do 15 (apply (draws_bind 0 4); [apply draws_lift | intros ?]).
  apply (draws_bind 4 0); [apply draws_build_charts | intros ?].
  repeat draws_step.
Qed.

End DrawProperties.

(** ** What any run leaves behind *)

Lemma open_w_not_dir (m : gmap path node) (p : path) :
  open_w m p = Ok tt -> m !! p <> Some Dir.
Proof.
  unfold open_w. destruct (bool_decide (p = [])); [done |].
  by destruct (m !! p) as [[|] |].
Qed.

Lemma publish_unfold (input_xlsx dist_dir : path) (html : string) (w : World) :
  publish input_xlsx dist_dir html w =
  match open_w (fs w) (joinpath dist_dir "index.html") with
  | Raise e => (Raise e, w)
  | Ok _ =>
      match copyfile input_xlsx (joinpath dist_dir EXCEL_FILENAME)
              (set_fs w (<[joinpath dist_dir "index.html" := File (Text html)]> (fs w))) with
      | (Raise e, w2) => (Raise e, w2)
      | (Ok _, w2) =>
          (Ok tt,
           {| fs := fs w2;
              stdout := (stdout w2 ++
                ["✅ Built dashboard: " +:+ path_str (joinpath dist_dir "index.html")]) ++
                ["⬇️  Excel download file: " +:+ path_str (joinpath dist_dir EXCEL_FILENAME)];
              uuid_source := uuid_source w2; uuid_drawn := uuid_drawn w2 |})
      end
  end.
Proof.
  unfold publish. rewrite bind_run. unfold write_text at 1.
  destruct (open_w (fs w) (joinpath dist_dir "index.html")); [| done].
  cbv beta iota. rewrite bind_run.
  by destruct (copyfile _ _ _) as [[[] | e] w2].
Qed.

(** The three ways the last four statements of [build] can go. *)
Lemma publish_outcome (input_xlsx dist_dir : path) (html : string) (w : World) :
  let index := joinpath dist_dir "index.html" in
  let copy := joinpath dist_dir EXCEL_FILENAME in
  let m1 : gmap path node := <[index := File (Text html)]> (fs w) in
  (exists e, publish input_xlsx dist_dir html w = (Raise e, w)) \/
  (fs w !! index <> Some Dir /\
   exists e, publish input_xlsx dist_dir html w = (Raise e, set_fs w m1)) \/
  (fs w !! index <> Some Dir /\ m1 !! copy <> Some Dir /\
   exists f w', publish input_xlsx dist_dir html w = (Ok tt, w') /\
     m1 !! input_xlsx = Some (File f) /\ fs w' = <[copy := File f]> m1 /\
     stdout w' = stdout w ++ ["✅ Built dashboard: " +:+ path_str index;
                              "⬇️  Excel download file: " +:+ path_str copy] /\
     uuid_source w' = uuid_source w /\ uuid_drawn w' = uuid_drawn w).
Proof.
  intros index copy m1. rewrite publish_unfold. fold index copy m1.
  destruct (open_w (fs w) index) as [[] | e] eqn:Hopen; [| left; by exists e].
  apply open_w_not_dir in Hopen. right.
  unfold copyfile. simpl fs.
  destruct (bool_decide _ && bool_decide _); [left; split; [done |]; by eexists |].
  destruct (m1 !! input_xlsx) as [[| f] |] eqn:Hf;
    try (left; split; [done |]; by eexists).
  destruct (open_w m1 copy) as [[] | e] eqn:Hopen'; [| left; split; [done |]; by eexists].
  apply open_w_not_dir in Hopen'. right. split; [done |]. split; [done |].
  eexists f, _. split; [reflexivity |]. simpl. repeat split; try done.
  by rewrite <- app_assoc.
Qed.

Lemma joinpath_not_prefix (dist_dir : path) (name : string) :
  ~ joinpath dist_dir name `prefix_of` dist_dir.
Proof.
  intros [k Hk]. apply (f_equal length) in Hk. unfold joinpath in Hk.
  rewrite !length_app in Hk. simpl in Hk. lia.
Qed.

(** What is left of a run once the directory is there and some of the two
    files may have been written. *)
Lemma outputs_only (dist_dir : path) (w w' : World) (m : gmap path node)
    (lines : list string) :
  (forall p : path, m !! p = fs w !! p \/
     (fs w !! p = None /\ m !! p = Some Dir /\ p `prefix_of` dist_dir)) ->
  (forall p : path, p <> joinpath dist_dir "index.html" ->
     p <> joinpath dist_dir EXCEL_FILENAME -> fs w' !! p = m !! p) ->
  (forall p : path, is_Some (m !! p) -> is_Some (fs w' !! p)) ->
  (forall p : path, m !! p = Some Dir -> fs w' !! p = Some Dir) ->
  stdout w' = stdout w ++ lines ->
  uuid_source w' = uuid_source w ->
  (uuid_drawn w <= uuid_drawn w' <= uuid_drawn w + 4)%nat ->
  only_outputs dist_dir w w'.
Proof.
  intros Hm Hother Hkeep Hdir Hout Hsrc Hdrawn. unfold only_outputs.
  split; [| split; [| split; [| split; [by exists lines | done]]]].
  - intros p Hi Hc. rewrite (Hother p Hi Hc). destruct (Hm p) as [-> | ?]; [by left | by right].
  - intros p Hp. apply Hkeep. destruct (Hm p) as [-> | (Hnone & _)]; [done |].
    rewrite Hnone in Hp. by destruct Hp.
  - intros p Hp. apply Hdir. destruct (Hm p) as [-> | (Hnone & _)]; [done | congruence].
Qed.

Section AnyRun.
Context `{CPython} `{Pandas} `{Plotly} `{Jinja2}.

Lemma build_only_outputs (input_xlsx template_path dist_dir : path) (w : World) :
  only_outputs dist_dir w (build input_xlsx template_path dist_dir w).2.
Proof.
  pose proof (build_run input_xlsx template_path dist_dir w) as Hrun.
  destruct (mkdir_from [] dist_dir (fs w)) as [m | e] eqn:Hmk.
  2: { rewrite Hrun. cbn [snd]. apply (outputs_only dist_dir w w (fs w) []); try done.
       - by left.
       - by rewrite app_nil_r.
       - lia. }
  pose proof (mkdir_parents_spec _ _ _ Hmk) as Hsp.
  destruct ((load_workbook input_xlsx (set_fs w m)).1) as [wb | e].
  2: { rewrite Hrun. cbn [snd]. apply (outputs_only dist_dir w (set_fs w m) m []); try done.
       - by rewrite app_nil_r.
       - simpl. lia. }
  destruct (reads_only_render_report wb template_path (set_fs w m)) as (_ & _ & Hsrc).
  pose proof (draws_render_report wb template_path (set_fs w m)) as Hdrawn.
  destruct (render_report wb template_path (set_fs w m)) as [[html | e] w1];
    simpl in Hsrc, Hdrawn.
  2: { destruct Hrun as (-> & Hfs & Hout). cbn [snd].
       apply (outputs_only dist_dir w _ m []); try done.
       - intros p _ _. by rewrite Hfs.
       - intros p. by rewrite Hfs.
       - intros p. by rewrite Hfs.
       - by rewrite app_nil_r. }
  destruct Hrun as (Hfs & Hout & ->).
  destruct (publish_outcome input_xlsx dist_dir html w1)
    as [[e ->] | [[Hi [e ->]] | (Hi & Hc & f & w2 & -> & Hf & Hfs2 & Hout2 & Hsrc2 & Hdr2)]];
    cbn [snd].
  - apply (outputs_only dist_dir w _ m []); try done.
    + intros p _ _. by rewrite Hfs.
    + intros p. by rewrite Hfs.
    + intros p. by rewrite Hfs.
    + by rewrite app_nil_r.
  - rewrite Hfs in *.
    apply (outputs_only dist_dir w (set_fs w1 _) m []); try done; simpl.
    + intros p Hp _. by rewrite lookup_insert_ne.
    + intros p Hp. destruct (decide (p = joinpath dist_dir "index.html")) as [-> | Hne].
      * by rewrite lookup_insert_eq.
      * by rewrite lookup_insert_ne.
    + intros p Hp. rewrite lookup_insert_ne; [done |]. congruence.
    + by rewrite app_nil_r.
  - rewrite Hfs in *.
    eapply (outputs_only dist_dir w _ m); try done.
    + intros p Hp Hp'. rewrite Hfs2. by rewrite !lookup_insert_ne.
    + intros p Hp. rewrite Hfs2.
      destruct (decide (p = joinpath dist_dir EXCEL_FILENAME)) as [-> | Hne];
        [by rewrite lookup_insert_eq |].
      rewrite lookup_insert_ne by done.
      destruct (decide (p = joinpath dist_dir "index.html")) as [-> | Hne'];
        [by rewrite lookup_insert_eq | by rewrite lookup_insert_ne].
    + intros p Hp. rewrite Hfs2.
      destruct (decide (p = joinpath dist_dir EXCEL_FILENAME)) as [-> | Hne].
      { destruct Hc. rewrite lookup_insert_ne; [done | apply index_is_not_copy]. }
      rewrite lookup_insert_ne by done.
      rewrite lookup_insert_ne; [done |]. congruence.
    + by rewrite Hout2, Hout.
    + congruence.
    + lia.
Qed.

Lemma main_run (root : path) (w : World) :
  main root w =
  if bool_decide (is_Some (fs w !! (root ++ ["input"; "Chiraath - Business Summary - Latest.xlsx"])))
  then build (root ++ ["input"; "Chiraath - Business Summary - Latest.xlsx"])
         (root ++ ["src"; "template.html"]) (root ++ ["docs"]) w
  else (Raise FileNotFoundError, w).
Proof.
  unfold main. rewrite bind_run. unfold path_exists.
  rewrite bool_decide_eq_false_2 by (by destruct root).
  by destruct (bool_decide _).
Qed.

(** X12. Whatever the outcome, a run of [build] changes nothing in the file
    system but [index.html] and the download copy in [dist_dir], apart from
    creating [dist_dir] and its missing parents; it deletes no path and
    replaces no directory; it only appends to what was printed, and it
    draws at most four identifiers.  Through the entry point the same holds
    with [docs] under the root as the output directory. *)
Theorem build_touches_only_outputs (input_xlsx template_path dist_dir root : path)
    (w : World) :
  only_outputs dist_dir w (build input_xlsx template_path dist_dir w).2 /\
  only_outputs (root ++ ["docs"]) w (main root w).2.
Proof.
  split; [apply build_only_outputs |].
  rewrite main_run. destruct (bool_decide _); [apply build_only_outputs |].
  apply (outputs_only _ w w (fs w) []); try done.
  - by left.
  - by rewrite app_nil_r.
  - lia.
Qed.

End AnyRun.

(** ** The output directory *)

Lemma mkdir_from_kind (todo : list string) :
  forall above m e, mkdir_from above todo m = Raise e ->
  e = FileExistsError \/ e = NotADirectoryError.
Proof.
  induction todo as [| name rest IH]; intros above m e Hm; simpl in Hm; [done |].
  destruct (m !! joinpath above name) as [[| f] |]; [by eapply IH | | by eapply IH].
  destruct rest; injection Hm as <-; auto.
Qed.

Lemma below_is_longer (above : path) (name : string) (rest : list string) (k : nat) :
  (0 < k <= length rest)%nat -> (above ++ [name]) ++ take k rest <> above ++ [name].
Proof.
  intros Hk Heq. apply (f_equal length) in Heq.
  rewrite !length_app, length_take in Heq. simpl in Heq. lia.
Qed.

(** The first file met on the way down decides the error. *)
Lemma mkdir_from_first_file (todo : list string) :
  forall above (m : gmap path node) k f,
  (0 < k <= length todo)%nat ->
  m !! (above ++ take k todo : path) = Some (File f) ->
  (forall j f', (0 < j < k)%nat -> m !! (above ++ take j todo : path) <> Some (File f')) ->
  mkdir_from above todo m =
  Raise (if decide (k = length todo) then FileExistsError else NotADirectoryError).
Proof.
  induction todo as [| name rest IH]; intros above m k f Hk Hf Hfirst; simpl in *; [lia |].
  unfold joinpath. destruct k as [| k]; [lia |]. destruct k as [| k].
  - simpl in Hf. rewrite take_0 in Hf.
    match goal with
    | |- match ?x with _ => _ end = _ => change x with (m !! (above ++ [name] : path))
    end.
    rewrite Hf. destruct rest; [done |]. by rewrite decide_False.
  - assert (Hp : forall f', m !! (above ++ [name] : path) <> Some (File f')).
    { intros f'. specialize (Hfirst 1%nat f'). simpl in Hfirst. rewrite take_0 in Hfirst.
      apply Hfirst. lia. }
    assert (Hrec : forall m0 : gmap path node,
              (forall q : path, q <> above ++ [name] -> m0 !! q = m !! q) ->
              mkdir_from (above ++ [name]) rest m0 =
              Raise (if decide (S k = length rest) then FileExistsError
                     else NotADirectoryError)).
    { intros m0 Hm0. apply (IH (above ++ [name]) m0 (S k) f); [lia | |].
      - rewrite Hm0.
        + rewrite <- app_assoc. exact Hf.
        + apply below_is_longer. lia.
      - intros j f' Hj. rewrite Hm0.
        + rewrite <- app_assoc. apply (Hfirst (S j) f'). lia.
        + apply below_is_longer. lia. }
    assert (Hdec : (if decide (S (S k) = S (length rest)) then FileExistsError
                    else NotADirectoryError) =
                   (if decide (S k = length rest) then FileExistsError
                    else NotADirectoryError)).
    { destruct (decide (S k = length rest)) as [Heq | Hne].
      - rewrite decide_True; [done | lia].
      - rewrite decide_False; [done | lia]. }
    rewrite Hdec.
    match goal with
    | |- match ?x with _ => _ end = _ =>
        change x with (m !! (above ++ [name] : path));
        destruct (m !! (above ++ [name] : path)) as [[| f0] |] eqn:Hl
    end.
    + by apply Hrec.
    + by destruct (Hp f0).
    + apply Hrec. intros q Hq. by rewrite lookup_insert_ne.
Qed.

(** Without a file in the way the directory is created. *)
Lemma mkdir_from_free (todo : list string) :
  forall above (m : gmap path node),
  (forall k f, (0 < k <= length todo)%nat ->
     m !! (above ++ take k todo : path) <> Some (File f)) ->
  exists m', mkdir_from above todo m = Ok m'.
Proof.
  induction todo as [| name rest IH]; intros above m Hfree; simpl; [by eexists |].
  unfold joinpath.
  assert (Hrec : forall m0 : gmap path node,
            (forall q : path, q <> above ++ [name] -> m0 !! q = m !! q) ->
            exists m', mkdir_from (above ++ [name]) rest m0 = Ok m').
  { intros m0 Hm0. apply IH. intros k f Hk. rewrite Hm0.
    - rewrite <- app_assoc. apply (Hfree (S k) f). simpl. lia.
    - by apply below_is_longer. }
  match goal with
  | |- exists _, match ?x with _ => _ end = _ =>
      change x with (m !! (above ++ [name] : path));
      destruct (m !! (above ++ [name] : path)) as [[| f0] |] eqn:Hl
  end.
  - by apply Hrec.
  - specialize (Hfree 1%nat f0). simpl in Hfree. rewrite take_0 in Hfree.
    destruct Hfree; [lia | done].
  - apply Hrec. intros q Hq. by rewrite lookup_insert_ne.
Qed.

Lemma prefix_take (p dist_dir : path) :
  p `prefix_of` dist_dir -> p = take (length p) dist_dir /\ (length p <= length dist_dir)%nat.
Proof.
  intros [k ->]. rewrite take_app_length. split; [done |]. rewrite length_app. lia.
Qed.

(** A file at a non-empty prefix of the directory makes its creation fail. *)
Lemma mkdir_blocked (dist_dir p : path) (m : gmap path node) (f : file) :
  p <> [] -> p `prefix_of` dist_dir -> m !! p = Some (File f) ->
  exists e, mkdir_from [] dist_dir m = Raise e.
Proof.
  intros Hp Hpre Hf. destruct (mkdir_from [] dist_dir m) as [m' | e] eqn:Hmk; [| by exists e].
  pose proof (mkdir_keeps _ _ _ _ _ Hmk Hf) as Hkeep.
  destruct (prefix_take _ _ Hpre) as [Heq Hlen].
  assert (Hdir : m' !! ([] ++ take (length p) dist_dir : path) = Some Dir).
  { apply (mkdir_from_dirs dist_dir [] m m' Hmk). destruct p; [done |]. simpl in *. lia. }
  simpl in Hdir. rewrite <- Heq in Hdir. congruence.
Qed.

(** A file can be opened in a directory unless a directory has its name. *)
Lemma open_w_in_dir (dist_dir : path) (name : string) (m : gmap path node) :
  dist_dir = [] \/ m !! dist_dir = Some Dir ->
  m !! joinpath dist_dir name <> Some Dir ->
  open_w m (joinpath dist_dir name) = Ok tt.
Proof.
  intros Hdir Hnd. unfold open_w.
  rewrite bool_decide_eq_false_2 by apply joinpath_not_nil.
  destruct (m !! joinpath dist_dir name) as [[| f] |]; [done | done |].
  assert (Hpar : parent (joinpath dist_dir name) = dist_dir).
  { unfold parent, joinpath. apply removelast_last. }
  rewrite Hpar. unfold is_dir.
  destruct Hdir as [-> | Hdir]; [done |].
  rewrite (bool_decide_eq_true_2 (m !! dist_dir = Some Dir)) by done.
  by rewrite orb_true_r.
Qed.

Lemma mkdir_makes_dir (dist_dir : path) (m0 m : gmap path node) :
  mkdir_from [] dist_dir m0 = Ok m -> dist_dir = [] \/ m !! dist_dir = Some Dir.
Proof.
  intros Hmk. destruct (decide (dist_dir = [])) as [-> | Hne]; [by left | right].
  assert (Hdir : m !! ([] ++ take (length dist_dir) dist_dir : path) = Some Dir).
  { apply (mkdir_from_dirs dist_dir [] m0 m Hmk). destruct dist_dir; [done |]. simpl. lia. }
  simpl in Hdir. by rewrite firstn_all in Hdir.
Qed.

Lemma after_mkdir_ok (dist_dir : path) (m0 m : gmap path node) :
  mkdir_from [] dist_dir m0 = Ok m -> after_mkdir dist_dir m0 = m.
Proof. intros Hmk. unfold after_mkdir. by rewrite Hmk. Qed.

Lemma after_mkdir_file (dist_dir : path) (name : string) (m0 : gmap path node) :
  after_mkdir dist_dir m0 !! joinpath dist_dir name = m0 !! joinpath dist_dir name.
Proof.
  destruct (after_mkdir_spec dist_dir m0 (joinpath dist_dir name)) as [Heq | (_ & _ & Hpre)];
    [done |].
  by apply joinpath_not_prefix in Hpre.
Qed.

Section FailedRuns.
Context `{CPython} `{Pandas} `{Plotly} `{Jinja2}.

(** X13. A run of [build] that raises has printed nothing and has not
    touched the download copy.  Either it wrote no file at all (the
    directory apart), or the page was rendered and written and it is the
    copy that failed: [index.html] is then the only file written. *)
Theorem failed_run_state (input_xlsx template_path dist_dir : path) (w w' : World) (e : exn) :
  build input_xlsx template_path dist_dir w = (Raise e, w') ->
  stdout w' = stdout w /\
  fs w' !! joinpath dist_dir EXCEL_FILENAME = fs w !! joinpath dist_dir EXCEL_FILENAME /\
  (fs w' = after_mkdir dist_dir (fs w) \/
   exists wb html,
     fs w !! input_xlsx = Some (File (Spreadsheet wb)) /\
     (render_report wb template_path (set_fs w (after_mkdir dist_dir (fs w)))).1 = Ok html /\
     fs w' = <[joinpath dist_dir "index.html" := File (Text html)]>
               (after_mkdir dist_dir (fs w))).
Proof.
  intros Hb. pose proof (build_run input_xlsx template_path dist_dir w) as Hrun.
  pose proof (after_mkdir_file dist_dir EXCEL_FILENAME (fs w)) as Hcopy.
  unfold after_mkdir in *.
  destruct (mkdir_from [] dist_dir (fs w)) as [m | e0] eqn:Hmk.
  2: { rewrite Hb in Hrun. injection Hrun as -> ->. auto. }
  destruct ((load_workbook input_xlsx (set_fs w m)).1) as [wb | e0] eqn:Hload.
  2: { rewrite Hb in Hrun. injection Hrun as -> ->. auto. }
  apply load_workbook_ok in Hload. simpl in Hload.
  assert (Hin : fs w !! input_xlsx = Some (File (Spreadsheet wb))).
  { destruct (mkdir_parents_spec _ _ _ Hmk input_xlsx) as [Heq | (_ & Hdir & _)];
      [(by etrans) | congruence]. }
  destruct (render_report wb template_path (set_fs w m)) as [[html | e0] w1] eqn:Hr.
  2: { destruct Hrun as (Hrun & Hfs & Hout). rewrite Hb in Hrun. injection Hrun as -> ->.
       rewrite Hfs. auto. }
  destruct Hrun as (Hfs & Hout & Hpub). rewrite Hb in Hpub. symmetry in Hpub.
  destruct (publish_outcome input_xlsx dist_dir html w1)
    as [[e1 He] | [[Hi [e1 He]] | (_ & _ & f & w2 & He & _)]];
    rewrite He in Hpub; [| | done]; injection Hpub as <- <-.
  - rewrite Hfs. auto.
  - simpl. rewrite Hfs. split; [done |]. split.
    + rewrite lookup_insert_ne; [done | apply index_is_not_copy].
    + right. exists wb, html. by rewrite Hr.
Qed.

(** X14. A file where the output directory or one of its parents should be
    stops [build] at its first statement: nothing is changed, and the error
    is [FileExistsError] when the file has the name of the directory itself
    and [NotADirectoryError] when it is further up. *)
Theorem blocked_output_directory (input_xlsx template_path dist_dir p : path)
    (f : file) (w : World) :
  p <> [] -> p `prefix_of` dist_dir -> fs w !! p = Some (File f) ->
  (exists e, build input_xlsx template_path dist_dir w = (Raise e, w) /\
     (e = FileExistsError \/ e = NotADirectoryError)) /\
  ((forall q f', q <> [] -> q `prefix_of` p -> q <> p -> fs w !! q <> Some (File f')) ->
   build input_xlsx template_path dist_dir w =
   (Raise (if decide (p = dist_dir) then FileExistsError else NotADirectoryError), w)).
Proof.
  intros Hp Hpre Hf.
  pose proof (build_run input_xlsx template_path dist_dir w) as Hrun.
  destruct (mkdir_blocked dist_dir p (fs w) f Hp Hpre Hf) as [e He].
  rewrite He in Hrun. split.
  - exists e. split; [done |]. by apply (mkdir_from_kind dist_dir [] (fs w)).
  - intros Hfirst. rewrite Hrun. do 2 f_equal.
    destruct (prefix_take _ _ Hpre) as [Heq Hlen].
    assert (Hk : (0 < length p <= length dist_dir)%nat).
    { split; [| done]. destruct p; [done | simpl; lia]. }
    pose proof (mkdir_from_first_file dist_dir [] (fs w) (length p) f Hk) as Hmk.
    simpl in Hmk. rewrite <- Heq in Hmk. specialize (Hmk Hf).
    rewrite Hmk in He.
    + injection He as <-.
      destruct (decide (p = dist_dir)) as [-> | Hne].
      * by rewrite decide_True.
      * rewrite decide_False; [done |]. intros Hlen'. apply Hne.
        rewrite Heq, Hlen'. apply firstn_all.
    + intros j f' Hj. apply Hfirst.
      * intros Heq'. apply (f_equal length) in Heq'. rewrite length_take in Heq'.
        simpl in Heq'. lia.
      * exists (drop j p). rewrite Heq at 1.
        rewrite <- (take_drop j (take (length p) dist_dir)) at 1.
        rewrite take_take. rewrite Nat.min_l by lia. by rewrite <- Heq.
      * intros Heq'. apply (f_equal length) in Heq'. rewrite length_take in Heq'. lia.
Qed.

End FailedRuns.

Lemma index_not_supported (dist_dir : path) :
  lower (splitext_ext (List.last (joinpath dist_dir "index.html") "")) ∉ SUPPORTED_FORMATS.
Proof.
  unfold joinpath. rewrite last_last. apply (bool_decide_unpack _). by vm_compute.
Qed.

Lemma copy_supported (dist_dir : path) :
  lower (splitext_ext (List.last (joinpath dist_dir EXCEL_FILENAME) "")) ∈ SUPPORTED_FORMATS.
Proof.
  unfold joinpath. rewrite last_last. apply (bool_decide_unpack _). by vm_compute.
Qed.

Lemma no_file_prefix (dist_dir : path) (m : gmap path node) :
  (forall p f, p <> [] -> p `prefix_of` dist_dir -> m !! p <> Some (File f)) ->
  forall k f, (0 < k <= length dist_dir)%nat ->
    m !! ([] ++ take k dist_dir : path) <> Some (File f).
Proof.
  intros Hfree k f Hk. simpl. apply Hfree.
  - intros Heq. apply (f_equal length) in Heq. rewrite length_take in Heq. simpl in Heq. lia.
  - exists (drop k dist_dir). by rewrite take_drop.
Qed.

Section Success.
Context `{CPython} `{Pandas} `{Plotly} `{Jinja2}.

Lemma build_returns_iff (input_xlsx template_path dist_dir : path) (w : World) :
  (exists w', build input_xlsx template_path dist_dir w = (Ok tt, w')) <->
  (forall p f, p <> [] -> p `prefix_of` dist_dir -> fs w !! p <> Some (File f)) /\
  lower (splitext_ext (List.last input_xlsx "")) ∈ SUPPORTED_FORMATS /\
  (exists wb html, fs w !! input_xlsx = Some (File (Spreadsheet wb)) /\
     (render_report wb template_path (set_fs w (after_mkdir dist_dir (fs w)))).1 = Ok html) /\
  fs w !! joinpath dist_dir "index.html" <> Some Dir /\
  fs w !! joinpath dist_dir EXCEL_FILENAME <> Some Dir /\
  input_xlsx <> joinpath dist_dir EXCEL_FILENAME.
Proof.
  pose proof (build_run input_xlsx template_path dist_dir w) as Hrun.
  pose proof (after_mkdir_file dist_dir "index.html" (fs w)) as Hindex.
  pose proof (after_mkdir_file dist_dir EXCEL_FILENAME (fs w)) as Hcopy.
  split.
  - intros [w' Hb].
    destruct (build_ok _ _ _ _ _ Hb)
      as (m & wb & html & w1 & Hmk & Hin & Hload & Hrender & Hne & Hne' & _).
    rewrite (after_mkdir_ok _ _ _ Hmk) in *.
    rewrite Hmk, Hload, Hrender in Hrun. destruct Hrun as (Hfs & _ & Hpub).
    rewrite Hb in Hpub. symmetry in Hpub.
    destruct (publish_outcome input_xlsx dist_dir html w1)
      as [[e He] | [[_ [e He]] | (Hi & Hc & _)]]; [congruence | congruence |].
    rewrite Hfs in Hi, Hc. rewrite lookup_insert_ne in Hc by apply index_is_not_copy.
    split; [| split; [| split; [| split; [| split]]]].
    + intros p f Hp Hpre Hf. destruct (mkdir_blocked dist_dir p (fs w) f Hp Hpre Hf). congruence.
    + by apply (load_workbook_extension input_xlsx (set_fs w m) wb).
    + exists wb, html. rewrite Hrender. split; [| done].
      destruct (mkdir_parents_spec _ _ _ Hmk input_xlsx) as [Heq | (_ & Hdir & _)];
        [(by etrans) | congruence].
    + congruence.
    + congruence.
    + done.
  - intros (Hfree & Hext & (wb & html & Hin & Hrender) & Hi & Hc & Hne).
    destruct (mkdir_from_free dist_dir [] (fs w) (no_file_prefix _ _ Hfree)) as [m Hmk].
    rewrite (after_mkdir_ok _ _ _ Hmk) in *. rewrite Hmk in Hrun.
    pose proof (mkdir_keeps _ _ _ _ _ Hmk Hin) as Hin'.
    rewrite (load_workbook_run input_xlsx (set_fs w m) wb Hext Hin') in Hrun. simpl in Hrun.
    destruct (render_report wb template_path (set_fs w m)) as [[html' | e] w1]; [| done].
    simpl in Hrender. injection Hrender as ->.
    destruct Hrun as (Hfs & _ & ->).
    assert (Hni : input_xlsx <> joinpath dist_dir "index.html").
    { intros ->. by apply (index_not_supported dist_dir). }
    pose proof (mkdir_makes_dir _ _ _ Hmk) as Hdir.
    rewrite publish_unfold, Hfs.
    rewrite (open_w_in_dir dist_dir "index.html" m Hdir) by congruence.
    unfold copyfile. simpl fs.
    rewrite (bool_decide_eq_false_2 (input_xlsx = joinpath dist_dir EXCEL_FILENAME)) by done.
    simpl andb. cbv iota.
    rewrite lookup_insert_ne by done. rewrite Hin'.
    rewrite (open_w_in_dir dist_dir EXCEL_FILENAME).
    + by eexists.
    + destruct Hdir as [-> | Hdir]; [by left | right].
      rewrite lookup_insert_ne; [done |]. intros Heq. symmetry in Heq.
      by apply (joinpath_not_prefix dist_dir "index.html"); exists []; rewrite app_nil_r.
    + rewrite lookup_insert_ne by apply index_is_not_copy. congruence.
Qed.

(** X15. [build] returns exactly when: no file stands where the output
    directory or one of its parents should be; the input has one of
    openpyxl's extensions and is a readable workbook; the page renders;
    neither [index.html] nor the download copy is a directory; and the
    input is not the download copy itself.  For the entry point, whose
    paths are fixed under the root, this is: no file in the way of [docs],
    a readable workbook at the input path, a page that renders, and no
    directory named as one of the two outputs. *)
Theorem build_succeeds_iff (input_xlsx template_path dist_dir root : path) (w : World) :
  ((exists w', build input_xlsx template_path dist_dir w = (Ok tt, w')) <->
   (forall p f, p <> [] -> p `prefix_of` dist_dir -> fs w !! p <> Some (File f)) /\
   lower (splitext_ext (List.last input_xlsx "")) ∈ SUPPORTED_FORMATS /\
   (exists wb html, fs w !! input_xlsx = Some (File (Spreadsheet wb)) /\
      (render_report wb template_path (set_fs w (after_mkdir dist_dir (fs w)))).1 = Ok html) /\
   fs w !! joinpath dist_dir "index.html" <> Some Dir /\
   fs w !! joinpath dist_dir EXCEL_FILENAME <> Some Dir /\
   input_xlsx <> joinpath dist_dir EXCEL_FILENAME) /\
  ((exists w', main root w = (Ok tt, w')) <->
   (forall p f, p <> [] -> p `prefix_of` root ++ ["docs"] -> fs w !! p <> Some (File f)) /\
   (exists wb html,
      fs w !! (root ++ ["input"; "Chiraath - Business Summary - Latest.xlsx"]) =
        Some (File (Spreadsheet wb)) /\
      (render_report wb (root ++ ["src"; "template.html"])
         (set_fs w (after_mkdir (root ++ ["docs"]) (fs w)))).1 = Ok html) /\
   fs w !! joinpath (root ++ ["docs"]) "index.html" <> Some Dir /\
   fs w !! joinpath (root ++ ["docs"]) EXCEL_FILENAME <> Some Dir).
Proof.
  split; [apply build_returns_iff |].
  rewrite main_run.
  set (input_xlsx' := root ++ ["input"; "Chiraath - Business Summary - Latest.xlsx"]).
  assert (Hext : lower (splitext_ext (List.last input_xlsx' "")) ∈ SUPPORTED_FORMATS).
  { unfold input_xlsx'.
    change (root ++ ["input"; "Chiraath - Business Summary - Latest.xlsx"])
      with (root ++ ["input"] ++ ["Chiraath - Business Summary - Latest.xlsx"]).
    rewrite app_assoc, last_last. apply (bool_decide_unpack _). by vm_compute. }
  assert (Hne : input_xlsx' <> joinpath (root ++ ["docs"]) EXCEL_FILENAME).
  { unfold input_xlsx', joinpath. rewrite <- app_assoc. intros Heq.
    by apply app_inv_head in Heq. }
  split.
  - intros [w' Hb]. destruct (bool_decide _) eqn:Hfound; [| done].
    assert (Hex : exists w', build input_xlsx' (root ++ ["src"; "template.html"])
                    (root ++ ["docs"]) w = (Ok tt, w')) by (by exists w').
    apply build_returns_iff in Hex as (Hfree & _ & Hwb & Hi & Hc & _). done.
  - intros (Hfree & (wb & html & Hin & Hr) & Hi & Hc).
    rewrite bool_decide_eq_true_2 by (by eexists).
    apply build_returns_iff. repeat split; try done. by exists wb, html.
Qed.

(** X16. Pointed at its own download copy, [build] never returns: where
    everything else is in order it renders and writes [index.html] and then
    stops at the copy with [SameFileError]. *)
Theorem input_is_download_copy (template_path dist_dir : path) (w : World)
    (wb : Workbook) (html : string) :
  let input_xlsx := joinpath dist_dir EXCEL_FILENAME in
  (build input_xlsx template_path dist_dir w).1 <> Ok tt /\
  ((forall p f, p <> [] -> p `prefix_of` dist_dir -> fs w !! p <> Some (File f)) ->
   fs w !! input_xlsx = Some (File (Spreadsheet wb)) ->
   (render_report wb template_path (set_fs w (after_mkdir dist_dir (fs w)))).1 = Ok html ->
   fs w !! joinpath dist_dir "index.html" <> Some Dir ->
   exists w', build input_xlsx template_path dist_dir w = (Raise SameFileError, w') /\
     fs w' = <[joinpath dist_dir "index.html" := File (Text html)]>
               (after_mkdir dist_dir (fs w)) /\
     stdout w' = stdout w).
Proof.
  intros input_xlsx. split.
  - intros Hok. pose proof (run_ok _ _ _ Hok) as Hb.
    destruct (build_ok _ _ _ _ _ Hb) as (m & wb' & html' & w1 & _ & _ & _ & _ & _ & Hne & _).
    done.
  - intros Hfree Hin Hrender Hi.
    pose proof (build_run input_xlsx template_path dist_dir w) as Hrun.
    pose proof (after_mkdir_file dist_dir "index.html" (fs w)) as Hindex.
    destruct (mkdir_from_free dist_dir [] (fs w) (no_file_prefix _ _ Hfree)) as [m Hmk].
    rewrite (after_mkdir_ok _ _ _ Hmk) in *. rewrite Hmk in Hrun.
    pose proof (mkdir_keeps _ _ _ _ _ Hmk Hin) as Hin'.
    rewrite (load_workbook_run input_xlsx (set_fs w m) wb (copy_supported dist_dir) Hin')
      in Hrun.
    simpl in Hrun.
    destruct (render_report wb template_path (set_fs w m)) as [[html' | e] w1]; [| done].
    simpl in Hrender. injection Hrender as ->.
    destruct Hrun as (Hfs & Hout & ->).
    pose proof (mkdir_makes_dir _ _ _ Hmk) as Hdir.
    rewrite publish_unfold, Hfs.
    rewrite (open_w_in_dir dist_dir "index.html" m Hdir) by congruence.
    unfold copyfile. simpl fs. fold input_xlsx.
    rewrite (bool_decide_eq_true_2 (input_xlsx = input_xlsx)) by done.
    rewrite lookup_insert_ne by apply index_is_not_copy. rewrite Hin'.
    rewrite (bool_decide_eq_true_2 (is_Some _)) by (by eexists).
    simpl. by eexists.
Qed.

End Success.

(** ** What the page depends on *)

Lemma related_of_det {A} (R : fs_relation) (k : nat) (m : io A) :
  deterministic R k m -> related R k m m.
Proof. done. Qed.

Lemma related_weaken {A} (R : fs_relation) (k k' : nat) (m1 m2 : io A) :
  related R k m1 m2 -> (k <= k')%nat -> related R k' m1 m2.
Proof.
  intros Hm Hle n w1 w2 Hv.
  destruct (Hm (k' - k + n)%nat w1 w2) as [Hr Hv'].
  { eapply same_view_le; [| exact Hv]. lia. }
  split; [done |]. eapply same_view_le; [| exact Hv']. lia.
Qed.

Lemma related_bind {A B} (R : fs_relation) (k1 k2 : nat) (m1 m2 : io A)
    (f1 f2 : A -> io B) :
  related R k1 m1 m2 -> (forall a, related R k2 (f1 a) (f2 a)) ->
  related R (k1 + k2) (m1 ≫= f1) (m2 ≫= f2).
Proof.
  intros Hm Hk n w1 w2 Hv. rewrite !bind_run.
  destruct (Hm (k2 + n)%nat w1 w2) as [Hr Hv'].
  { by rewrite Nat.add_assoc. }
  destruct (m1 w1) as [[a1 | e1] w1'], (m2 w2) as [[a2 | e2] w2']; simpl in *; try done.
  - injection Hr as ->. by apply Hk.
  - injection Hr as ->. split; [done |]. eapply same_view_le; [| exact Hv']. lia.
Qed.

Lemma related_read_text (R : fs_relation) (p1 p2 : path) :
  (forall m1 m2, R m1 m2 -> m1 !! p1 = m2 !! p2) -> related R 0 (read_text p1) (read_text p2).
Proof.
  intros HR n w1 w2 [Hfs Hids]. unfold read_text. rewrite (HR _ _ Hfs).
  destruct (fs w2 !! p2) as [[| [|]] |]; by split.
Qed.

Section PageContents.
Context `{CPython} `{Pandas} `{Plotly} `{Jinja2}.

Lemma related_render_report (R : fs_relation) (wb : Workbook) (t1 t2 : path) :
  (forall m1 m2, R m1 m2 -> m1 !! t1 = m2 !! t2) ->
  related R 4 (render_report wb t1) (render_report wb t2).
Proof.
  intros HR. unfold render_report. eapply related_weaken.
  - do 15 (eapply related_bind; [apply related_of_det, det_lift | intros ?]).
    eapply related_bind; [apply related_of_det, det_build_charts | intros ?].
    do 2 (eapply related_bind; [apply related_of_det, det_lift | intros ?]).
    eapply related_bind; [by apply related_read_text | intros ?].
    do 7 (eapply related_bind; [apply related_of_det, det_lift | intros ?]).
    apply related_of_det, det_lift.
  - simpl; lia.
Qed.

(** A page is rendered only from a template that is a text file. *)
Lemma render_report_reads_template (wb : Workbook) (template_path : path) (w w' : World)
    (html : string) :
  render_report wb template_path w = (Ok html, w') ->
  exists text, fs w !! template_path = Some (File (Text text)).
Proof.
  intros Hr.
  destruct (fs w !! template_path) as [[| [wb0 | text]] |] eqn:Ht; [| | by exists text |];
    exfalso;
    assert (Hraise : raises (render_report wb template_path w).1);
    try (rewrite Hr in Hraise; exact Hraise);
    unfold render_report;
    do 15 (rewrite lift_bind_run;
           match goal with |- raises (match ?r with _ => _ end).1 => destruct r; [| done] end);
    match goal with
    | |- raises ((build_charts ?a ?b ?c ≫= _) _).1 =>
        pose proof (reads_only_build_charts a b c w) as (Hfs & _)
    end;
    (apply raises_bind; intros charts w1 Hc);
    rewrite Hc in Hfs; simpl in Hfs;
    do 2 (rewrite lift_bind_run;
          match goal with |- raises (match ?r with _ => _ end).1 => destruct r; [| done] end);
    rewrite bind_run; unfold read_text at 1; rewrite Hfs, Ht; done.
Qed.

(** X17. The page is a function of the workbook, the template text and the
    identifiers drawn, and of nothing else: two runs that return, wherever
    their input, template and output directory are and whatever else the
    file systems hold, write the same [index.html] when workbook and
    template have the same contents and the same identifiers are drawn. *)
Theorem page_depends_on_contents (input1 template1 dist1 input2 template2 dist2 : path)
    (w1 w2 w1' w2' : World) :
  build input1 template1 dist1 w1 = (Ok tt, w1') ->
  build input2 template2 dist2 w2 = (Ok tt, w2') ->
  fs w1 !! input1 = fs w2 !! input2 ->
  fs w1 !! template1 = fs w2 !! template2 ->
  (forall i, (i < 4)%nat ->
     uuid_source w1 (uuid_drawn w1 + i)%nat = uuid_source w2 (uuid_drawn w2 + i)%nat) ->
  fs w1' !! joinpath dist1 "index.html" = fs w2' !! joinpath dist2 "index.html".
Proof.
  intros Hb1 Hb2 Hin Htpl Hids.
  destruct (build_ok _ _ _ _ _ Hb1)
    as (m1 & wb1 & html1 & r1 & Hmk1 & Hin1 & _ & Hr1 & _ & _ & Hfs1 & _).
  destruct (build_ok _ _ _ _ _ Hb2)
    as (m2 & wb2 & html2 & r2 & Hmk2 & Hin2 & _ & Hr2 & _ & _ & Hfs2 & _).
  assert (Hkeep : forall (dist p : path) (m0 m : gmap path node) f,
            mkdir_from [] dist m0 = Ok m -> m !! p = Some (File f) -> m0 !! p = m !! p).
  { intros dist p m0 m f Hmk Hp.
    destruct (mkdir_parents_spec _ _ _ Hmk p) as [Heq | (_ & Hdir & _)]; [done | congruence]. }
  assert (wb1 = wb2) as ->.
  { pose proof (Hkeep _ _ _ _ _ Hmk1 Hin1). pose proof (Hkeep _ _ _ _ _ Hmk2 Hin2). congruence. }
  destruct (render_report_reads_template _ _ _ _ _ Hr1) as [s1 Ht1].
  destruct (render_report_reads_template _ _ _ _ _ Hr2) as [s2 Ht2].
  simpl in Ht1, Ht2.
  assert (Hsame : m1 !! template1 = m2 !! template2).
  { pose proof (Hkeep _ _ _ _ _ Hmk1 Ht1). pose proof (Hkeep _ _ _ _ _ Hmk2 Ht2). congruence. }
  pose proof (related_render_report (fun a b => a !! template1 = b !! template2)
                wb2 template1 template2 (fun _ _ E => E) 0%nat (set_fs w1 m1) (set_fs w2 m2))
    as Hrel.
  destruct Hrel as [Hres _]; [by split |].
  rewrite Hr1, Hr2 in Hres. simpl in Hres. injection Hres as ->.
  rewrite Hfs1, Hfs2.
  rewrite (lookup_insert_ne _ (joinpath dist1 EXCEL_FILENAME)) by apply copy_is_not_index.
  rewrite (lookup_insert_ne _ (joinpath dist2 EXCEL_FILENAME)) by apply copy_is_not_index.
  by rewrite !lookup_insert_eq.
Qed.

End PageContents.

(** ** Runs without a chart *)

Lemma no_header_missing (ws : Worksheet) (header_row : nat) (data_rows cols : nat * nat)
    (name : string) (df : DataFrame) :
  no_header ws header_row cols name ->
  df_from_range ws header_row data_rows cols = Ok df -> VStr name ∉ columns df.
Proof.
  intros Hno Hdf.
  destruct (df_from_range_total ws header_row data_rows cols) as (df' & Hdf' & Hcols & _).
  assert (df' = df) as -> by congruence.
  rewrite Hcols. intros (c & Hc & Hin)%list_elem_of_fmap.
  unfold py_range in Hin. apply elem_of_seq in Hin. apply (Hno c); [lia | done].
Qed.

Section Chartless.
Context `{CPython} `{Pandas} `{Plotly} `{Jinja2}.

Lemma coerce_numeric_columns (names : list string) :
  forall df df', coerce_numeric names df = Ok df' -> columns df' = columns df.
Proof.
  induction names as [| c names IH]; intros df df'; simpl; [by intros [= <-] |].
  destruct (has_column df (VStr c)); [| apply IH].
  destruct (getitem df (VStr c)) as [sel |]; [| done]. simpl.
  destruct (to_numeric sel) as [values |]; [| done]. simpl.
  unfold setitem. destruct (positions df (VStr c)) as [| i [| ? ?]]; try done. simpl.
  intros Hrec. by rewrite (IH _ _ Hrec).
Qed.

Lemma coerced_table_missing (ws : Worksheet) (header_row : nat) (data_rows cols : nat * nat)
    (names : list string) (name : string) (df : DataFrame) :
  no_header ws header_row cols name ->
  (d ← df_from_range ws header_row data_rows cols; coerce_numeric names d) = Ok df ->
  VStr name ∉ columns df.
Proof.
  intros Hno Hdf.
  destruct (df_from_range ws header_row data_rows cols) as [d |] eqn:Hd; [| done].
  simpl in Hdf. rewrite (coerce_numeric_columns _ _ _ Hdf).
  by eapply no_header_missing.
Qed.

Lemma no_chart_built (month_df cat_qty_df pending_val_df : DataFrame) (w : World) :
  VStr "Month" ∉ columns month_df -> VStr "Category" ∉ columns cat_qty_df ->
  VStr "Category" ∉ columns pending_val_df ->
  build_charts month_df cat_qty_df pending_val_df w =
  (Ok (<["pending_val" := PENDING_VAL_UNAVAILABLE]>
        (<["cat_qty" := CAT_QTY_UNAVAILABLE]>
          (<["profit" := PROFIT_UNAVAILABLE]>
            (<["month" := MONTH_UNAVAILABLE]> ∅)))), w).
Proof.
  intros Hm Hc Hp.
  unfold build_charts, chart_slot_month, chart_slot_profit, chart_slot_cat_qty,
    chart_slot_pending_val.
  rewrite (issubset_missing _ month_df "Month") by (done || set_solver).
  rewrite (issubset_missing _ month_df "Month") by (done || set_solver).
  rewrite (issubset_missing _ cat_qty_df "Category") by (done || set_solver).
  by rewrite (issubset_missing _ pending_val_df "Category") by (done || set_solver).
Qed.

Ltac next_lift :=
  rewrite !lift_bind_run;
  match goal with
  | |- (match ?r with _ => _ end).2 = _ /\ _ => destruct r eqn:?; [| done]
  end.

(** Without the "Month" and "Category" headers the page is rendered from
    the files alone and the world is left as it was. *)
Lemma chartless_render (wb : Workbook) (ws_dash : Worksheet) (template_path : path) :
  wb !! SHEET_DASHBOARD = Some ws_dash ->
  no_header ws_dash MONTH_HEADER_ROW MONTH_COLS "Month" ->
  no_header ws_dash CATQTY_HEADER_ROW CATQTY_COLS "Category" ->
  no_header ws_dash PENDVAL_HEADER_ROW PENDVAL_COLS "Category" ->
  forall w w', fs w = fs w' ->
    (render_report wb template_path w).2 = w /\
    (render_report wb template_path w).1 = (render_report wb template_path w').1.
Proof.
  intros Hwb Hm Hc Hp w w' Hfs. unfold render_report.
  next_lift.
  assert (Hdash : wb_getitem wb SHEET_DASHBOARD = Ok ws_dash).
  { unfold wb_getitem. by rewrite Hwb. }
  rewrite Hdash. do 13 next_lift.
  match goal with
  | E : month_df ws_dash = Ok ?d |- _ =>
      pose proof (coerced_table_missing _ _ _ _ _ "Month" _ Hm E) as Hm'
  end.
  match goal with
  | E : cat_qty_df ws_dash = Ok ?d |- _ =>
      pose proof (coerced_table_missing _ _ _ _ _ "Category" _ Hc E) as Hc'
  end.
  match goal with
  | E : pending_val_df ws_dash = Ok ?d |- _ =>
      pose proof (coerced_table_missing _ _ _ _ _ "Category" _ Hp E) as Hp'
  end.
  rewrite !bind_run, !(no_chart_built _ _ _ _ Hm' Hc' Hp').
  do 2 next_lift.
  rewrite !bind_run. unfold read_text. rewrite <- Hfs.
  destruct (fs w !! template_path) as [[| [|]] |]; try done.
  do 7 next_lift.
  done.
Qed.

Lemma publish_same_files (input_xlsx dist_dir : path) (html : string) (w w' : World) :
  fs w = fs w' ->
  (publish input_xlsx dist_dir html w).1 = (publish input_xlsx dist_dir html w').1 /\
  fs (publish input_xlsx dist_dir html w).2 = fs (publish input_xlsx dist_dir html w').2 /\
  uuid_drawn (publish input_xlsx dist_dir html w).2 = uuid_drawn w.
Proof.
  intros Hfs. rewrite !publish_unfold, <- Hfs.
  destruct (open_w (fs w) (joinpath dist_dir "index.html")); [| done].
  unfold copyfile. simpl fs.
  destruct (bool_decide _ && bool_decide _); [done |].
  match goal with
  | |- context [match ?x with Some _ => _ | None => _ end] => destruct x as [[| f] |]
  end; try done.
  by destruct (open_w _ (joinpath dist_dir EXCEL_FILENAME)).
Qed.

Lemma load_workbook_same_files (p : path) (w w' : World) :
  fs w = fs w' -> (load_workbook p w).1 = (load_workbook p w').1.
Proof.
  intros Hfs. unfold load_workbook. rewrite <- Hfs. destruct (negb _); [done |].
  by destruct (fs w !! p) as [[| [|]] |].
Qed.

(** X18. When the Dashboard sheet has no "Month" header in A9:D9 and no
    "Category" header in F46:H46 and J46:K46, no chart is built and no
    identifier is drawn: two runs on the same files then end the same way
    and leave the same files, whatever identifiers would have been drawn. *)
Theorem chartless_run_is_reproducible (input_xlsx template_path dist_dir : path)
    (w1 w2 : World) (wb : Workbook) (ws_dash : Worksheet) :
  fs w1 = fs w2 ->
  fs w1 !! input_xlsx = Some (File (Spreadsheet wb)) ->
  wb !! SHEET_DASHBOARD = Some ws_dash ->
  no_header ws_dash MONTH_HEADER_ROW MONTH_COLS "Month" ->
  no_header ws_dash CATQTY_HEADER_ROW CATQTY_COLS "Category" ->
  no_header ws_dash PENDVAL_HEADER_ROW PENDVAL_COLS "Category" ->
  (build input_xlsx template_path dist_dir w1).1 =
    (build input_xlsx template_path dist_dir w2).1 /\
  fs (build input_xlsx template_path dist_dir w1).2 =
    fs (build input_xlsx template_path dist_dir w2).2 /\
  uuid_drawn (build input_xlsx template_path dist_dir w1).2 = uuid_drawn w1.
Proof.
  intros Hfs Hin Hwb Hm Hc Hp.
  pose proof (build_run input_xlsx template_path dist_dir w1) as Hrun1.
  pose proof (build_run input_xlsx template_path dist_dir w2) as Hrun2.
  rewrite <- Hfs in Hrun2.
  destruct (mkdir_from [] dist_dir (fs w1)) as [m | e] eqn:Hmk.
  2: { by rewrite Hrun1, Hrun2. }
  pose proof (load_workbook_same_files input_xlsx (set_fs w1 m) (set_fs w2 m) eq_refl) as Hl.
  rewrite <- Hl in Hrun2.
  destruct ((load_workbook input_xlsx (set_fs w1 m)).1) as [wb' | e] eqn:Hload.
  2: { by rewrite Hrun1, Hrun2. }
  apply load_workbook_ok in Hload. simpl in Hload.
  pose proof (mkdir_keeps _ _ _ _ _ Hmk Hin) as Hin'.
  assert (wb' = wb) as -> by congruence.
  destruct (chartless_render wb ws_dash template_path Hwb Hm Hc Hp
              (set_fs w1 m) (set_fs w2 m) eq_refl) as [Hw1 Hres].
  destruct (chartless_render wb ws_dash template_path Hwb Hm Hc Hp
              (set_fs w2 m) (set_fs w2 m) eq_refl) as [Hw2 _].
  destruct (render_report wb template_path (set_fs w1 m)) as [r1 wr1].
  destruct (render_report wb template_path (set_fs w2 m)) as [r2 wr2].
  simpl in Hw1, Hw2, Hres. subst wr1 wr2 r2.
  destruct r1 as [html | e].
  2: { destruct Hrun1 as (-> & _), Hrun2 as (-> & _). done. }
  destruct Hrun1 as (_ & _ & ->), Hrun2 as (_ & _ & ->).
  destruct (publish_same_files input_xlsx dist_dir html (set_fs w1 m) (set_fs w2 m) eq_refl)
    as (Hr & Hf & Hd).
  done.
Qed.

End Chartless.

(** ** A numeric column named twice *)

Lemma two_positions (l : list nat) (i j : nat) :
  i ∈ l -> j ∈ l -> i <> j -> (2 <= length l)%nat.
Proof.
  intros Hi Hj Hne. destruct l as [| x [| y l]]; simpl; [| | lia].
  - by apply elem_of_nil in Hi.
  - apply list_elem_of_singleton in Hi, Hj. congruence.
Qed.

Section DuplicatedHeader.
Context `{CPython} `{Pandas} `{Plotly} `{Jinja2}.

Lemma setitem_positions (df df' : DataFrame) (c c' : Value) (values : list Value) :
  setitem df c values = Ok df' -> positions df' c' = positions df c'.
Proof.
  unfold setitem. destruct (positions df c) as [| i [| ? ?]]; try done.
  by intros [= <-].
Qed.

(** The coercion loop can only fail with the [TypeError] of [pd.to_numeric]. *)
Lemma coerce_numeric_type_error (names : list string) :
  forall df e, coerce_numeric names df = Raise e -> e = TypeError.
Proof.
  induction names as [| c names IH]; intros df e; simpl; [done |].
  destruct (has_column df (VStr c)) eqn:Hhas; [| apply IH].
  apply has_column_positions in Hhas. unfold getitem, setitem.
  destruct (positions df (VStr c)) as [| i [| j ps]] eqn:Hpos; [done | |].
  - simpl. apply IH.
  - simpl. by intros [= <-].
Qed.

(** A name of the list carried by two columns makes the loop fail. *)
Lemma coerce_numeric_duplicated (names : list string) :
  forall df c, c ∈ names -> (2 <= length (positions df (VStr c)))%nat ->
  coerce_numeric names df = Raise TypeError.
Proof.
  induction names as [| c0 names IH]; intros df c Hin Hdup; simpl.
  - by apply elem_of_nil in Hin.
  - destruct (has_column df (VStr c0)) eqn:Hhas.
    + apply has_column_positions in Hhas. unfold getitem.
      destruct (positions df (VStr c0)) as [| i [| j ps]] eqn:Hpos; [done | | done].
      simpl. unfold setitem. rewrite Hpos. simpl.
      apply elem_of_cons in Hin as [-> | Hin].
      * rewrite Hpos in Hdup. simpl in Hdup. lia.
      * by apply (IH _ c).
    + apply elem_of_cons in Hin as [-> | Hin]; [| by apply (IH _ c)].
      assert (Hnone : positions df (VStr c0) = []).
      { destruct (positions df (VStr c0)) eqn:Hpos; [done |].
        assert (has_column df (VStr c0) = true) by (apply has_column_positions; by rewrite Hpos).
        congruence. }
      rewrite Hnone in Hdup. simpl in Hdup. lia.
Qed.

(** Two header cells of the range with the same text give two positions. *)
Lemma header_twice (ws : Worksheet) (header_row : nat) (data_rows cols : nat * nat)
    (name : string) (c1 c2 : nat) (df : DataFrame) :
  df_from_range ws header_row data_rows cols = Ok df ->
  (cols.1 <= c1)%nat -> (c1 < c2)%nat -> (c2 <= cols.2)%nat ->
  cell_value ws header_row c1 = VStr name -> cell_value ws header_row c2 = VStr name ->
  (2 <= length (positions df (VStr name)))%nat.
Proof.
  intros Hdf Hlo Hlt Hhi Hc1 Hc2.
  destruct (df_from_range_total ws header_row data_rows cols) as (df' & Hdf' & Hcols & _).
  assert (df' = df) as -> by congruence.
  assert (Hat : forall c, (cols.1 <= c <= cols.2)%nat -> cell_value ws header_row c = VStr name ->
            (c - cols.1)%nat ∈ positions df (VStr name)).
  { intros c Hc Hv. apply positions_spec. exists (VStr name). split; [| apply label_eqb_refl].
    rewrite Hcols, list_lookup_fmap, py_range_lookup by lia. simpl.
    rewrite <- Hv. do 2 f_equal. lia. }
  apply (two_positions _ (c1 - cols.1) (c2 - cols.1)); [apply Hat | apply Hat |]; try done; lia.
Qed.

(** A page is not rendered when one of the three charted tables fails. *)
Lemma table_failure_stops_render (wb : Workbook) (ws_dash : Worksheet)
    (template_path : path) (w : World) :
  wb !! SHEET_DASHBOARD = Some ws_dash ->
  raises (month_df ws_dash) \/ raises (cat_qty_df ws_dash) \/ raises (pending_val_df ws_dash) ->
  raises (render_report wb template_path w).1.
Proof.
  intros Hwb Hbad. unfold render_report.
  apply raises_bind; intros ws_sum w1 _.
  apply raises_bind; intros ws w2 E. unfold lift, wb_getitem in E. rewrite Hwb in E.
  injection E as <- _.
  do 10 (apply raises_bind; intros ? ? _).
  rewrite lift_bind_run. destruct (month_df ws_dash); [| done].
  rewrite lift_bind_run. destruct (cat_qty_df ws_dash); [| done].
  rewrite lift_bind_run. destruct (pending_val_df ws_dash); [| done].
  by destruct Hbad as [? | [? | ?]].
Qed.

(** A workbook whose page cannot be rendered stops the run before anything
    is written. *)
Lemma render_failure_stops_build (input_xlsx template_path dist_dir : path) (w : World)
    (wb : Workbook) :
  fs w !! input_xlsx = Some (File (Spreadsheet wb)) ->
  (forall w0, raises (render_report wb template_path w0).1) ->
  exists e w', build input_xlsx template_path dist_dir w = (Raise e, w') /\
    fs w' = after_mkdir dist_dir (fs w) /\ stdout w' = stdout w.
Proof.
  intros Hfile Hbad.
  pose proof (build_run input_xlsx template_path dist_dir w) as Hrun. unfold after_mkdir.
  destruct (mkdir_from [] dist_dir (fs w)) as [m | e] eqn:Hmk; [| by exists e, w].
  destruct ((load_workbook input_xlsx (set_fs w m)).1) as [wb' | e] eqn:Hload;
    [| by exists e, (set_fs w m)].
  apply load_workbook_ok in Hload. simpl in Hload.
  pose proof (mkdir_keeps _ _ _ _ _ Hmk Hfile) as Hkeep.
  assert (wb' = wb) as -> by congruence.
  specialize (Hbad (set_fs w m)).
  destruct (render_report wb template_path (set_fs w m)) as [[html | e] w']; [done |].
  destruct Hrun as (Hb & Hfs & Hout). by exists e, w'.
Qed.

(** X19. The coercion of the numeric columns fails exactly when one of the
    expected names is carried by two columns, and then with the [TypeError]
    of [pd.to_numeric], which is handed a frame.  So two cells of the
    monthly header row (A9:D9) with the same expected name make the monthly
    table, and with it the whole build, fail before anything is written. *)
Theorem duplicated_numeric_header (names : list string) (df : DataFrame)
    (input_xlsx template_path dist_dir : path) (w : World)
    (wb : Workbook) (ws_dash : Worksheet) (name : string) (c1 c2 : nat) :
  ((exists e, coerce_numeric names df = Raise e) <->
   exists c, c ∈ names /\ (2 <= length (positions df (VStr c)))%nat) /\
  (forall e, coerce_numeric names df = Raise e -> e = TypeError) /\
  (name ∈ ["Purchases (₹)"; "Sales (₹)"; "Profit (₹)"] ->
   (1 <= c1)%nat -> (c1 < c2)%nat -> (c2 <= 4)%nat ->
   cell_value ws_dash 9 c1 = VStr name -> cell_value ws_dash 9 c2 = VStr name ->
   month_df ws_dash = Raise TypeError /\
   (fs w !! input_xlsx = Some (File (Spreadsheet wb)) ->
    wb !! SHEET_DASHBOARD = Some ws_dash ->
    exists e w', build input_xlsx template_path dist_dir w = (Raise e, w') /\
      fs w' = after_mkdir dist_dir (fs w) /\ stdout w' = stdout w)).
Proof.
  split; [| split].
  - split.
    + intros [e He].
      destruct (decide (Exists (fun c => (2 <= length (positions df (VStr c)))%nat) names))
        as [Hex | Hno].
      * apply Exists_exists in Hex as (c & Hc & Hdup). by exists c.
      * destruct (coerce_numeric_returns names df) as [df' Hdf']; [| congruence].
        intros c Hc. destruct (decide (length (positions df (VStr c)) <= 1)%nat); [done |].
        destruct Hno. apply Exists_exists. exists c. split; [done | lia].
    + intros (c & Hc & Hdup). exists TypeError. by apply (coerce_numeric_duplicated names df c).
  - apply coerce_numeric_type_error.
  - intros Hname Hlo Hlt Hhi Hc1 Hc2.
    assert (Hm : month_df ws_dash = Raise TypeError).
    { unfold month_df.
      destruct (df_from_range_total ws_dash MONTH_HEADER_ROW MONTH_DATA_ROWS MONTH_COLS)
        as (d & Hd & _).
      rewrite Hd. cbn [mbind result_bind].
      apply (coerce_numeric_duplicated _ d name); [done |].
      by apply (header_twice ws_dash MONTH_HEADER_ROW MONTH_DATA_ROWS MONTH_COLS name c1 c2). }
    split; [done |]. intros Hfile Hwb.
    apply (render_failure_stops_build _ _ _ _ wb Hfile). intros w0.
    apply (table_failure_stops_render wb ws_dash _ _ Hwb). left. by rewrite Hm.
Qed.

End DuplicatedHeader.

(** * Concrete runs

    The claims on a concrete workbook, with the library instances of
    [Examples]. *)

Module Runs.
Import Examples.

(** C1 fails as stated: the entry point run twice in a row on the same
    workbook and template succeeds twice, leaves the input files as they
    were, and writes two different pages, because the chart's div id is
    drawn afresh. *)
Lemma rerun_changes_page :
  let first := main ROOT (world chart_page ids_a) in
  let second := main ROOT first.2 in
  first.1 = Ok tt /\ second.1 = Ok tt /\
  fs first.2 !! INPUT = chart_page !! INPUT /\
  fs first.2 !! TEMPLATE = chart_page !! TEMPLATE /\
  bool_decide (fs first.2 !! INDEX = fs second.2 !! INDEX) = false.
Proof. vm_compute. repeat split. Qed.

Lemma build_deterministic_given_ids_witness :
  (main ROOT (world chart_page ids_a)).1 = (main ROOT (shifted chart_page)).1 /\
  fs (main ROOT (world chart_page ids_a)).2 = fs (main ROOT (shifted chart_page)).2.
Proof.
  assert (Hids : forall i, (i < 4)%nat ->
            uuid_source (world chart_page ids_a) (uuid_drawn (world chart_page ids_a) + i)%nat =
            uuid_source (shifted chart_page) (uuid_drawn (shifted chart_page) + i)%nat).
  { intros i Hi. do 4 (destruct i as [| i]; [reflexivity |]). lia. }
  destruct (build_deterministic_given_ids INPUT TEMPLATE DOCS ROOT
              (world chart_page ids_a) (shifted chart_page) eq_refl Hids)
    as (_ & _ & Hr & Hf).
  split; [exact Hr | exact Hf].
Defined.

(** C2 fails as stated: serial 0 (and 0.0, and [False]) gives the
    placeholder, not "Dec 30, 1899". *)
Lemma serial_zero_is_placeholder :
  excel_serial_to_datetime (VInt 0) = Ok "—" /\
  excel_serial_to_datetime (VFloat (S754_zero false)) = Ok "—" /\
  excel_serial_to_datetime (VBool false) = Ok "—" /\
  strftime (date_plus_days EPOCH_DATE 0) = "Dec 30, 1899" /\
  bool_decide (excel_serial_to_datetime (VInt 0) = Ok "Dec 30, 1899") = false.
Proof. vm_compute. repeat split. Qed.

Lemma serial_to_date_witness :
  excel_serial_to_datetime (VInt 45000) =
  Ok (strftime (date_plus_days EPOCH_DATE (45000 * DAY_NS / DAY_NS))).
Proof.
  apply (serial_to_date (VInt 45000) (float_of_Z 45000) (45000 * DAY_NS) eq_refl);
    reflexivity.
Defined.

(** C3 fails as stated: with the "Summary" sheet missing the run aborts with
    a [KeyError], and the output directory, absent before, is there
    afterwards; no page and no copy are written. *)
Lemma failing_run_creates_directory :
  let run := main ROOT (world no_summary ids_a) in
  run.1 = Raise KeyError /\
  no_summary !! DOCS = None /\ fs run.2 !! DOCS = Some Dir /\
  fs run.2 !! INDEX = None /\ fs run.2 !! joinpath DOCS EXCEL_FILENAME = None.
Proof. vm_compute. repeat split. Qed.

Lemma failing_run_writes_no_file_witness :
  exists e w', build INPUT TEMPLATE DOCS (world no_summary ids_a) = (Raise e, w') /\
    stdout w' = [] /\ fs w' = after_mkdir DOCS no_summary /\
    forall p : path, fs w' !! p = no_summary !! p \/
      (no_summary !! p = None /\ fs w' !! p = Some Dir /\ p `prefix_of` DOCS).
Proof.
  apply (failing_run_writes_no_file INPUT TEMPLATE DOCS ROOT (world no_summary ids_a)).
  right. right. right. exists (delete SHEET_SUMMARY workbook). split; [reflexivity |].
  left. reflexivity.
Defined.

Lemma currency_formatters_witness :
  money0 (VStr "abc") = "abc" /\ money2 (VStr "abc") = "abc".
Proof.
  apply (currency_formatters (VStr "abc")); [reflexivity | exact I].
Defined.



Lemma missing_column_placeholder_witness :
  chart_slot_month lower_case_month (world chart_page ids_a) =
    (Ok MONTH_UNAVAILABLE, world chart_page ids_a) /\
  chart_slot_profit lower_case_month (world chart_page ids_a) =
    (Ok PROFIT_UNAVAILABLE, world chart_page ids_a).
Proof.
  assert (Hmiss : VStr "Month" ∉ columns lower_case_month) by (apply (bool_decide_unpack _); by vm_compute).
  destruct (missing_column_placeholder lower_case_month "Month" (world chart_page ids_a) Hmiss)
    as (Hm & Hp & _).
  split; [apply Hm | apply Hp]; apply (bool_decide_unpack _); by vm_compute.
Defined.

Lemma only_first_chart_loads_library_witness :
  chart_slot_month sample_month (world chart_page ids_a) =
    (Ok (to_html sample_fig_month IncludeCdn PLOTLY_CONFIG (ids_a 0)),
     drawn_one (world chart_page ids_a)) /\
  chart_slot_profit sample_month (world chart_page ids_a) =
    (Ok (to_html sample_fig_profit IncludeFalse PLOTLY_CONFIG (ids_a 0)),
     drawn_one (world chart_page ids_a)).
Proof.
  split.
  - apply (only_first_chart_loads_library sample_month sample_fig_month); reflexivity.
  - apply (only_first_chart_loads_library sample_month sample_fig_profit); reflexivity.
Defined.

Lemma tables_narrowed_witness :
  contrib_df summary_sheet =
  Ok {| columns := [VStr "Partner"; VStr "Balance"; VStr "Notes"];
        rows := [[VStr "Anu"; VInt 600; VStr "ok"]; [VStr "Binu"; VInt 0; VNone];
                 [VStr "Cini"; VInt 0; VNone]] |}.
Proof. exact (proj1 (tables_narrowed summary_sheet)). Defined.


Lemma count_not_total_witness :
  exists e w', build INPUT TEMPLATE DOCS (world (files text_quantity "page") ids_a) =
                 (Raise e, w') /\
    fs w' = after_mkdir DOCS (files text_quantity "page") /\ stdout w' = [].
Proof.
  apply (count_not_total INPUT TEMPLATE DOCS (world (files text_quantity "page") ids_a)
           text_quantity (<[(10, 7)%nat := VStr "abc"]> dashboard_sheet) (VStr "abc")).
  - reflexivity.
  - reflexivity.
  - left. reflexivity.
  - reflexivity.
  - exact I.
Defined.


Lemma successful_run_outputs_witness :
  let run := build INPUT TEMPLATE DOCS (world chart_page ids_a) in
  exists wb html,
    chart_page !! INPUT = Some (File (Spreadsheet wb)) /\
    (render_report wb TEMPLATE
       (set_fs (world chart_page ids_a) (after_mkdir DOCS chart_page))).1 = Ok html /\
    fs run.2 !! joinpath DOCS "index.html" = Some (File (Text html)) /\
    fs run.2 !! joinpath DOCS EXCEL_FILENAME = Some (File (Spreadsheet wb)) /\
    fs run.2 !! INPUT = chart_page !! INPUT /\
    stdout run.2 = [] ++
      ["✅ Built dashboard: " +:+ path_str (joinpath DOCS "index.html");
       "⬇️  Excel download file: " +:+ path_str (joinpath DOCS EXCEL_FILENAME)] /\
    (forall p : path, p <> joinpath DOCS "index.html" -> p <> joinpath DOCS EXCEL_FILENAME ->
       fs run.2 !! p = after_mkdir DOCS chart_page !! p).
Proof.
  apply (successful_run_outputs INPUT TEMPLATE DOCS (world chart_page ids_a)
           (build INPUT TEMPLATE DOCS (world chart_page ids_a)).2).
  apply run_ok. vm_compute. reflexivity.
Defined.

Lemma rerun_same_ids_same_files_witness :
  let first := main ROOT (world chart_page ids_cycle) in
  exists w2, main ROOT first.2 = (Ok tt, w2) /\ fs w2 = fs first.2.
Proof.
  apply (rerun_same_ids_same_files ROOT (world chart_page ids_cycle)
           (main ROOT (world chart_page ids_cycle)).2).
  - apply run_ok. vm_compute. reflexivity.
  - intros i Hi. do 4 (destruct i as [| i]; [vm_compute; reflexivity |]). lia.
Defined.


Lemma count_of_float_witness :
  int_or_dash (VFloat (float_of_Z 12)) = Ok (VInt 12).
Proof.
  destruct (count_of_float 12 false 1 0) as (Hn & _). apply Hn. reflexivity.
Defined.

Lemma currency_name_substring_witness :
  is_currency_name ("Un" +:+ "PAID" +:+ " so far") = true.
Proof.
  destruct (currency_name_substring "Un" "PAID" " so far") as (_ & Hk & _).
  apply Hk. apply (bool_decide_unpack _). by vm_compute.
Defined.

Lemma money_on_integers_witness :
  money0 (VInt (-1234567)) = "₹-1,234,567" /\ money2 (VInt (-1234567)) = "₹-1,234,567.00".
Proof.
  destruct (money_on_integers (-1234567)) as [H0 H2]; [reflexivity |].
  split; [rewrite H0 | rewrite H2, H0]; by vm_compute.
Defined.


Lemma charts_draw_in_slot_order_witness :
  let run := build_charts sample_month lower_case_month lower_case_month
               (world chart_page ids_a) in
  uuid_drawn run.2 = 2%nat /\ fs run.2 = chart_page /\
  sample_charts !! "cat_qty" = Some CAT_QTY_UNAVAILABLE.
Proof.
  intros run.
  destruct (charts_draw_in_slot_order sample_month lower_case_month lower_case_month
              (world chart_page ids_a) run.2 sample_charts)
    as (Hd & Hf & _ & _ & _ & _ & Hc & _).
  { apply run_ok. vm_compute. reflexivity. }
  split; [exact Hd |]. split; [exact Hf |].
  destruct Hc as [[_ Hc] | (f & Hb & _)]; [exact Hc | discriminate Hb].
Defined.

Lemma failed_run_state_witness :
  let run := build INPUT TEMPLATE DOCS (world copy_blocked ids_a) in
  stdout run.2 = [] /\
  fs run.2 !! COPY = copy_blocked !! COPY /\
  (fs run.2 = after_mkdir DOCS copy_blocked \/
   exists wb html,
     copy_blocked !! INPUT = Some (File (Spreadsheet wb)) /\
     (render_report wb TEMPLATE
        (set_fs (world copy_blocked ids_a) (after_mkdir DOCS copy_blocked))).1 = Ok html /\
     fs run.2 = <[INDEX := File (Text html)]> (after_mkdir DOCS copy_blocked)).
Proof.
  intros run.
  apply (failed_run_state INPUT TEMPLATE DOCS (world copy_blocked ids_a) run.2
           IsADirectoryError).
  apply run_raise. vm_compute. reflexivity.
Defined.

Lemma blocked_output_directory_witness :
  build INPUT TEMPLATE DOCS (world docs_is_file ids_a) =
  (Raise FileExistsError, world docs_is_file ids_a).
Proof.
  refine (proj2 (blocked_output_directory INPUT TEMPLATE DOCS DOCS (Text "notes")
                   (world docs_is_file ids_a) _ _ _) _).
  - discriminate.
  - by exists [].
  - reflexivity.
  - intros q f' Hq [k Hk] Hne Hf.
    destruct q as [| a [| b [| c q]]]; try done.
    + injection Hk as <- _. vm_compute in Hf. discriminate Hf.
    + injection Hk as <- <- Hk. by destruct k.
Defined.

Lemma input_is_download_copy_witness :
  exists w', build COPY TEMPLATE DOCS (world self_copy ids_a) = (Raise SameFileError, w') /\
    fs w' !! INDEX = Some (File (Text self_copy_page)) /\ stdout w' = [].
Proof.
  destruct (input_is_download_copy TEMPLATE DOCS (world self_copy ids_a) workbook
              self_copy_page) as [_ Hrun].
  destruct Hrun as (w' & Hb & Hfs & Hout).
  - intros p f Hp [k Hk] Hf.
    destruct p as [| a [| b [| c p]]]; try done.
    + injection Hk as <- _. vm_compute in Hf. discriminate Hf.
    + injection Hk as <- <- _. vm_compute in Hf. discriminate Hf.
  - reflexivity.
  - vm_compute. reflexivity.
  - vm_compute. discriminate.
  - exists w'. split; [exact Hb |]. split; [| exact Hout].
    rewrite Hfs. apply lookup_insert_eq.
Defined.

Lemma page_depends_on_contents_witness :
  fs (build INPUT TEMPLATE DOCS (world chart_page ids_a)).2 !! joinpath DOCS "index.html" =
  fs (build INPUT TEMPLATE OUT (shifted copy_blocked)).2 !! joinpath OUT "index.html".
Proof.
  apply (page_depends_on_contents INPUT TEMPLATE DOCS INPUT TEMPLATE OUT
           (world chart_page ids_a) (shifted copy_blocked)).
  - apply run_ok. vm_compute. reflexivity.
  - apply run_ok. vm_compute. reflexivity.
  - reflexivity.
  - reflexivity.
  - intros i Hi. do 4 (destruct i as [| i]; [reflexivity |]). lia.
Defined.

Lemma chartless_run_is_reproducible_witness :
  let w1 := world (files blank_dashboard "page") ids_a in
  let w2 := world (files blank_dashboard "page") ids_b in
  (build INPUT TEMPLATE DOCS w1).1 = (build INPUT TEMPLATE DOCS w2).1 /\
  fs (build INPUT TEMPLATE DOCS w1).2 = fs (build INPUT TEMPLATE DOCS w2).2 /\
  uuid_drawn (build INPUT TEMPLATE DOCS w1).2 = uuid_drawn w1.
Proof.
  intros w1 w2.
  apply (chartless_run_is_reproducible INPUT TEMPLATE DOCS w1 w2 blank_dashboard ∅).
  - reflexivity.
  - reflexivity.
  - reflexivity.
  - intros c _ Heq. vm_compute in Heq. discriminate Heq.
  - intros c _ Heq. vm_compute in Heq. discriminate Heq.
  - intros c _ Heq. vm_compute in Heq. discriminate Heq.
Defined.

Lemma shared_label_drops_column_witness :
  format_df_currency {| columns := [VStr "Partner"; VNone; VNone];
                        rows := [[VStr "Anu"; VInt 1; VInt 2]] |} =
  Ok ([[(VStr "Partner", VStr "Anu"); (VNone, VInt 2)]], [VStr "Partner"; VNone; VNone]).
Proof.
  apply (shared_label_drops_column (VStr "Partner") VNone VNone [[VStr "Anu"; VInt 1; VInt 2]]);
    try reflexivity.
  by repeat constructor.
Defined.

Lemma duplicated_numeric_header_witness : month_df twice_sales = Raise TypeError.
Proof.
  destruct (duplicated_numeric_header [] sample_month INPUT TEMPLATE DOCS
              (world chart_page ids_a) workbook twice_sales "Sales (₹)" 2 3)
    as (_ & _ & Hm).
  destruct Hm as [Hm _]; [| lia | lia | lia | reflexivity | reflexivity | exact Hm].
  apply (bool_decide_unpack _). by vm_compute.
Defined.

End Runs.
